(** * simulateEHR: practice and patient generation

    A shallow embedding of the two factories of [src/practices] and
    [src/patients] and of the dataclasses they build.

    Python [float]s are read as real numbers ([R]), Python [int]s as [Z]:
    sums, quotients and [exp] are exact, so nothing below speaks of the
    rounding, overflow or saturation of a binary float.
    [Optional[int]] is [option Z].  A raised exception is a value of [exn];
    code that draws from numpy's global random state threads that state
    explicitly. *)

From Stdlib Require Import Reals Lra Lia ZArith List String Ascii Bool Sorted.
Import ListNotations.

Local Open Scope R_scope.

(** ** Numbers as Python computes with them *)

Definition Rleb (a b : R) : bool := if Rle_dec a b then true else false.
Definition Rltb (a b : R) : bool := if Rlt_dec a b then true else false.

(** [math.floor]. *)
Definition floor (x : R) : Z := Int_part x.

(** [round(x)] with one argument: nearest integer, ties to the even one. *)
Definition py_round (x : R) : Z :=
  let f := floor x in
  let d := x - IZR f in
  if Rltb d (1/2) then f
  else if Rltb (1/2) d then (f + 1)%Z
  else if Z.even f then f else (f + 1)%Z.

(** [int(x)] on a float: truncation towards zero. *)
Definition py_int (x : R) : Z :=
  if Rleb 0 x then floor x else (- floor (- x))%Z.

(** [round(x, 1)] and [np.round(x, decimals=1)]. *)
Definition round1 (x : R) : R := IZR (py_round (x * 10)) / 10.

(** [np.clip(x, a_min, a_max)] is [minimum(a_max, maximum(x, a_min))];
    [None] leaves that side open. *)
Definition np_clip (x : R) (a_min a_max : option R) : R :=
  let lo := match a_min with Some a => Rmax x a | None => x end in
  match a_max with Some b => Rmin b lo | None => lo end.

(** [max(a, b)] of the builtins returns its first argument on a tie. *)
Definition py_max (a b : R) : R := if Rltb a b then b else a.

(** [sum(xs)]: left to right from 0, each addition exact (a float sum
    may differ from it in the last place). *)
Definition py_sum (xs : list R) : R := fold_left Rplus xs 0.

(** [range(n)]. *)
Definition range (n : Z) : list Z := map Z.of_nat (seq 0 (Z.to_nat n)).

(** ** Exceptions

    Every [raise ValueError(...)] of the package is one constructor, named
    after its message. *)

Inductive value_error : Type :=
  (* patients/patient.py *)
  | BirthNotBeforeRegistration    (* "Birth date must be before registration date" *)
  | TransferNotAfterRegistration  (* "Transfer date must be after registration date" *)
  | DeathNotAfterBirth            (* "Death date must be after birth date" *)
  | DeathMustBeBeforeTransfer     (* "Death date must be before transfer date" *)
  (* practices/practice.py *)
  | RegistrationDatesUnordered    (* "Registration dates must be ordered: ..." *)
  | TransferProbabilityOutOfRange (* "Transfer probability must be between 0 and 1" *)
  | TransferGapsUnordered         (* "Transfer gaps must be ordered: ..." *)
  | TransferGapsNegative          (* "Transfer gaps cannot be negative" *)
  | BirthYearsUnordered           (* "Birth years must be ordered: ..." *)
  | BirthYearsUnrealistic         (* "Birth years must be realistic (between 1800 and 2024)" *)
  | PracticeIdNotPositive         (* "Practice ID must be a positive integer" *)
  | PatientCountNotPositive       (* "Patient count must be a positive integer" *)
  | MaleProportionOutOfRange      (* "Male proportion must be between 0 and 1" *)
  | EthnicityProportionOutOfRange (* "Ethnicity proportions must be between 0 and 1" *)
  | EthnicityProportionsSum       (* "Ethnicity proportions must sum to 1" *)
  | EthnicityKeys                 (* "Ethnicity proportions must contain exactly these keys: ..." *)
  (* practices/factories/standard.py *)
  | TransferProbabilityMeanOutOfRange (* "Transfer probability mean must be between 0 and 1, got ..." *)
  | TransferProbabilitySdNotPositive  (* "Transfer probability standard deviation must be positive, got ..." *)
  | TransferGapSdNotPositive      (* "All transfer gap standard deviations must be positive" *)
  | TransferGapMeansUnordered     (* "Transfer gap means must be properly ordered" *)
  | DegreesOfFreedomNotPositive   (* "Degrees of freedom must be positive. Got ..." *)
  | SizeMultiplierNotPositive     (* "Practice size multiplier must be positive, got ..." *)
  | RegistrationSdNotPositive     (* "All registration date standard deviations must be positive" *)
  | MaleProportionMeanOutOfRange  (* "Male proportion mean must be between 0 and 1, got ..." *)
  | MaleProportionSdNotPositive   (* "Male proportion standard deviation must be positive, got ..." *)
  | BirthYearSdNotPositive        (* "All birth year standard deviations must be positive" *)
  | BirthYearMeansUnordered       (* "Birth year means must be in chronological order. Got: ..." *)
  | BirthYearMeanUnrealistic      (* "Earliest birth year mean must be realistic (1800-2024), got ..." *)
  | NumberOfPracticesNotPositive  (* "Number of practices must be positive, got ..." *)
  (* patients/factory.py *)
  | DuplicatePatientIds           (* "Duplicate patient IDs found" *)
  | InvalidLiteralForInt.         (* raised by [int(str)] on a non-numeral *)

Inductive exn : Type :=
  | ValueError (e : value_error)
  | KeyError (key : string)
  | NotImplementedError.

Inductive result (A : Type) : Type :=
  | Ok (a : A)
  | Raise (e : exn).
Arguments Ok {A} a.
Arguments Raise {A} e.

(** A dataclass instance exists once [__init__] has stored the fields and
    [__post_init__] has returned without raising. *)
Definition construct {A} (self : A) (post_init : A -> result unit) : result A :=
  match post_init self with
  | Ok _ => Ok self
  | Raise e => Raise e
  end.

(** Truthiness of an [Optional[int]]: [None] and [0] are false. *)
Definition truthy (o : option Z) : bool :=
  match o with
  | None => false
  | Some z => negb (z =? 0)%Z
  end.

(** ** patients/patient_enums.py *)

Inductive Sex : Type := MALE | FEMALE.

Inductive Ethnicity : Type := WHITE | SOUTH_ASIAN | BLACK | MIXED | OTHER | UNKNOWN.

(** [Sex.__str__] and [Ethnicity.__str__]: the member's value. *)
Definition Sex_str (x : Sex) : string :=
  match x with
  | MALE => "M"
  | FEMALE => "F"
  end.

Definition Ethnicity_str (e : Ethnicity) : string :=
  match e with
  | WHITE => "white"
  | SOUTH_ASIAN => "south_asian"
  | BLACK => "black"
  | MIXED => "mixed"
  | OTHER => "other"
  | UNKNOWN => "unknown"
  end.

(** ** patients/patient.py *)

Module Patient.

Record t : Type := mk {
    patient_id : Z;
    practice_id : Z;
    birth_date : Z;
    registration_date : Z;
    sex : Sex;
    ethnicity : Ethnicity;
    transfer_date : option Z;
    death_date : option Z
  }.

  (** The two [isinstance] checks at the end of the method cannot fail on a
      value of type [Sex] or [Ethnicity]. *)
Definition __post_init__ (self : t) : result unit :=
    if (self.(birth_date) >=? self.(registration_date))%Z then
      Raise (ValueError BirthNotBeforeRegistration)
    else if truthy self.(transfer_date)
            && match self.(transfer_date) with
               | Some td => (td <=? self.(registration_date))%Z
               | None => false
               end then
      Raise (ValueError TransferNotAfterRegistration)
    else if truthy self.(death_date) then
      match self.(death_date) with
      | Some dd =>
          if (dd <=? self.(birth_date))%Z then
            Raise (ValueError DeathNotAfterBirth)
          else if truthy self.(transfer_date)
                  && match self.(transfer_date) with
                     | Some td => (dd <=? td)%Z
                     | None => false
                     end then
            Raise (ValueError DeathMustBeBeforeTransfer)
          else Ok tt
      | None => Ok tt
      end
    else Ok tt.

Definition new (patient_id practice_id birth_date registration_date : Z)
      (sex : Sex) (ethnicity : Ethnicity)
      (transfer_date death_date : option Z) : result t :=
    construct
      (mk patient_id practice_id birth_date registration_date
          sex ethnicity transfer_date death_date)
      __post_init__.

End Patient.

(** ** practices/practice.py *)

(** A [Dict[str, float]]: keys in insertion order, each key once. *)
Module Dict.

Definition t : Type := list (string * R).

Definition empty : t := [].

Fixpoint get (d : t) (k : string) : option R :=
  match d with
  | [] => None
  | (k', v) :: d' => if String.eqb k k' then Some v else get d' k
  end.

(** [d[k] = v]: overwrite in place, or append a new key. *)
Fixpoint set (d : t) (k : string) (v : R) : t :=
  match d with
  | [] => [(k, v)]
  | (k', v') :: d' =>
      if String.eqb k k' then (k', v) :: d' else (k', v') :: set d' k v
  end.

Definition keys (d : t) : list string := map fst d.
Definition values (d : t) : list R := map snd d.
Definition items (d : t) : list (string * R) := d.

(** A dict display or comprehension: the items are stored one after the
    other. *)
Definition of_items (kvs : list (string * R)) : t :=
  fold_left (fun d kv => set d (fst kv) (snd kv)) kvs empty.

End Dict.

(** [set(a) == set(b)] on strings. *)
Definition set_eqb (a b : list string) : bool :=
  forallb (fun x => existsb (String.eqb x) b) a
  && forallb (fun x => existsb (String.eqb x) a) b.

Module RegistrationDates.

Record t : Type := mk {
  latest_registration : R;
  earliest_registration : R;
  median_registration : R
}.

Definition __post_init__ (self : t) : result unit :=
  if negb (Rleb self.(earliest_registration) self.(median_registration)
           && Rleb self.(median_registration) self.(latest_registration)) then
    Raise (ValueError RegistrationDatesUnordered)
  else Ok tt.

Definition new (latest_registration earliest_registration median_registration : R)
    : result t :=
  construct (mk latest_registration earliest_registration median_registration)
            __post_init__.

End RegistrationDates.

Module TransferParameters.

Record t : Type := mk {
  transfer_probability : R;
  minimum_gap : R;
  median_gap : R;
  maximum_gap : R
}.

Definition __post_init__ (self : t) : result unit :=
  if negb (Rleb 0 self.(transfer_probability)
           && Rleb self.(transfer_probability) 1) then
    Raise (ValueError TransferProbabilityOutOfRange)
  else if negb (Rleb self.(minimum_gap) self.(median_gap)
                && Rleb self.(median_gap) self.(maximum_gap)) then
    Raise (ValueError TransferGapsUnordered)
  else if Rltb self.(minimum_gap) 0 then
    Raise (ValueError TransferGapsNegative)
  else Ok tt.

Definition new (transfer_probability minimum_gap median_gap maximum_gap : R)
    : result t :=
  construct (mk transfer_probability minimum_gap median_gap maximum_gap)
            __post_init__.

End TransferParameters.

Module BirthYearParameters.

Record t : Type := mk {
  earliest_birth_year : R;
  median_birth_year : R;
  latest_birth_year : R
}.

Definition __post_init__ (self : t) : result unit :=
  if negb (Rleb self.(earliest_birth_year) self.(median_birth_year)
           && Rleb self.(median_birth_year) self.(latest_birth_year)) then
    Raise (ValueError BirthYearsUnordered)
  else if negb (Rleb 1800 self.(earliest_birth_year)
                && Rleb self.(earliest_birth_year) 2024) then
    Raise (ValueError BirthYearsUnrealistic)
  else Ok tt.

Definition new (earliest_birth_year median_birth_year latest_birth_year : R)
    : result t :=
  construct (mk earliest_birth_year median_birth_year latest_birth_year)
            __post_init__.

End BirthYearParameters.

Module Practice.

Record t : Type := mk {
  practice_id : Z;
  patient_count : Z;
  male_proportion : R;
  registration_dates : RegistrationDates.t;
  transfer_params : TransferParameters.t;
  birth_years : BirthYearParameters.t;
  ethnicity_proportions : Dict.t
}.

Definition required_ethnicities : list string :=
  ["south_asian"; "black"; "other"; "mixed"; "unknown"; "white"]%string.

Definition __post_init__ (self : t) : result unit :=
  if (self.(practice_id) <=? 0)%Z then
    Raise (ValueError PracticeIdNotPositive)
  else if (self.(patient_count) <=? 0)%Z then
    Raise (ValueError PatientCountNotPositive)
  else if negb (Rleb 0 self.(male_proportion)
                && Rleb self.(male_proportion) 1) then
    Raise (ValueError MaleProportionOutOfRange)
  else if negb (forallb (fun prop => Rleb 0 prop && Rleb prop 1)
                        (Dict.values self.(ethnicity_proportions))) then
    Raise (ValueError EthnicityProportionOutOfRange)
  else if negb (py_int (py_sum (Dict.values self.(ethnicity_proportions))) =? 1)%Z then
    Raise (ValueError EthnicityProportionsSum)
  else if negb (set_eqb (Dict.keys self.(ethnicity_proportions))
                        required_ethnicities) then
    Raise (ValueError EthnicityKeys)
  else Ok tt.

Definition new (practice_id patient_count : Z) (male_proportion : R)
    (registration_dates : RegistrationDates.t)
    (transfer_params : TransferParameters.t)
    (birth_years : BirthYearParameters.t)
    (ethnicity_proportions : Dict.t) : result t :=
  construct (mk practice_id patient_count male_proportion registration_dates
                transfer_params birth_years ethnicity_proportions)
            __post_init__.

Definition total_ethnicity_proportion (self : t) : R :=
  py_sum (Dict.values self.(ethnicity_proportions)).

Definition registration_period_days (self : t) : R :=
  self.(registration_dates).(RegistrationDates.latest_registration)
  - self.(registration_dates).(RegistrationDates.earliest_registration).

Definition birth_year_range (self : t) : R :=
  self.(birth_years).(BirthYearParameters.latest_birth_year)
  - self.(birth_years).(BirthYearParameters.earliest_birth_year).

End Practice.

(** ** practices/factories/config.py and default_config.py *)

Record EthnicityConfig : Type := {
  correlation_matrix : list (list R);
  means : list R;
  standard_deviations : list R;
  ethnicity_names : list string
}.

Record DemographicConfig : Type := {
  male_proportion_mean : R;
  male_proportion_sd : R;
  min_yob_mean : R;
  min_yob_sd : R;
  med_yob_mean : R;
  med_yob_sd : R;
  max_yob_mean : R;
  max_yob_sd : R
}.

Record RegistrationConfig : Type := {
  last_registration_date : Z;
  min_registration_offset : R;
  min_registration_sd : R;
  med_registration_offset : R;
  med_registration_sd : R;
  transfer_probability_mean : R;
  transfer_probability_sd : R;
  min_transfer_gap : R;
  min_transfer_gap_sd : R;
  med_transfer_gap_mean : R;
  med_transfer_gap_sd : R;
  max_transfer_gap_mean : R;
  max_transfer_gap_sd : R
}.

Record PracticeConfig : Type := {
  ethnicity : EthnicityConfig;
  demographics : DemographicConfig;
  registration : RegistrationConfig;
  practice_size_df1 : Z;
  practice_size_df2 : Z;
  practice_size_multiplier : R
}.

Definition get_default_config : PracticeConfig :=
  {| ethnicity :=
       {| correlation_matrix :=
            [ [1; 0.78; 0.70; 0.73; 0.09];
              [0.78; 1; 0.71; 0.74; 0.04];
              [0.70; 0.71; 1; 0.60; 0.04];
              [0.73; 0.74; 0.60; 1; 0.009];
              [0.09; 0.04; 0.04; 0.009; 1] ];
          means := [-5.3; -5.6; -5.7; -6.3; -5.2];
          standard_deviations := [1.7; 1.7; 1.3; 1.1; 1.7];
          ethnicity_names :=
            ["south_asian"; "black"; "other"; "mixed"; "unknown"]%string |};
     demographics :=
       {| male_proportion_mean := 0.4;
          male_proportion_sd := 0.05;
          min_yob_mean := 1910;
          min_yob_sd := 5;
          med_yob_mean := 1943;
          med_yob_sd := 5;
          max_yob_mean := 1980;
          max_yob_sd := 5 |};
     registration :=
       {| last_registration_date := 20926;
          min_registration_offset := -4890;
          min_registration_sd := 5000;
          med_registration_offset := 11000;
          med_registration_sd := 2400;
          transfer_probability_mean := 0.2;
          transfer_probability_sd := 0.075;
          min_transfer_gap := 400;
          min_transfer_gap_sd := 20;
          med_transfer_gap_mean := 7000;
          med_transfer_gap_sd := 2000;
          max_transfer_gap_mean := 22400;
          max_transfer_gap_sd := 8000 |};
     practice_size_df1 := 30;
     practice_size_df2 := 20;
     practice_size_multiplier := 1000 |}.

(** ** Decimal text: [f"{n}"], [f"{n:03d}"], [int(s)] and [str.upper] *)

Definition digit_char (d : Z) : ascii := ascii_of_nat (48 + Z.to_nat d).

Definition digit_value (c : ascii) : option Z :=
  let n := nat_of_ascii c in
  if (48 <=? n)%nat && (n <=? 57)%nat then Some (Z.of_nat n - 48)%Z else None.

(** The digits of [n >= 0], most significant first, pushed in front of [acc]. *)
Fixpoint digits_fuel (fuel : nat) (n : Z) (acc : string) : string :=
  match fuel with
  | O => acc
  | S fuel' =>
      let acc' := String (digit_char (n mod 10)) acc in
      if (n <? 10)%Z then acc' else digits_fuel fuel' (n / 10) acc'
  end.

Definition digits (n : Z) : string :=
  digits_fuel (S (Z.to_nat (Z.log2 n))) n EmptyString.

(** [f"{n}"] *)
Definition format_d (n : Z) : string :=
  if (n <? 0)%Z then String "-" (digits (- n)) else digits n.

Fixpoint zeros (k : nat) : string :=
  match k with
  | O => EmptyString
  | S k' => String "0" (zeros k')
  end.

(** [f"{n:03d}"]: at least three characters, sign included, zeros after the
    sign. *)
Definition format_03d (n : Z) : string :=
  if (n <? 0)%Z then
    let ds := digits (- n) in
    String "-" (zeros (2 - String.length ds) ++ ds)
  else
    let ds := digits n in
    zeros (3 - String.length ds) ++ ds.

Fixpoint parse_digits (s : string) (acc : Z) : option Z :=
  match s with
  | EmptyString => Some acc
  | String c s' =>
      match digit_value c with
      | Some d => parse_digits s' (acc * 10 + d)%Z
      | None => None
      end
  end.

(** [int(s)] on the texts the f-strings above produce: an optional minus
    sign and at least one digit; anything else is a [ValueError]. *)
Definition int_of_str (s : string) : result Z :=
  let unsigned (t : string) : option Z :=
    match t with
    | EmptyString => None
    | _ => parse_digits t 0
    end in
  let parsed :=
    match s with
    | String "-" t => option_map Z.opp (unsigned t)
    | _ => unsigned s
    end in
  match parsed with
  | Some z => Ok z
  | None => Raise (ValueError InvalidLiteralForInt)
  end.

Definition upper_char (c : ascii) : ascii :=
  let n := nat_of_ascii c in
  if (97 <=? n)%nat && (n <=? 122)%nat then ascii_of_nat (n - 32) else c.

Fixpoint upper (s : string) : string :=
  match s with
  | EmptyString => EmptyString
  | String c s' => String (upper_char c) (upper s')
  end.

(** [Ethnicity[name]]: lookup of an enum member by its name. *)
Definition Ethnicity_getitem (name : string) : result Ethnicity :=
  if String.eqb name "WHITE" then Ok WHITE
  else if String.eqb name "SOUTH_ASIAN" then Ok SOUTH_ASIAN
  else if String.eqb name "BLACK" then Ok BLACK
  else if String.eqb name "MIXED" then Ok MIXED
  else if String.eqb name "OTHER" then Ok OTHER
  else if String.eqb name "UNKNOWN" then Ok UNKNOWN
  else Raise (KeyError name).

(** ** The random source

    [np.random] and [scipy.stats] are not part of the package: the samplers
    are an interface.  Each takes the state of numpy's global generator and
    returns the sample with the advanced state.  [scipy.stats.*.rvs] without
    a [random_state] draws from the same global generator. *)

Class RandomSource (rng : Type) : Type := {
  np_random_seed : Z -> rng;
  np_random_random : rng -> R * rng;
  np_random_uniform : R -> R -> rng -> R * rng;
  np_random_normal : R -> R -> rng -> R * rng;
  np_random_exponential : R -> rng -> R * rng;
  np_random_multivariate_normal : list R -> list (list R) -> rng -> list R * rng;
  stats_chi2_rvs : Z -> rng -> R * rng;
  stats_beta_rvs : R -> R -> rng -> R * rng
}.

(** Code that may raise and may draw: the generator state goes in, the
    outcome and the state reached come out.  A raise keeps the state reached
    so far. *)
Definition M (rng A : Type) : Type := rng -> result A * rng.

Definition ret {rng A} (a : A) : M rng A := fun s => (Ok a, s).

Definition raise {rng A} (e : exn) : M rng A := fun s => (Raise e, s).

Definition bind {rng A B} (m : M rng A) (k : A -> M rng B) : M rng B :=
  fun s =>
    match m s with
    | (Ok a, s') => k a s'
    | (Raise e, s') => (Raise e, s')
    end.

Definition draw {rng A} (sampler : rng -> A * rng) : M rng A :=
  fun s => let (a, s') := sampler s in (Ok a, s').

Definition lift {rng A} (r : result A) : M rng A := fun s => (r, s).

Declare Scope py_scope.
Delimit Scope py_scope with py.
Notation "x <- m ;; k" := (bind m (fun x => k))
  (at level 100, m at next level, right associativity) : py_scope.

(** A list comprehension whose body may raise or draw. *)
Fixpoint mapM {rng A B} (f : A -> M rng B) (l : list A) : M rng (list B) :=
  match l with
  | [] => ret []
  | a :: l' =>
      bind (f a) (fun b => bind (mapM f l') (fun bs => ret (b :: bs)))
  end.

Definition dict_getitem {rng} (d : Dict.t) (k : string) : M rng R :=
  match Dict.get d k with
  | Some v => ret v
  | None => raise (KeyError k)
  end.

(** ** practices/factories/standard.py *)

Module StandardPracticeFactory.

Record t : Type := mk { config : PracticeConfig }.

Definition default_seed : Z := 9147856.

Definition _load_config (config_path : option string) : result PracticeConfig :=
  match config_path with
  | None => Ok get_default_config
  | Some _ => Raise NotImplementedError
  end.

(** [1 / (1 + np.exp(-x))] over the reals; the float result saturates to
    1.0 for large [x] and to 0.0 once [np.exp] overflows, the real one
    never does. *)
Definition logistic (x : R) : R := 1 / (1 + exp (- x)).

(** [np.outer(sd, sd) * corr] on operands of matching shape. *)
Definition covariance (sd : list R) (corr : list (list R)) : list (list R) :=
  map (fun row_corr =>
         map (fun col_corr => fst row_corr * fst col_corr * snd col_corr)
             (combine sd (snd row_corr)))
      (combine sd corr).

Section WithRandomSource.
Context {rng : Type} {RS : RandomSource rng}.
Local Open Scope py_scope.

(** [np.random.seed(seed)] replaces the global state, whatever it was. *)
Definition __init__ (seed : Z) (config_path : option string) : M rng t :=
  fun _ =>
    let s := np_random_seed seed in
    match _load_config config_path with
    | Ok c => (Ok (mk c), s)
    | Raise e => (Raise e, s)
    end.

Definition _generate_ethnicity_proportions (self : t) : M rng Dict.t :=
  let config := self.(config).(ethnicity) in
  let covariance_matrix :=
    covariance config.(standard_deviations) config.(correlation_matrix) in
  normal_variates <-
    draw (np_random_multivariate_normal config.(means) covariance_matrix) ;;
  let ethnicity_names :=
    ["south_asian"; "black"; "other"; "mixed"; "unknown"]%string in
  let raw_probs :=
    Dict.of_items
      (map (fun name_value => (fst name_value, logistic (snd name_value)))
           (combine ethnicity_names normal_variates)) in
  unknown <- dict_getitem raw_probs "unknown" ;;
  let effective_total := 1 - unknown in
  let final_probs := Dict.set Dict.empty "unknown" unknown in
  raw_south_asian <- dict_getitem raw_probs "south_asian" ;;
  let south_asian := raw_south_asian / effective_total in
  let final_probs := Dict.set final_probs "south_asian" south_asian in
  raw_black <- dict_getitem raw_probs "black" ;;
  let black := raw_black / ((1 - raw_south_asian) * effective_total) in
  let final_probs := Dict.set final_probs "black" black in
  raw_mixed <- dict_getitem raw_probs "mixed" ;;
  let mixed :=
    raw_mixed / ((1 - raw_black) * (1 - raw_south_asian) * effective_total) in
  let final_probs := Dict.set final_probs "mixed" mixed in
  raw_other <- dict_getitem raw_probs "other" ;;
  let other :=
    raw_other / ((1 - raw_mixed) * (1 - raw_black)
                 * (1 - raw_south_asian) * effective_total) in
  let final_probs := Dict.set final_probs "other" other in
  let white := (1 - south_asian - black - mixed - other) * (1 - unknown) in
  let final_probs := Dict.set final_probs "white" white in
  ret final_probs.

Definition _generate_transfer_parameters (self : t) : M rng TransferParameters.t :=
  let config := self.(config).(registration) in
  if negb (Rleb 0 config.(transfer_probability_mean)
           && Rleb config.(transfer_probability_mean) 1) then
    raise (ValueError TransferProbabilityMeanOutOfRange)
  else if Rleb config.(transfer_probability_sd) 0 then
    raise (ValueError TransferProbabilitySdNotPositive)
  else if existsb (fun sd => Rleb sd 0)
            [config.(min_transfer_gap_sd);
             config.(med_transfer_gap_sd);
             config.(max_transfer_gap_sd)] then
    raise (ValueError TransferGapSdNotPositive)
  else if negb (Rltb config.(min_transfer_gap) config.(med_transfer_gap_mean)
                && Rltb config.(med_transfer_gap_mean)
                        config.(max_transfer_gap_mean)) then
    raise (ValueError TransferGapMeansUnordered)
  else
    p <- draw (np_random_normal config.(transfer_probability_mean)
                                config.(transfer_probability_sd)) ;;
    let transfer_probability := np_clip p (Some 0) (Some 1) in
    g0 <- draw (np_random_normal 0 config.(min_transfer_gap_sd)) ;;
    let minimum_gap :=
      np_clip (config.(min_transfer_gap) + round1 g0) (Some 0) None in
    g1 <- draw (np_random_normal config.(med_transfer_gap_mean)
                                 config.(med_transfer_gap_sd)) ;;
    let median_gap := np_clip g1 (Some (minimum_gap + 100)) None in
    g2 <- draw (np_random_normal config.(max_transfer_gap_mean)
                                 config.(max_transfer_gap_sd)) ;;
    let maximum_gap := np_clip g2 (Some (median_gap + 100)) None in
    lift (TransferParameters.new transfer_probability minimum_gap
                                 median_gap maximum_gap).

Definition _generate_practice_size (self : t) : M rng Z :=
  let cfg := self.(config) in
  if (cfg.(practice_size_df1) <=? 0)%Z || (cfg.(practice_size_df2) <=? 0)%Z then
    raise (ValueError DegreesOfFreedomNotPositive)
  else if Rleb cfg.(practice_size_multiplier) 0 then
    raise (ValueError SizeMultiplierNotPositive)
  else
    n1 <- draw (stats_chi2_rvs cfg.(practice_size_df1)) ;;
    n2 <- draw (stats_chi2_rvs cfg.(practice_size_df2)) ;;
    let n_patients :=
      py_round (cfg.(practice_size_multiplier)
                * (n1 / IZR cfg.(practice_size_df1))
                / (n2 / IZR cfg.(practice_size_df2))) in
    ret n_patients.

Definition _generate_registration_dates (self : t) : M rng RegistrationDates.t :=
  let reg_config := self.(config).(registration) in
  if existsb (fun sd => Rleb sd 0)
       [reg_config.(min_registration_sd); reg_config.(med_registration_sd)] then
    raise (ValueError RegistrationSdNotPositive)
  else
    offset <- draw (np_random_exponential 1500) ;;
    let latest_registration :=
      IZR reg_config.(last_registration_date) - offset in
    earliest_registration <-
      draw (np_random_normal reg_config.(min_registration_offset)
                             reg_config.(min_registration_sd)) ;;
    m <- draw (np_random_normal reg_config.(med_registration_offset)
                                reg_config.(med_registration_sd)) ;;
    let median_registration :=
      np_clip m (Some (earliest_registration + 100))
                (Some (latest_registration - 100)) in
    lift (RegistrationDates.new latest_registration earliest_registration
                                median_registration).

Definition _generate_demographics (self : t) : M rng R :=
  let demo_config := self.(config).(demographics) in
  if negb (Rleb 0 demo_config.(male_proportion_mean)
           && Rleb demo_config.(male_proportion_mean) 1) then
    raise (ValueError MaleProportionMeanOutOfRange)
  else if Rleb demo_config.(male_proportion_sd) 0 then
    raise (ValueError MaleProportionSdNotPositive)
  else
    x <- draw (np_random_normal demo_config.(male_proportion_mean)
                                demo_config.(male_proportion_sd)) ;;
    let male_proportion := np_clip x (Some 0) (Some 1) in
    ret male_proportion.

Definition _generate_birth_years (self : t) : M rng BirthYearParameters.t :=
  let config := self.(config).(demographics) in
  if existsb (fun sd => Rleb sd 0)
       [config.(min_yob_sd); config.(med_yob_sd); config.(max_yob_sd)] then
    raise (ValueError BirthYearSdNotPositive)
  else if negb (Rltb config.(min_yob_mean) config.(med_yob_mean)
                && Rltb config.(med_yob_mean) config.(max_yob_mean)) then
    raise (ValueError BirthYearMeansUnordered)
  else if negb (Rleb 1800 config.(min_yob_mean)
                && Rleb config.(min_yob_mean) 2024) then
    raise (ValueError BirthYearMeanUnrealistic)
  else
    earliest_birth_year <-
      draw (np_random_normal config.(min_yob_mean) config.(min_yob_sd)) ;;
    y1 <- draw (np_random_normal config.(med_yob_mean) config.(med_yob_sd)) ;;
    let median_birth_year := np_clip y1 (Some (earliest_birth_year + 5)) None in
    y2 <- draw (np_random_normal config.(max_yob_mean) config.(max_yob_sd)) ;;
    let latest_birth_year := np_clip y2 (Some (median_birth_year + 5)) None in
    lift (BirthYearParameters.new (round1 earliest_birth_year)
                                  (round1 median_birth_year)
                                  (round1 latest_birth_year)).

Definition create_practice (self : t) (practice_id : Z) : M rng Practice.t :=
  practice_size <- _generate_practice_size self ;;
  registration_dates <- _generate_registration_dates self ;;
  ethnicity_props <- _generate_ethnicity_proportions self ;;
  male_prop <- _generate_demographics self ;;
  transfer_params <- _generate_transfer_parameters self ;;
  birth_years <- _generate_birth_years self ;;
  lift (Practice.new practice_id practice_size male_prop registration_dates
                     transfer_params birth_years ethnicity_props).

Definition create_practices (self : t) (number_of_practices : Z)
    : M rng (list Practice.t) :=
  if (number_of_practices <=? 0)%Z then
    raise (ValueError NumberOfPracticesNotPositive)
  else
    mapM (fun i => create_practice self (i + 1)%Z) (range number_of_practices).

End WithRandomSource.

End StandardPracticeFactory.

(** ** patients/factory.py *)

(** [len(set(xs)) != len(xs)] *)
Definition has_duplicates (xs : list Z) : bool :=
  negb (List.length (nodup Z.eq_dec xs) =? List.length xs)%nat.

(** [list.sort(key=...)]: a stable sort. *)
Fixpoint insert_by {A} (key : A -> Z) (x : A) (l : list A) : list A :=
  match l with
  | [] => [x]
  | y :: l' =>
      if (key y <=? key x)%Z then y :: insert_by key x l' else x :: y :: l'
  end.

Definition sort_by {A} (key : A -> Z) (l : list A) : list A :=
  fold_left (fun sorted x => insert_by key x sorted) l [].

Module PatientFactory.

Record t : Type := mk { practice : Practice.t }.

Definition __init__ (practice : Practice.t) : t := mk practice.

Definition _generate_patient_id (self : t) (index : Z) : result Z :=
  let sequential_num := (index + 1)%Z in
  let patient_id_str :=
    (format_d sequential_num
     ++ format_03d self.(practice).(Practice.practice_id))%string in
  int_of_str patient_id_str.

(** The body of the [for] loop of [_generate_ethnicity], over the items not
    yet visited; [None] when the loop runs to its end. *)
Fixpoint ethnicity_loop (items : list (string * R)) (effective_total u cumsum : R)
    : option (result Ethnicity) :=
  match items with
  | [] => None
  | (eth_name, prop) :: items' =>
      if negb (String.eqb eth_name "unknown") then
        let cumsum := cumsum + prop / effective_total in
        if Rltb u cumsum then Some (Ethnicity_getitem (upper eth_name))
        else ethnicity_loop items' effective_total u cumsum
      else ethnicity_loop items' effective_total u cumsum
  end.

Definition _generate_death_date (self : t) (birth_date : Z)
    (transfer_date : option Z) : option Z :=
  let potential_death := (birth_date + py_int (105 * 365.25))%Z in
  if Rleb (IZR potential_death)
          self.(practice).(Practice.registration_dates)
              .(RegistrationDates.latest_registration)
     && match transfer_date with
        | None => true
        | Some td => (potential_death <=? td)%Z
        end then
    Some potential_death
  else None.

(** One element of the list [save_patients] hands to the data frame; the
    writing of the frame to a file is left out. *)
Record row : Type := mk_row {
  patid : Z;
  pracid : Z;
  dob_hidden : Z;
  sex : string;
  eth5 : string;
  crd : Z;
  tod : option Z;
  deathdate : option Z
}.

Definition save_row (p : Patient.t) : row :=
  {| patid := p.(Patient.patient_id);
     pracid := p.(Patient.practice_id);
     dob_hidden := p.(Patient.birth_date);
     sex := Sex_str p.(Patient.sex);
     eth5 := Ethnicity_str p.(Patient.ethnicity);
     crd := p.(Patient.registration_date);
     tod := if truthy p.(Patient.transfer_date)
            then p.(Patient.transfer_date) else None;
     deathdate := if truthy p.(Patient.death_date)
                  then p.(Patient.death_date) else None |}.

Section WithRandomSource.
Context {rng : Type} {RS : RandomSource rng}.
Local Open Scope py_scope.

Definition _generate_sex (self : t) : M rng Sex :=
  u <- draw np_random_random ;;
  ret (if Rltb u self.(practice).(Practice.male_proportion)
       then MALE else FEMALE).

Definition _generate_ethnicity (self : t) : M rng Ethnicity :=
  let props := self.(practice).(Practice.ethnicity_proportions) in
  u <- draw np_random_random ;;
  p_unknown <- dict_getitem props "unknown" ;;
  if Rltb u p_unknown then ret UNKNOWN
  else
    let effective_total := 1 - p_unknown in
    u <- draw np_random_random ;;
    match ethnicity_loop (Dict.items props) effective_total u 0 with
    | Some r => lift r
    | None => ret WHITE
    end.

Definition _generate_birth_date (self : t) : M rng Z :=
  let birth_years := self.(practice).(Practice.birth_years) in
  b <- draw (stats_beta_rvs 2 0.5) ;;
  let year :=
    birth_years.(BirthYearParameters.earliest_birth_year)
    + b * (birth_years.(BirthYearParameters.latest_birth_year)
           - birth_years.(BirthYearParameters.earliest_birth_year)) in
  let days_in_year := 365.25 in
  day_of_year <- draw (np_random_uniform 0 days_in_year) ;;
  let years_since_reference := year - 1960 in
  let days_since_reference :=
    py_int (years_since_reference * 365.25 + day_of_year) in
  ret days_since_reference.

Definition _generate_registration_date (self : t) (birth_date : Z) : M rng Z :=
  let reg_dates := self.(practice).(Practice.registration_dates) in
  registration_date <-
    draw (np_random_uniform
            (py_max 0 reg_dates.(RegistrationDates.earliest_registration))
            reg_dates.(RegistrationDates.latest_registration)) ;;
  registration_date <-
    (if Rleb registration_date (IZR birth_date) then
       let max_years_after_birth := 5 in
       days_after_birth <-
         draw (np_random_uniform 0 (max_years_after_birth * 365.25)) ;;
       ret (IZR birth_date + days_after_birth)
     else ret registration_date) ;;
  ret (py_round registration_date).

Definition _generate_transfer_date (self : t) (birth_date registration_date : Z)
    : M rng (option Z) :=
  let transfer_params := self.(practice).(Practice.transfer_params) in
  u <- draw np_random_random ;;
  if Rltb u transfer_params.(TransferParameters.transfer_probability) then
    gap <- draw (np_random_uniform
                   transfer_params.(TransferParameters.minimum_gap)
                   transfer_params.(TransferParameters.maximum_gap)) ;;
    let potential_transfer := IZR registration_date + gap in
    let study_end :=
      self.(practice).(Practice.registration_dates)
          .(RegistrationDates.latest_registration) in
    buffer <- draw (np_random_uniform 0 60) ;;
    let min_transfer_date :=
      py_max 11323 (IZR birth_date + 18 * 365.25 + 7 + buffer) in
    if Rleb potential_transfer study_end
       && Rltb min_transfer_date potential_transfer then
      ret (Some (py_round potential_transfer))
    else ret None
  else ret None.

Definition create_patient (self : t) (index : Z) : M rng Patient.t :=
  patient_id <- lift (_generate_patient_id self index) ;;
  sex <- _generate_sex self ;;
  ethnicity <- _generate_ethnicity self ;;
  birth_date <- _generate_birth_date self ;;
  registration_date <- _generate_registration_date self birth_date ;;
  transfer_date <- _generate_transfer_date self birth_date registration_date ;;
  let death_date := _generate_death_date self birth_date transfer_date in
  lift (Patient.new patient_id self.(practice).(Practice.practice_id)
                    birth_date registration_date sex ethnicity
                    transfer_date death_date).

Definition create_patients (self : t) : M rng (list Patient.t) :=
  patients <-
    mapM (create_patient self) (range self.(practice).(Practice.patient_count)) ;;
  let patient_ids := map Patient.patient_id patients in
  if has_duplicates patient_ids then
    raise (ValueError DuplicatePatientIds)
  else
    ret (sort_by Patient.patient_id patients).

End WithRandomSource.

End PatientFactory.

(** ** A run of the package

    A client builds a [StandardPracticeFactory] with a seed and then calls
    the factories; what it calls next may depend on what it got back, and it
    may catch what was raised.  [AssignConfig] is the attribute assignment
    [factory.config = cfg] the test-suite uses to change parameters. *)

Inductive client : Type :=
  | Stop
  | CreatePractice (practice_id : Z) (k : result Practice.t -> client)
  | CreatePractices (number_of_practices : Z)
      (k : result (list Practice.t) -> client)
  | CreatePatient (practice : Practice.t) (index : Z)
      (k : result Patient.t -> client)
  | CreatePatients (practice : Practice.t)
      (k : result (list Patient.t) -> client)
  | AssignConfig (cfg : PracticeConfig) (k : client).

Inductive output : Type :=
  | PracticeOut (r : result Practice.t)
  | PracticesOut (r : result (list Practice.t))
  | PatientOut (r : result Patient.t)
  | PatientsOut (r : result (list Patient.t)).

Section Run.
Context {rng : Type} {RS : RandomSource rng}.

Fixpoint exec (c : client) (factory : StandardPracticeFactory.t) (s : rng)
    : list output :=
  match c with
  | Stop => []
  | CreatePractice practice_id k =>
      let (r, s') := StandardPracticeFactory.create_practice factory practice_id s in
      PracticeOut r :: exec (k r) factory s'
  | CreatePractices n k =>
      let (r, s') := StandardPracticeFactory.create_practices factory n s in
      PracticesOut r :: exec (k r) factory s'
  | CreatePatient practice index k =>
      let (r, s') :=
        PatientFactory.create_patient (PatientFactory.__init__ practice) index s in
      PatientOut r :: exec (k r) factory s'
  | CreatePatients practice k =>
      let (r, s') :=
        PatientFactory.create_patients (PatientFactory.__init__ practice) s in
      PatientsOut r :: exec (k r) factory s'
  | AssignConfig cfg k =>
      exec k (StandardPracticeFactory.mk cfg) s
  end.

(** One run: [StandardPracticeFactory(seed)] in a process whose global
    generator is in state [ambient], then the client's calls. *)
Definition run (seed : Z) (c : client) (ambient : rng) : list output :=
  match StandardPracticeFactory.__init__ seed None ambient with
  | (Ok factory, s) => exec c factory s
  | (Raise _, _) => []
  end.

End Run.

(** ** A random source that replays recorded draws

    The state is the list of draws still to come; every sampler hands out
    the next one (0 once the list is exhausted), a multivariate draw as many
    as its mean vector has entries. *)

Definition pop (t : list R) : R * list R :=
  match t with
  | [] => (0, [])
  | x :: t' => (x, t')
  end.

Fixpoint pop_n (n : nat) (t : list R) : list R * list R :=
  match n with
  | O => ([], t)
  | S n' =>
      let (x, t') := pop t in
      let (xs, t'') := pop_n n' t' in
      (x :: xs, t'')
  end.

Definition Replay (recording : Z -> list R) : RandomSource (list R) :=
  {| np_random_seed := recording;
     np_random_random := pop;
     np_random_uniform := fun _ _ => pop;
     np_random_normal := fun _ _ => pop;
     np_random_exponential := fun _ => pop;
     np_random_multivariate_normal := fun mean _ => pop_n (List.length mean);
     stats_chi2_rvs := fun _ => pop;
     stats_beta_rvs := fun _ _ => pop |}.

(** Replaying from the list at hand; seeding leaves nothing recorded. *)
Definition recorded : RandomSource (list R) := Replay (fun _ => []).

(** ** Sample values *)

(** The fixture of [tests/practices/test_practice.py], with registration
    dates and transfer gaps on the scale of the default configuration. *)
Definition sample_ethnicity_proportions : Dict.t :=
  [ ("white", 0.75); ("south_asian", 0.15); ("black", 0.05);
    ("other", 0.03); ("mixed", 0.01); ("unknown", 0.01) ]%string.

Definition sample_registration_dates : RegistrationDates.t :=
  RegistrationDates.mk 20000 0 10000.

Definition sample_transfer_params : TransferParameters.t :=
  TransferParameters.mk 0.5 400 7000 22400.

Definition sample_birth_years : BirthYearParameters.t :=
  BirthYearParameters.mk 1900 1950 2000.

Definition sample_practice : Practice.t :=
  Practice.mk 1 1000 0.4 sample_registration_dates sample_transfer_params
              sample_birth_years sample_ethnicity_proportions.

(** The default configuration with both degrees of freedom and the
    multiplier set to 1. *)
Definition unit_size_config : PracticeConfig :=
  {| ethnicity := get_default_config.(ethnicity);
     demographics := get_default_config.(demographics);
     registration := get_default_config.(registration);
     practice_size_df1 := 1;
     practice_size_df2 := 1;
     practice_size_multiplier := 1 |}.

(** [self.factory.config.practice_size_df1 = -1], as in
    [tests/practices/factories/test_standard.py]. *)
Definition negative_df1_config : PracticeConfig :=
  {| ethnicity := get_default_config.(ethnicity);
     demographics := get_default_config.(demographics);
     registration := get_default_config.(registration);
     practice_size_df1 := -1;
     practice_size_df2 := get_default_config.(practice_size_df2);
     practice_size_multiplier := get_default_config.(practice_size_multiplier) |}.

(** The proportions [_generate_ethnicity_proportions] computes when all
    five logistic values are 1/10. *)
Definition skewed_ethnicity_proportions : Dict.t :=
  [ ("unknown", 1/10); ("south_asian", 1/9); ("black", 10/81);
    ("mixed", 100/729); ("other", 1000/6561); ("white", 1561/3645) ]%string.

Definition recorded_transfer_params : TransferParameters.t :=
  TransferParameters.mk 0.2 400 7000 22400.

Definition recorded_birth_years : BirthYearParameters.t :=
  BirthYearParameters.mk 1910 1943 1980.

Definition skewed_practice (practice_id : Z) : Practice.t :=
  Practice.mk practice_id 1000 0.4 sample_registration_dates
              recorded_transfer_params recorded_birth_years
              skewed_ethnicity_proportions.

(** The draws of one [create_practice] call under the default
    configuration, in the order they are consumed: two chi-square, one
    exponential, two normal, the five correlated normal variates, then
    eight normal. *)
Definition practice_recording : list R :=
  [30; 20; 926; 0; 10000; - ln 9; - ln 9; - ln 9; - ln 9; - ln 9;
   0.4; 0.2; 0; 7000; 22400; 1910; 1943; 1980].

(** The draws of one [create_patient] call in [sample_practice], in the
    order they are consumed: sex, ethnicity (two), beta for the birth year,
    day of the year, registration, transfer trigger, gap, buffer. *)
Definition patient_recording : list R :=
  [0.3; 0.5; 0.5; 0.05; 88.75; 5000; 0.1; 14000; 30].

(** The same draws with the five correlated normal variates all 0, so that
    every logistic value is exactly 1/2. *)
Definition even_odds_recording : list R :=
  [30; 20; 926; 0; 10000; 0; 0; 0; 0; 0;
   0.4; 0.2; 0; 7000; 22400; 1910; 1943; 1980].

Definition even_odds_ethnicity_proportions : Dict.t :=
  [ ("unknown", 1/2); ("south_asian", 1); ("black", 2);
    ("mixed", 4); ("other", 8); ("white", -7) ]%string.

(** The default configuration with an ethnicity part for two categories
    only: two means, two standard deviations, a 2x2 correlation matrix. *)
Definition two_category_config : PracticeConfig :=
  {| ethnicity :=
       {| correlation_matrix := [ [1; 0]; [0; 1] ];
          means := [0; 0];
          standard_deviations := [1; 1];
          ethnicity_names := ["south_asian"; "black"]%string |};
     demographics := get_default_config.(demographics);
     registration := get_default_config.(registration);
     practice_size_df1 := get_default_config.(practice_size_df1);
     practice_size_df2 := get_default_config.(practice_size_df2);
     practice_size_multiplier := get_default_config.(practice_size_multiplier) |}.

(** [sample_practice] with two patients. *)
Definition pair_practice : Practice.t :=
  Practice.mk 1 2 0.4 sample_registration_dates sample_transfer_params
              sample_birth_years sample_ethnicity_proportions.

(** A client that asks for practice 1 and then for its patients, or for
    one patient of the fixture practice when practice 1 could not be
    built. *)
Definition sample_client : client :=
  CreatePractice 1 (fun r =>
    match r with
    | Ok practice => CreatePatients practice (fun _ => Stop)
    | Raise _ => CreatePatient sample_practice 0 (fun _ => Stop)
    end).

(** ** Vocabulary of the properties *)

(** What [Patient.__post_init__] accepts, one conjunct per check. *)
Definition Patient_accepts (b r : Z) (td dd : option Z) : Prop :=
  (b < r)%Z
  /\ (forall t, td = Some t -> t <> 0%Z -> (r < t)%Z)
  /\ (forall d, dd = Some d -> d <> 0%Z ->
        (b < d)%Z /\ (forall t, td = Some t -> t <> 0%Z -> (t < d)%Z)).

(** The three orderings of a Practice. *)
Definition practice_ordered (p : Practice.t) : Prop :=
  let rd := p.(Practice.registration_dates) in
  let bp := p.(Practice.birth_years) in
  let tp := p.(Practice.transfer_params) in
  rd.(RegistrationDates.earliest_registration)
    <= rd.(RegistrationDates.median_registration)
    <= rd.(RegistrationDates.latest_registration)
  /\ bp.(BirthYearParameters.earliest_birth_year)
       <= bp.(BirthYearParameters.median_birth_year)
       <= bp.(BirthYearParameters.latest_birth_year)
  /\ 0 <= tp.(TransferParameters.minimum_gap)
  /\ tp.(TransferParameters.minimum_gap)
       <= tp.(TransferParameters.median_gap)
       <= tp.(TransferParameters.maximum_gap).

(** [m] raises nothing but exceptions satisfying [P]. *)
Definition raises_only {rng A} (P : exn -> Prop) (m : M rng A) : Prop :=
  forall s e s', m s = (Raise e, s') -> P e.

(** Any exception but the one [create_practices] raises for its count. *)
Definition not_count_error (e : exn) : Prop :=
  e <> ValueError NumberOfPracticesNotPositive.

(** What the loop of [_generate_ethnicity] hands back: nothing, or one of
    the five categories other than UNKNOWN; never an exception. *)
Definition ethnicity_loop_result_known (r : option (result Ethnicity)) : Prop :=
  match r with
  | None => True
  | Some (Ok e) => e <> UNKNOWN
  | Some (Raise _) => False
  end.

(** Any exception but the one [create_patients] raises for repeated
    identifiers. *)
Definition not_duplicate_error (e : exn) : Prop :=
  e <> ValueError DuplicatePatientIds.

(** The calls of [create_practice] for the identifiers [ids], one after the
    other, each from the generator state the one before left: every one of
    them returns, [practices] is what they return, in order, and the last
    one leaves the state [s']. *)
Inductive calls_return {rng : Type} {RS : RandomSource rng}
    (self : StandardPracticeFactory.t)
    : list Z -> rng -> list Practice.t -> rng -> Prop :=
  | calls_return_nil (s : rng) : calls_return self [] s [] s
  | calls_return_cons (id : Z) (ids : list Z) (s s1 s2 : rng)
      (p : Practice.t) (practices : list Practice.t) :
      StandardPracticeFactory.create_practice self id s = (Ok p, s1) ->
      calls_return self ids s1 practices s2 ->
      calls_return self (id :: ids) s (p :: practices) s2.

(** Two runs, each in a process with a generator of its own.  The two
    generators advance alike: seeded with the same seed they are in matching
    states, and from matching states every sampler, asked the same thing,
    hands out the same sample and leaves matching states. *)
Section TwoSources.
Context {rng1 rng2 : Type}.
Variable RS1 : RandomSource rng1.
Variable RS2 : RandomSource rng2.
Variable matching : rng1 -> rng2 -> Prop.

Definition sampler_agrees {A} (f1 : rng1 -> A * rng1) (f2 : rng2 -> A * rng2)
    : Prop :=
  forall s1 s2, matching s1 s2 ->
    fst (f1 s1) = fst (f2 s2) /\ matching (snd (f1 s1)) (snd (f2 s2)).

Record sources_agree : Prop := {
  agree_seed : forall seed,
    matching (@np_random_seed rng1 RS1 seed) (@np_random_seed rng2 RS2 seed);
  agree_random :
    sampler_agrees (@np_random_random rng1 RS1) (@np_random_random rng2 RS2);
  agree_uniform : forall low high,
    sampler_agrees (@np_random_uniform rng1 RS1 low high)
                   (@np_random_uniform rng2 RS2 low high);
  agree_normal : forall loc scale,
    sampler_agrees (@np_random_normal rng1 RS1 loc scale)
                   (@np_random_normal rng2 RS2 loc scale);
  agree_exponential : forall scale,
    sampler_agrees (@np_random_exponential rng1 RS1 scale)
                   (@np_random_exponential rng2 RS2 scale);
  agree_multivariate_normal : forall mean cov,
    sampler_agrees (@np_random_multivariate_normal rng1 RS1 mean cov)
                   (@np_random_multivariate_normal rng2 RS2 mean cov);
  agree_chi2 : forall df,
    sampler_agrees (@stats_chi2_rvs rng1 RS1 df) (@stats_chi2_rvs rng2 RS2 df);
  agree_beta : forall a b,
    sampler_agrees (@stats_beta_rvs rng1 RS1 a b) (@stats_beta_rvs rng2 RS2 a b)
}.

(** The same code in the two processes: from matching states it has the
    same outcome (value or exception) and leaves matching states. *)
Definition same_outcome {A} (m1 : M rng1 A) (m2 : M rng2 A) : Prop :=
  forall s1 s2, matching s1 s2 ->
    fst (m1 s1) = fst (m2 s2) /\ matching (snd (m1 s1)) (snd (m2 s2)).

End TwoSources.

(** Two replay states with the same draws to come: they differ at most in
    zeros at the end, which is what an exhausted recording hands out. *)
Definition same_draws (t1 t2 : list R) : Prop :=
  forall n, nth n t1 0 = nth n t2 0.

(** * Properties *)

(** ** Comparisons and rounding *)

Lemma Rleb_true (a b : R) : Rleb a b = true <-> a <= b.
Proof. unfold Rleb; destruct (Rle_dec a b); split; intros; try easy. Qed.

Lemma Rleb_false (a b : R) : Rleb a b = false <-> b < a.
Proof. unfold Rleb; destruct (Rle_dec a b); split; intros; try easy; lra. Qed.

Lemma Rltb_true (a b : R) : Rltb a b = true <-> a < b.
Proof. unfold Rltb; destruct (Rlt_dec a b); split; intros; try easy. Qed.

Lemma Rltb_false (a b : R) : Rltb a b = false <-> b <= a.
Proof. unfold Rltb; destruct (Rlt_dec a b); split; intros; try easy; lra. Qed.

(** Rewrites every comparison whose outcome [lra] can settle. *)
Ltac rcmp :=
  repeat match goal with
  | |- context [Rleb ?a ?b] =>
      first [ replace (Rleb a b) with true by (symmetry; apply Rleb_true; lra)
            | replace (Rleb a b) with false by (symmetry; apply Rleb_false; lra) ]
  | |- context [Rltb ?a ?b] =>
      first [ replace (Rltb a b) with true by (symmetry; apply Rltb_true; lra)
            | replace (Rltb a b) with false by (symmetry; apply Rltb_false; lra) ]
  end.

(** Turns boolean comparisons in the hypotheses into inequalities. *)
Ltac rhyp :=
  repeat match goal with
  | H : Rleb _ _ = true |- _ => apply Rleb_true in H
  | H : Rleb _ _ = false |- _ => apply Rleb_false in H
  | H : Rltb _ _ = true |- _ => apply Rltb_true in H
  | H : Rltb _ _ = false |- _ => apply Rltb_false in H
  | H : (_ && _)%bool = true |- _ => apply andb_true_iff in H; destruct H
  end.

Lemma floor_bounds (x : R) : IZR (floor x) <= x < IZR (floor x) + 1.
Proof.
  unfold floor. destruct (base_Int_part x) as [H1 H2]. lra.
Qed.

Lemma floor_unique (x : R) (z : Z) : IZR z <= x < IZR z + 1 -> floor x = z.
Proof.
  intros H. unfold floor. symmetry. apply Int_part_spec. lra.
Qed.

Lemma py_round_below (z : Z) (d : R) :
  0 <= d < 1/2 -> py_round (IZR z + d) = z.
Proof.
  intros H. unfold py_round.
  rewrite (floor_unique (IZR z + d) z) by lra.
  rcmp. reflexivity.
Qed.

Lemma py_round_above (z : Z) (d : R) :
  1/2 < d < 1 -> py_round (IZR z + d) = (z + 1)%Z.
Proof.
  intros H. unfold py_round.
  rewrite (floor_unique (IZR z + d) z) by lra.
  rcmp. reflexivity.
Qed.

Lemma py_round_tie (z : Z) :
  py_round (IZR z + 1/2) = if Z.even z then z else (z + 1)%Z.
Proof.
  unfold py_round.
  rewrite (floor_unique (IZR z + 1/2) z) by lra.
  rcmp. reflexivity.
Qed.

Lemma py_round_IZR (z : Z) : py_round (IZR z) = z.
Proof.
  rewrite <- (Rplus_0_r (IZR z)). apply py_round_below. lra.
Qed.

Lemma py_round_near (x : R) : x - 1/2 <= IZR (py_round x) <= x + 1/2.
Proof.
  unfold py_round. pose proof (floor_bounds x) as Hf.
  destruct (Rltb (x - IZR (floor x)) (1/2)) eqn:E1.
  - apply Rltb_true in E1. lra.
  - apply Rltb_false in E1.
    destruct (Rltb (1/2) (x - IZR (floor x))) eqn:E2.
    + apply Rltb_true in E2. rewrite plus_IZR. lra.
    + apply Rltb_false in E2.
      destruct (Z.even (floor x)); [| rewrite plus_IZR]; lra.
Qed.

Lemma py_round_nonneg (x : R) : 0 <= x -> (0 <= py_round x)%Z.
Proof.
  intros Hx. pose proof (py_round_near x) as Hn.
  destruct (Z_lt_le_dec (py_round x) 0) as [Hlt | Hge]; [| exact Hge].
  assert (IZR (py_round x) <= -1) by (apply IZR_le; lia).
  lra.
Qed.

(** For a non-negative argument, [round] reaches 1 exactly above one half:
    [round(0.5)] is the even neighbour 0. *)
Lemma py_round_pos_iff (x : R) : 0 <= x -> ((1 <= py_round x)%Z <-> 1/2 < x).
Proof.
  intros Hx. split.
  - intros H1. apply IZR_le in H1.
    destruct (Rle_lt_dec x (1/2)) as [Hle | Hlt]; [| exact Hlt].
    exfalso.
    destruct (Rlt_le_dec x (1/2)) as [Hs | Hs].
    + rewrite <- (Rplus_0_l x) in H1.
      rewrite py_round_below in H1 by lra. lra.
    + assert (x = 1/2) by lra. subst x.
      rewrite <- (Rplus_0_l (1/2)) in H1.
      rewrite py_round_tie in H1. simpl in H1. lra.
  - intros Hx2. pose proof (py_round_near x) as Hn.
    destruct (Z_lt_le_dec (py_round x) 1) as [Hlt | Hge]; [| exact Hge].
    assert (IZR (py_round x) <= 0) by (apply IZR_le; lia).
    lra.
Qed.

Lemma py_max_Rmax (a b : R) : py_max a b = Rmax a b.
Proof.
  unfold py_max, Rmax.
  destruct (Rltb a b) eqn:E; rhyp; destruct (Rle_dec a b); lra.
Qed.

Lemma py_int_death_offset : py_int (105 * 365.25) = 38351%Z.
Proof.
  unfold py_int. rcmp. apply floor_unique. lra.
Qed.

(** ** The Patient constructor *)

Ltac opt_inj :=
  repeat match goal with
  | H : Some _ = Some _ |- _ => injection H as H; subst
  | H : None = Some _ |- _ => discriminate H
  end.

(** The constructor returns the Patient exactly when every check that is
    run passes. *)
Lemma Patient_new_ok_iff (pid prid b r : Z) (sx : Sex) (e : Ethnicity)
    (td dd : option Z) :
  Patient.new pid prid b r sx e td dd = Ok (Patient.mk pid prid b r sx e td dd)
  <-> Patient_accepts b r td dd.
Proof.
  unfold Patient_accepts, Patient.new, construct, Patient.__post_init__; simpl.
  destruct (Z.geb_spec b r) as [Hbr | Hbr].
  { split; [discriminate | intros [H _]; lia]. }
  destruct td as [t |], dd as [d |]; simpl;
    repeat match goal with
    | |- context [(?x =? 0)%Z] => destruct (Z.eqb_spec x 0); simpl
    | |- context [(?x <=? ?y)%Z] => destruct (Z.leb_spec x y); simpl
    end.
  all: split.
  all: try discriminate.
  all: try (intros _; split; [lia |]; split;
            [ intros; opt_inj; lia
            | intros; opt_inj; (split; [lia |]); intros; opt_inj; lia ]).
  all: try (intros; reflexivity).
  all: intros (Hlt & Ht & Hd); exfalso.
  all: try (specialize (Ht _ eq_refl)).
  all: try (specialize (Hd _ eq_refl)).
  all: try (destruct Hd as [Hd1 Hd2]; [lia |]; try specialize (Hd2 _ eq_refl)).
  all: lia.
Qed.

(** With both dates present (and non-zero), the constructor accepts exactly
    when the transfer precedes the death. *)
Lemma Patient_new_both_dates_ok_iff (pid prid b r t d : Z) (sx : Sex)
    (e : Ethnicity) :
  (b < r)%Z -> (r < t)%Z -> (b < d)%Z -> t <> 0%Z -> d <> 0%Z ->
  (Patient.new pid prid b r sx e (Some t) (Some d)
     = Ok (Patient.mk pid prid b r sx e (Some t) (Some d))
   <-> (t < d)%Z).
Proof.
  intros Hbr Hrt Hbd Ht Hd. rewrite Patient_new_ok_iff. unfold Patient_accepts.
  split.
  - intros (_ & _ & H). destruct (H d eq_refl Hd) as [_ H']. now apply H'.
  - intros Htd. split; [exact Hbr |]. split.
    + intros ? Heq _. opt_inj. exact Hrt.
    + intros ? Heq _. opt_inj. split; [exact Hbd |].
      intros ? Heq' _. opt_inj. exact Htd.
Qed.

(** C1.  A Patient built with a transfer date and a death date, both present
    and all other checks passing, is rejected with "Death date must be
    before transfer date" whenever [death_date <= transfer_date]: the
    comparison in [Patient.__post_init__] is the reverse of its message and
    of what [_generate_death_date] produces. *)
Theorem Patient_new_rejects_death_up_to_transfer
    (pid prid b r t d : Z) (sx : Sex) (e : Ethnicity) :
  (b < r)%Z -> (r < t)%Z -> (b < d)%Z -> t <> 0%Z -> d <> 0%Z ->
  (d <= t)%Z ->
  Patient.new pid prid b r sx e (Some t) (Some d)
    = Raise (ValueError DeathMustBeBeforeTransfer).
Proof.
  intros Hbr Hrt Hbd Ht Hd Hdt.
  unfold Patient.new, construct, Patient.__post_init__; simpl.
  destruct (Z.geb_spec b r); [lia |].
  destruct (Z.eqb_spec t 0); [contradiction |].
  destruct (Z.eqb_spec d 0); [contradiction |]. simpl.
  destruct (Z.leb_spec t r); [lia |].
  destruct (Z.leb_spec d b); [lia |].
  destruct (Z.leb_spec d t); [reflexivity | lia].
Qed.

Lemma Patient_new_rejects_death_up_to_transfer_witness :
  Patient.new 1001 1 (-20000) 5000 MALE WHITE (Some 19000%Z) (Some 18351%Z)
    = Raise (ValueError DeathMustBeBeforeTransfer).
Proof.
  apply Patient_new_rejects_death_up_to_transfer; lia.
Defined.

(** The factory records a death date next to a transfer date only when it
    is not after the transfer. *)
Lemma _generate_death_date_le_transfer (self : PatientFactory.t)
    (birth_date t d : Z) :
  PatientFactory._generate_death_date self birth_date (Some t) = Some d ->
  d = (birth_date + 38351)%Z /\ (d <= t)%Z.
Proof.
  unfold PatientFactory._generate_death_date.
  rewrite py_int_death_offset.
  destruct (Rleb _ _); simpl; [| discriminate].
  destruct (Z.leb_spec (birth_date + 38351) t) as [Hle | Hgt]; [| discriminate].
  intros H. injection H as <-. split; [reflexivity | exact Hle].
Qed.

(** C10.  A date equal to 0 counts as absent: for every [birth_date <
    registration_date], a Patient with [transfer_date = 0] is built although
    0 may be at or before the registration date, and a Patient with
    [death_date = 0] is built although 0 may be at or before the birth
    date. *)
Theorem Patient_new_zero_date_skips_checks
    (pid prid b r : Z) (sx : Sex) (e : Ethnicity) :
  (b < r)%Z ->
  Patient.new pid prid b r sx e (Some 0%Z) None
    = Ok (Patient.mk pid prid b r sx e (Some 0%Z) None)
  /\ Patient.new pid prid b r sx e None (Some 0%Z)
    = Ok (Patient.mk pid prid b r sx e None (Some 0%Z))
  /\ Patient.new pid prid b r sx e (Some 0%Z) (Some 0%Z)
    = Ok (Patient.mk pid prid b r sx e (Some 0%Z) (Some 0%Z)).
Proof.
  intros Hbr.
  unfold Patient.new, construct, Patient.__post_init__; simpl.
  destruct (Z.geb_spec b r); [lia |].
  repeat split.
Qed.

Lemma Patient_new_zero_date_skips_checks_witness :
  (0 <= 10)%Z /\ (0 <= 5)%Z
  /\ Patient.new 1001 1 5 10 MALE WHITE (Some 0%Z) None
     = Ok (Patient.mk 1001 1 5 10 MALE WHITE (Some 0%Z) None)
  /\ Patient.new 1001 1 5 10 MALE WHITE None (Some 0%Z)
     = Ok (Patient.mk 1001 1 5 10 MALE WHITE None (Some 0%Z)).
Proof.
  split; [lia |]. split; [lia |].
  destruct (Patient_new_zero_date_skips_checks 1001 1 5 10 MALE WHITE)
    as (H1 & H2 & _); [lia |].
  split; assumption.
Defined.

(** ** The Practice constructors *)

Lemma construct_Ok_inv {A} (self x : A) (post_init : A -> result unit) :
  construct self post_init = Ok x -> x = self /\ post_init self = Ok tt.
Proof.
  unfold construct. destruct (post_init self) as [[] |] eqn:E; [| discriminate].
  intros H. injection H as <-. split; reflexivity.
Qed.

Lemma RegistrationDates_new_ok (l e m : R) :
  e <= m <= l ->
  RegistrationDates.new l e m = Ok (RegistrationDates.mk l e m).
Proof.
  intros H. unfold RegistrationDates.new, construct,
    RegistrationDates.__post_init__; simpl.
  rcmp. reflexivity.
Qed.

Lemma RegistrationDates_new_raises (l e m : R) :
  ~ (e <= m <= l) ->
  RegistrationDates.new l e m = Raise (ValueError RegistrationDatesUnordered).
Proof.
  intros H. unfold RegistrationDates.new, construct,
    RegistrationDates.__post_init__; simpl.
  destruct (Rleb e m) eqn:E1, (Rleb m l) eqn:E2; simpl; try reflexivity.
  rhyp. exfalso. apply H. lra.
Qed.

Lemma RegistrationDates_new_inv (l e m : R) (rd : RegistrationDates.t) :
  RegistrationDates.new l e m = Ok rd ->
  rd = RegistrationDates.mk l e m /\ e <= m <= l.
Proof.
  intros H. destruct (Rle_dec e m) as [H1 | H1], (Rle_dec m l) as [H2 | H2];
    try (rewrite RegistrationDates_new_raises in H by lra; discriminate).
  rewrite RegistrationDates_new_ok in H by lra.
  injection H as <-. split; [reflexivity | lra].
Qed.

Lemma BirthYearParameters_new_ok (e m l : R) :
  e <= m <= l -> 1800 <= e <= 2024 ->
  BirthYearParameters.new e m l = Ok (BirthYearParameters.mk e m l).
Proof.
  intros H1 H2. unfold BirthYearParameters.new, construct,
    BirthYearParameters.__post_init__; simpl.
  rcmp. reflexivity.
Qed.

Lemma BirthYearParameters_new_raises (e m l : R) :
  ~ (e <= m <= l) ->
  BirthYearParameters.new e m l = Raise (ValueError BirthYearsUnordered).
Proof.
  intros H. unfold BirthYearParameters.new, construct,
    BirthYearParameters.__post_init__; simpl.
  destruct (Rleb e m) eqn:E1, (Rleb m l) eqn:E2; simpl; try reflexivity.
  rhyp. exfalso. apply H. lra.
Qed.

Lemma BirthYearParameters_new_inv (e m l : R) (bp : BirthYearParameters.t) :
  BirthYearParameters.new e m l = Ok bp ->
  bp = BirthYearParameters.mk e m l /\ e <= m <= l /\ 1800 <= e <= 2024.
Proof.
  unfold BirthYearParameters.new. intros H.
  apply construct_Ok_inv in H. destruct H as [-> H].
  unfold BirthYearParameters.__post_init__ in H; simpl in H.
  destruct (Rleb e m) eqn:E1, (Rleb m l) eqn:E2; simpl in H; try discriminate.
  destruct (Rleb 1800 e) eqn:E3, (Rleb e 2024) eqn:E4; simpl in H;
    try discriminate.
  rhyp. split; [reflexivity | lra].
Qed.

Lemma TransferParameters_new_ok (p g0 g1 g2 : R) :
  0 <= p <= 1 -> g0 <= g1 <= g2 -> 0 <= g0 ->
  TransferParameters.new p g0 g1 g2 = Ok (TransferParameters.mk p g0 g1 g2).
Proof.
  intros H1 H2 H3. unfold TransferParameters.new, construct,
    TransferParameters.__post_init__; simpl.
  rcmp. reflexivity.
Qed.

Lemma TransferParameters_new_raises (p g0 g1 g2 : R) :
  ~ (g0 <= g1 <= g2) \/ g0 < 0 ->
  exists err, TransferParameters.new p g0 g1 g2 = Raise (ValueError err).
Proof.
  intros H. unfold TransferParameters.new, construct,
    TransferParameters.__post_init__; simpl.
  destruct (Rleb 0 p && Rleb p 1); simpl; [| eauto].
  destruct (Rleb g0 g1) eqn:E1, (Rleb g1 g2) eqn:E2; simpl; eauto.
  destruct (Rltb g0 0) eqn:E3; simpl; eauto.
  rhyp. exfalso. destruct H as [H | H]; [apply H |]; lra.
Qed.

Lemma TransferParameters_new_inv (p g0 g1 g2 : R) (tp : TransferParameters.t) :
  TransferParameters.new p g0 g1 g2 = Ok tp ->
  tp = TransferParameters.mk p g0 g1 g2
  /\ 0 <= p <= 1 /\ 0 <= g0 /\ g0 <= g1 <= g2.
Proof.
  unfold TransferParameters.new. intros H.
  apply construct_Ok_inv in H. destruct H as [-> H].
  unfold TransferParameters.__post_init__ in H; simpl in H.
  destruct (Rleb 0 p) eqn:E1, (Rleb p 1) eqn:E2; simpl in H; try discriminate.
  destruct (Rleb g0 g1) eqn:E3, (Rleb g1 g2) eqn:E4; simpl in H;
    try discriminate.
  destruct (Rltb g0 0) eqn:E5; simpl in H; try discriminate.
  rhyp. split; [reflexivity | lra].
Qed.

Lemma Practice_new_inv (id cnt : Z) (male : R) (rd : RegistrationDates.t)
    (tp : TransferParameters.t) (bp : BirthYearParameters.t) (eth : Dict.t)
    (p : Practice.t) :
  Practice.new id cnt male rd tp bp eth = Ok p ->
  p = Practice.mk id cnt male rd tp bp eth
  /\ (0 < id)%Z /\ (0 < cnt)%Z /\ 0 <= male <= 1.
Proof.
  unfold Practice.new. intros H.
  apply construct_Ok_inv in H. destruct H as [-> H].
  unfold Practice.__post_init__ in H; simpl in H.
  destruct (Z.leb_spec id 0); [discriminate |].
  destruct (Z.leb_spec cnt 0); [discriminate |].
  destruct (Rleb 0 male) eqn:E1, (Rleb male 1) eqn:E2; simpl in H;
    try discriminate.
  rhyp. repeat split; try lia; lra.
Qed.

(** ** Running monadic code *)

Section MonadFacts.
Context {rng : Type}.

Lemma bind_Ok_inv {A B} (m : M rng A) (k : A -> M rng B) (s s' : rng) (b : B) :
  bind m k s = (Ok b, s') ->
  exists a s1, m s = (Ok a, s1) /\ k a s1 = (Ok b, s').
Proof.
  unfold bind. destruct (m s) as [[a | e] s1]; [| discriminate].
  intros H. exists a, s1. split; [reflexivity | exact H].
Qed.

Lemma bind_Ok {A B} (m : M rng A) (k : A -> M rng B) (s s1 : rng) (a : A) :
  m s = (Ok a, s1) -> bind m k s = k a s1.
Proof. unfold bind. intros ->. reflexivity. Qed.

Lemma bind_Raise {A B} (m : M rng A) (k : A -> M rng B) (s s1 : rng) (e : exn) :
  m s = (Raise e, s1) -> bind m k s = (Raise e, s1).
Proof. unfold bind. intros ->. reflexivity. Qed.

Lemma draw_eq {A} (f : rng -> A * rng) (s s1 : rng) (a : A) :
  f s = (a, s1) -> draw f s = (Ok a, s1).
Proof. unfold draw. intros ->. reflexivity. Qed.

Lemma draw_Ok_inv {A} (f : rng -> A * rng) (s s1 : rng) (a : A) :
  draw f s = (Ok a, s1) -> f s = (a, s1).
Proof.
  unfold draw. destruct (f s) as [a' s']. intros H. injection H as <- <-.
  reflexivity.
Qed.

Lemma lift_Ok_inv {A} (r : result A) (s s1 : rng) (a : A) :
  lift r s = (Ok a, s1) -> r = Ok a /\ s1 = s.
Proof. unfold lift. intros H. injection H as -> <-. split; reflexivity. Qed.

Lemma ret_Ok_inv {A} (x a : A) (s s1 : rng) :
  ret x s = (Ok a, s1) -> a = x /\ s1 = s.
Proof. unfold ret. intros H. injection H as <- <-. split; reflexivity. Qed.

Lemma raise_Ok_inv {A} (e : exn) (s s1 : rng) (a : A) :
  raise e s = (Ok a, s1) -> False.
Proof. unfold raise. discriminate. Qed.

End MonadFacts.

(** Peels the successful steps off a hypothesis [m s = (Ok _, _)]. *)
Ltac minv H :=
  repeat first
    [ apply bind_Ok_inv in H; destruct H as (? & ? & ? & H)
    | apply raise_Ok_inv in H; destruct H ];
  repeat match goal with
  | D : draw _ _ = (Ok _, _) |- _ => apply draw_Ok_inv in D
  | D : lift _ _ = (Ok _, _) |- _ => apply lift_Ok_inv in D; destruct D as [D ?]
  | D : ret _ _ = (Ok _, _) |- _ => apply ret_Ok_inv in D; destruct D as [? ?]
  end.

(** ** What the generators hand to the constructors *)

Section PracticeGenerators.
Context {rng : Type} {RS : RandomSource rng}.

Lemma _generate_registration_dates_Ok (self : StandardPracticeFactory.t)
    (s s' : rng) (rd : RegistrationDates.t) :
  StandardPracticeFactory._generate_registration_dates self s = (Ok rd, s') ->
  rd.(RegistrationDates.earliest_registration)
    <= rd.(RegistrationDates.median_registration)
    <= rd.(RegistrationDates.latest_registration).
Proof.
  unfold StandardPracticeFactory._generate_registration_dates. intros H.
  destruct (existsb _ _); [apply raise_Ok_inv in H; destruct H |].
  minv H. apply RegistrationDates_new_inv in H. destruct H as [-> H].
  exact H.
Qed.

Lemma _generate_transfer_parameters_Ok (self : StandardPracticeFactory.t)
    (s s' : rng) (tp : TransferParameters.t) :
  StandardPracticeFactory._generate_transfer_parameters self s = (Ok tp, s') ->
  0 <= tp.(TransferParameters.minimum_gap)
  /\ tp.(TransferParameters.minimum_gap)
       <= tp.(TransferParameters.median_gap)
       <= tp.(TransferParameters.maximum_gap).
Proof.
  unfold StandardPracticeFactory._generate_transfer_parameters. intros H.
  repeat match type of H with
  | (if ?c then _ else _) _ = _ =>
      destruct c; [apply raise_Ok_inv in H; destruct H |]
  end.
  minv H. apply TransferParameters_new_inv in H.
  destruct H as (-> & _ & Hmin & Hord). split; assumption.
Qed.

Lemma _generate_birth_years_Ok (self : StandardPracticeFactory.t)
    (s s' : rng) (bp : BirthYearParameters.t) :
  StandardPracticeFactory._generate_birth_years self s = (Ok bp, s') ->
  bp.(BirthYearParameters.earliest_birth_year)
    <= bp.(BirthYearParameters.median_birth_year)
    <= bp.(BirthYearParameters.latest_birth_year).
Proof.
  unfold StandardPracticeFactory._generate_birth_years. intros H.
  repeat match type of H with
  | (if ?c then _ else _) _ = _ =>
      destruct c; [apply raise_Ok_inv in H; destruct H |]
  end.
  minv H. apply BirthYearParameters_new_inv in H.
  destruct H as (-> & Hord & _). exact Hord.
Qed.

End PracticeGenerators.


(** C5.  A Practice whose parts and itself came out of their constructors
    has ordered registration dates, ordered birth years and ordered,
    non-negative transfer gaps; each part's constructor raises when its
    ordering fails (or the minimum gap is negative); and every Practice
    that [create_practice] returns is ordered. *)
Theorem Practice_constructed_is_ordered :
  (forall l e m p g0 g1 g2 y0 y1 y2 rd tp bp id cnt male eth pr,
      RegistrationDates.new l e m = Ok rd ->
      TransferParameters.new p g0 g1 g2 = Ok tp ->
      BirthYearParameters.new y0 y1 y2 = Ok bp ->
      Practice.new id cnt male rd tp bp eth = Ok pr ->
      practice_ordered pr /\ e <= m <= l /\ y0 <= y1 <= y2
      /\ 0 <= g0 /\ g0 <= g1 <= g2)
  /\ (forall l e m, ~ (e <= m <= l) ->
        RegistrationDates.new l e m
          = Raise (ValueError RegistrationDatesUnordered))
  /\ (forall y0 y1 y2, ~ (y0 <= y1 <= y2) ->
        BirthYearParameters.new y0 y1 y2
          = Raise (ValueError BirthYearsUnordered))
  /\ (forall p g0 g1 g2, ~ (g0 <= g1 <= g2) \/ g0 < 0 ->
        exists err,
          TransferParameters.new p g0 g1 g2 = Raise (ValueError err))
  /\ (forall (rng : Type) (RS : RandomSource rng) self id s pr s',
        StandardPracticeFactory.create_practice self id s = (Ok pr, s') ->
        practice_ordered pr).
Proof.
  split; [| split; [| split; [| split]]].
  - intros l e m p g0 g1 g2 y0 y1 y2 rd tp bp id cnt male eth pr Hrd Htp Hbp Hpr.
    apply RegistrationDates_new_inv in Hrd. destruct Hrd as [-> Hrd].
    apply TransferParameters_new_inv in Htp. destruct Htp as (-> & _ & Hg0 & Hg).
    apply BirthYearParameters_new_inv in Hbp. destruct Hbp as (-> & Hy & _).
    apply Practice_new_inv in Hpr. destruct Hpr as (-> & _).
    unfold practice_ordered; simpl. repeat split; lra.
  - exact RegistrationDates_new_raises.
  - exact BirthYearParameters_new_raises.
  - exact TransferParameters_new_raises.
  - intros rng RS self id s pr s' H.
    unfold StandardPracticeFactory.create_practice in H.
    minv H.
    apply Practice_new_inv in H. destruct H as (-> & _).
    unfold practice_ordered; simpl.
    repeat match goal with
    | G : StandardPracticeFactory._generate_registration_dates _ _ = _ |- _ =>
        apply _generate_registration_dates_Ok in G
    | G : StandardPracticeFactory._generate_transfer_parameters _ _ = _ |- _ =>
        apply _generate_transfer_parameters_Ok in G
    | G : StandardPracticeFactory._generate_birth_years _ _ = _ |- _ =>
        apply _generate_birth_years_Ok in G
    end.
    repeat split; lra.
Qed.

Lemma py_int_unique (x : R) (z : Z) :
  0 <= x -> IZR z <= x < IZR z + 1 -> py_int x = z.
Proof.
  intros Hx Hz. unfold py_int. rcmp. apply floor_unique. exact Hz.
Qed.

Lemma Practice_new_ok (id cnt : Z) (male : R) (rd : RegistrationDates.t)
    (tp : TransferParameters.t) (bp : BirthYearParameters.t) (eth : Dict.t) :
  (0 < id)%Z -> (0 < cnt)%Z -> 0 <= male <= 1 ->
  forallb (fun prop => Rleb 0 prop && Rleb prop 1) (Dict.values eth) = true ->
  py_int (py_sum (Dict.values eth)) = 1%Z ->
  set_eqb (Dict.keys eth) Practice.required_ethnicities = true ->
  Practice.new id cnt male rd tp bp eth = Ok (Practice.mk id cnt male rd tp bp eth).
Proof.
  intros Hid Hcnt Hmale Hall Hsum Hkeys.
  unfold Practice.new, construct, Practice.__post_init__; simpl.
  destruct (Z.leb_spec id 0); [lia |].
  destruct (Z.leb_spec cnt 0); [lia |].
  rcmp. simpl. rewrite Hall, Hsum, Hkeys. reflexivity.
Qed.

Lemma sample_practice_constructed :
  Practice.new 1 1000 0.4 sample_registration_dates sample_transfer_params
               sample_birth_years sample_ethnicity_proportions
    = Ok sample_practice.
Proof.
  apply Practice_new_ok; try lia; try lra.
  - unfold sample_ethnicity_proportions, Dict.values. cbn [map snd forallb].
    rcmp. reflexivity.
  - unfold sample_ethnicity_proportions, Dict.values, py_sum.
    cbn [map snd fold_left]. apply py_int_unique; lra.
  - reflexivity.
Qed.

Lemma Practice_constructed_is_ordered_witness : practice_ordered sample_practice.
Proof.
  destruct Practice_constructed_is_ordered as [H _].
  refine (proj1 (H 20000 0 10000 0.5 400 7000 22400 1900 1950 2000
                   sample_registration_dates sample_transfer_params
                   sample_birth_years 1%Z 1000%Z 0.4
                   sample_ethnicity_proportions sample_practice _ _ _ _)).
  - apply RegistrationDates_new_ok. lra.
  - apply TransferParameters_new_ok; lra.
  - apply BirthYearParameters_new_ok; lra.
  - exact sample_practice_constructed.
Defined.

(** ** Patient identifiers *)

Lemma digit_value_digit_char (d : Z) :
  (0 <= d <= 9)%Z -> digit_value (digit_char d) = Some d.
Proof.
  intros H. unfold digit_value, digit_char.
  rewrite nat_ascii_embedding by lia.
  replace (48 <=? 48 + Z.to_nat d)%nat with true
    by (symmetry; apply Nat.leb_le; lia).
  replace (48 + Z.to_nat d <=? 57)%nat with true
    by (symmetry; apply Nat.leb_le; lia).
  cbn [andb]. f_equal. lia.
Qed.

Lemma digit_char_not_minus (d : Z) :
  (0 <= d <= 9)%Z -> digit_char d <> "-"%char.
Proof.
  intros H Heq. apply (f_equal digit_value) in Heq.
  rewrite digit_value_digit_char in Heq by exact H.
  discriminate Heq.
Qed.

Lemma parse_digits_app (s1 s2 : string) (a : Z) :
  parse_digits (s1 ++ s2) a
  = match parse_digits s1 a with
    | Some v => parse_digits s2 v
    | None => None
    end.
Proof.
  revert a. induction s1 as [| c s1 IH]; intros a; simpl; [reflexivity |].
  destruct (digit_value c); [apply IH | reflexivity].
Qed.

Lemma parse_digits_zeros (k : nat) (s : string) (a : Z) :
  parse_digits (zeros k ++ s) a = parse_digits s (a * 10 ^ Z.of_nat k)%Z.
Proof.
  revert a. induction k as [| k IH]; intros a.
  - simpl. f_equal. lia.
  - cbn [zeros append parse_digits].
    change (digit_value "0") with (Some 0%Z). cbv iota.
    rewrite IH. f_equal.
    rewrite Nat2Z.inj_succ, Z.pow_succ_r by lia. lia.
Qed.

Lemma length_app (s1 s2 : string) :
  String.length (s1 ++ s2) = (String.length s1 + String.length s2)%nat.
Proof.
  induction s1 as [| c s1 IH]; simpl; [reflexivity | now rewrite IH].
Qed.

Lemma length_zeros (k : nat) : String.length (zeros k) = k.
Proof. induction k as [| k IH]; simpl; [reflexivity | now rewrite IH]. Qed.

Lemma string_app_assoc (s1 s2 s3 : string) :
  ((s1 ++ s2) ++ s3 = s1 ++ (s2 ++ s3))%string.
Proof.
  induction s1 as [| c s1 IH]; simpl; [reflexivity | now rewrite IH].
Qed.

Lemma digits_fuel_app (f : nat) (n : Z) (acc : string) :
  digits_fuel f n acc = (digits_fuel f n EmptyString ++ acc)%string.
Proof.
  revert n acc. induction f as [| f IH]; intros n acc; simpl; [reflexivity |].
  destruct (n <? 10)%Z; [reflexivity |].
  rewrite (IH _ (String _ acc)), (IH _ (String _ EmptyString)).
  rewrite string_app_assoc. reflexivity.
Qed.

(** Reading back what [digits_fuel] wrote appends [n] to the number read so
    far. *)
Lemma parse_digits_fuel (f : nat) (n a : Z) :
  (0 <= n < 2 ^ Z.of_nat f)%Z ->
  parse_digits (digits_fuel f n EmptyString) a
  = Some (a * 10 ^ Z.of_nat (String.length (digits_fuel f n EmptyString)) + n)%Z.
Proof.
  revert n a. induction f as [| f IH]; intros n a Hn.
  - simpl in *. f_equal. lia.
  - rewrite Nat2Z.inj_succ, Z.pow_succ_r in Hn by lia.
    cbn [digits_fuel].
    destruct (Z.ltb_spec n 10) as [Hlt | Hge].
    + cbn [parse_digits String.length].
      rewrite digit_value_digit_char by (rewrite Z.mod_small; lia).
      rewrite Z.mod_small by lia. f_equal.
    + rewrite digits_fuel_app, parse_digits_app, length_app.
      assert (Hq : (0 <= n / 10 < 2 ^ Z.of_nat f)%Z).
      { split; [apply Z.div_pos; lia |].
        apply Z.div_lt_upper_bound; lia. }
      rewrite (IH _ _ Hq).
      cbn [parse_digits String.length].
      rewrite digit_value_digit_char
        by (pose proof (Z.mod_pos_bound n 10 ltac:(lia)); lia).
      f_equal.
      rewrite Nat2Z.inj_add, Z.pow_add_r by lia.
      change (Z.of_nat 1) with 1%Z. rewrite Z.pow_1_r.
      pose proof (Z.div_mod n 10 ltac:(lia)) as Hdm. lia.
Qed.

Lemma digits_fuel_head (f : nat) (n : Z) (acc : string) :
  (0 <= n)%Z ->
  exists d rest, (0 <= d <= 9)%Z
    /\ digits_fuel (S f) n acc = String (digit_char d) rest.
Proof.
  revert n acc. induction f as [| f IH]; intros n acc Hn.
  - cbn [digits_fuel]. exists (n mod 10)%Z.
    destruct (n <? 10)%Z; eexists; (split; [| reflexivity]);
      pose proof (Z.mod_pos_bound n 10 ltac:(lia)); lia.
  - cbn [digits_fuel]. destruct (Z.ltb_spec n 10) as [Hlt | Hge].
    + exists (n mod 10)%Z. eexists. split; [| reflexivity].
      pose proof (Z.mod_pos_bound n 10 ltac:(lia)); lia.
    + apply (IH (n / 10)%Z). apply Z.div_pos; lia.
Qed.

Lemma digits_fuel_length_le (f : nat) (n : Z) (k : nat) :
  (1 <= k)%nat -> (0 <= n < 10 ^ Z.of_nat k)%Z ->
  (String.length (digits_fuel f n EmptyString) <= k)%nat.
Proof.
  revert n k. induction f as [| f IH]; intros n k Hk Hn; simpl; [lia |].
  destruct (Z.ltb_spec n 10) as [Hlt | Hge]; simpl; [lia |].
  rewrite digits_fuel_app, length_app. simpl.
  destruct k as [| [| k]]; [lia | simpl in Hn; lia |].
  assert (Hq : (0 <= n / 10 < 10 ^ Z.of_nat (S k))%Z).
  { split; [apply Z.div_pos; lia |].
    apply Z.div_lt_upper_bound; [lia |].
    rewrite <- Z.pow_succ_r by lia. rewrite <- Nat2Z.inj_succ. lia. }
  specialize (IH _ (S k) ltac:(lia) Hq). lia.
Qed.

Lemma digits_fuel_bound (n : Z) :
  (0 <= n)%Z -> (0 <= n < 2 ^ Z.of_nat (S (Z.to_nat (Z.log2 n))))%Z.
Proof.
  intros Hn. split; [exact Hn |].
  rewrite Nat2Z.inj_succ, Z2Nat.id by apply Z.log2_nonneg.
  destruct (Z.eq_dec n 0) as [-> | Hnz]; [reflexivity |].
  apply Z.log2_spec. lia.
Qed.

Lemma parse_digits_digits (n a : Z) :
  (0 <= n)%Z ->
  parse_digits (digits n) a
  = Some (a * 10 ^ Z.of_nat (String.length (digits n)) + n)%Z.
Proof.
  intros Hn. unfold digits. apply parse_digits_fuel, digits_fuel_bound, Hn.
Qed.

Lemma digits_head (n : Z) :
  (0 <= n)%Z ->
  exists d rest, (0 <= d <= 9)%Z /\ digits n = String (digit_char d) rest.
Proof. intros Hn. unfold digits. apply digits_fuel_head, Hn. Qed.

Lemma length_format_03d (p : Z) :
  (0 <= p)%Z ->
  String.length (format_03d p) = Nat.max 3 (String.length (digits p)).
Proof.
  intros Hp. unfold format_03d.
  destruct (Z.ltb_spec p 0); [lia |].
  rewrite length_app, length_zeros. lia.
Qed.

Lemma int_of_str_digits_head (d : Z) (rest : string) :
  (0 <= d <= 9)%Z ->
  int_of_str (String (digit_char d) rest)
  = match parse_digits (String (digit_char d) rest) 0 with
    | Some z => Ok z
    | None => Raise (ValueError InvalidLiteralForInt)
    end.
Proof.
  intros Hd. unfold int_of_str.
  pose proof (digit_char_not_minus d Hd) as Hne.
  destruct (digit_char d) as [b0 b1 b2 b3 b4 b5 b6 b7].
  destruct b0, b1, b2, b3, b4, b5, b6, b7; try reflexivity.
  exfalso. apply Hne. reflexivity.
Qed.

(** The identifier as a number: the sequence number shifted left by the
    width of the padded practice identifier, plus the practice identifier. *)
Lemma _generate_patient_id_value (self : PatientFactory.t) (index : Z) :
  let p := self.(PatientFactory.practice).(Practice.practice_id) in
  (0 <= index)%Z -> (0 <= p)%Z ->
  PatientFactory._generate_patient_id self index
  = Ok ((index + 1) * 10 ^ Z.of_nat (String.length (format_03d p)) + p)%Z.
Proof.
  intros p Hi Hp. unfold PatientFactory._generate_patient_id. fold p.
  unfold format_d. destruct (Z.ltb_spec (index + 1) 0) as [Hneg | _]; [lia |].
  destruct (digits_head (index + 1) ltac:(lia)) as (d & rest & Hd & Hhead).
  assert (Hstr : ((digits (index + 1) ++ format_03d p)
                  = String (digit_char d) (rest ++ format_03d p))%string).
  { rewrite Hhead. reflexivity. }
  rewrite Hstr, int_of_str_digits_head by exact Hd. rewrite <- Hstr.
  rewrite parse_digits_app, parse_digits_digits by lia.
  unfold format_03d. destruct (Z.ltb_spec p 0) as [Hneg | _]; [lia |].
  rewrite parse_digits_zeros, parse_digits_digits by lia.
  rewrite length_app, length_zeros.
  f_equal.
  rewrite Nat2Z.inj_add, Z.pow_add_r by lia.
  lia.
Qed.

(** C7.  For a sequence index [i >= 0] and a practice identifier [p >= 1],
    the patient identifier is the number whose decimal text is the digits of
    [i + 1] followed by [p] padded with zeros to at least three digits; for
    [p <= 999] it is [(i + 1) * 1000 + p]. *)
Theorem generate_patient_id_concatenates (self : PatientFactory.t) (i : Z) :
  let p := self.(PatientFactory.practice).(Practice.practice_id) in
  (0 <= i)%Z -> (1 <= p)%Z ->
  PatientFactory._generate_patient_id self i
    = int_of_str (digits (i + 1) ++ zeros (3 - String.length (digits p))
                                 ++ digits p)
  /\ PatientFactory._generate_patient_id self i
    = Ok ((i + 1) * 10 ^ Z.of_nat (Nat.max 3 (String.length (digits p))) + p)%Z
  /\ ((p <= 999)%Z ->
      PatientFactory._generate_patient_id self i = Ok ((i + 1) * 1000 + p)%Z).
Proof.
  intros p Hi Hp. split; [| split].
  - unfold PatientFactory._generate_patient_id, format_d, format_03d. fold p.
    destruct (Z.ltb_spec (i + 1) 0); [lia |].
    destruct (Z.ltb_spec p 0); [lia |]. reflexivity.
  - rewrite _generate_patient_id_value by (fold p; lia). fold p.
    rewrite length_format_03d by lia. reflexivity.
  - intros Hp3.
    rewrite _generate_patient_id_value by (fold p; lia). fold p.
    rewrite length_format_03d by lia.
    assert (Hlen : (String.length (digits p) <= 3)%nat).
    { unfold digits. apply digits_fuel_length_le; [lia |].
      change (10 ^ Z.of_nat 3)%Z with 1000%Z. lia. }
    replace (Nat.max 3 (String.length (digits p))) with 3%nat by lia.
    reflexivity.
Qed.

Lemma generate_patient_id_concatenates_witness :
  PatientFactory._generate_patient_id (PatientFactory.mk sample_practice) 0
    = Ok 1001%Z.
Proof.
  apply (generate_patient_id_concatenates (PatientFactory.mk sample_practice) 0);
    simpl; lia.
Defined.

(** The examples of the docstring of [_generate_patient_id]. *)
Example patient_id_index_0_practice_1 :
  int_of_str (format_d (0 + 1) ++ format_03d 1) = Ok 1001%Z.
Proof. reflexivity. Qed.

Example patient_id_index_1_practice_1 :
  int_of_str (format_d (1 + 1) ++ format_03d 1) = Ok 2001%Z.
Proof. reflexivity. Qed.

Example patient_id_index_0_practice_12 :
  int_of_str (format_d (0 + 1) ++ format_03d 12) = Ok 1012%Z.
Proof. reflexivity. Qed.

(** Beyond 999 the padding no longer applies and the shift widens. *)
Example patient_id_index_0_practice_1234 :
  int_of_str (format_d (0 + 1) ++ format_03d 1234) = Ok 11234%Z.
Proof. reflexivity. Qed.

(** ** Patient dates *)

Section PatientDates.
Context {rng : Type} {RS : RandomSource rng}.

(** C8.  When the Bernoulli draw triggers the transfer, with [gap] and
    [buffer] the two uniform draws that follow, a transfer date (the rounded
    candidate [registration_date + gap]) is returned if and only if the
    candidate is at most the practice's latest registration and strictly
    above [max(11323, birth_date + 18 * 365.25 + 7 + buffer)]; otherwise the
    result is [None].  Nothing is raised either way. *)
Theorem generate_transfer_date_eligibility (self : PatientFactory.t)
    (birth_date registration_date : Z) (s s1 s2 s3 : rng) (u gap buffer : R) :
  let practice := self.(PatientFactory.practice) in
  let tp := practice.(Practice.transfer_params) in
  let latest :=
    practice.(Practice.registration_dates)
      .(RegistrationDates.latest_registration) in
  let candidate := IZR registration_date + gap in
  let eligible :=
    candidate <= latest
    /\ Rmax 11323 (IZR birth_date + 18 * 365.25 + 7 + buffer) < candidate in
  np_random_random s = (u, s1) ->
  u < tp.(TransferParameters.transfer_probability) ->
  np_random_uniform tp.(TransferParameters.minimum_gap)
                    tp.(TransferParameters.maximum_gap) s1 = (gap, s2) ->
  np_random_uniform 0 60 s2 = (buffer, s3) ->
  (eligible ->
   PatientFactory._generate_transfer_date self birth_date registration_date s
     = (Ok (Some (py_round candidate)), s3))
  /\ (~ eligible ->
      PatientFactory._generate_transfer_date self birth_date registration_date s
        = (Ok None, s3))
  /\ ((exists t,
         PatientFactory._generate_transfer_date self birth_date
           registration_date s = (Ok (Some t), s3))
      <-> eligible).
Proof.
  intros practice tp latest candidate eligible Hu Hlt Hgap Hbuf.
  assert (Hrun :
    PatientFactory._generate_transfer_date self birth_date registration_date s
    = (Ok (if Rleb candidate latest
              && Rltb (py_max 11323 (IZR birth_date + 18 * 365.25 + 7 + buffer))
                      candidate
           then Some (py_round candidate) else None), s3)).
  { unfold PatientFactory._generate_transfer_date.
    fold practice. fold tp.
    rewrite (bind_Ok _ _ _ _ _ (draw_eq _ _ _ _ Hu)).
    replace (Rltb u (TransferParameters.transfer_probability tp)) with true
      by (symmetry; apply Rltb_true; exact Hlt).
    rewrite (bind_Ok _ _ _ _ _ (draw_eq _ _ _ _ Hgap)).
    rewrite (bind_Ok _ _ _ _ _ (draw_eq _ _ _ _ Hbuf)).
    fold latest. fold candidate.
    destruct (Rleb candidate latest && Rltb _ candidate); reflexivity. }
  rewrite Hrun. rewrite py_max_Rmax.
  destruct (Rleb candidate latest) eqn:E1;
    destruct (Rltb (Rmax 11323 (IZR birth_date + 18 * 365.25 + 7 + buffer))
                   candidate) eqn:E2;
    simpl; rhyp; unfold eligible.
  - split; [reflexivity |]. split; [intros Hn; exfalso; apply Hn; split; assumption |].
    split; [intros _; split; assumption | intros _; eexists; reflexivity].
  - split; [intros [_ H]; lra |]. split; [reflexivity |].
    split; [intros [t Ht]; discriminate Ht | intros [_ H]; lra].
  - split; [intros [H _]; lra |]. split; [reflexivity |].
    split; [intros [t Ht]; discriminate Ht | intros [H _]; lra].
  - split; [intros [H _]; lra |]. split; [reflexivity |].
    split; [intros [t Ht]; discriminate Ht | intros [H _]; lra].
Qed.

(** Without the trigger nothing else is drawn and there is no transfer. *)
Lemma _generate_transfer_date_not_triggered (self : PatientFactory.t)
    (birth_date registration_date : Z) (s s1 : rng) (u : R) :
  np_random_random s = (u, s1) ->
  self.(PatientFactory.practice).(Practice.transfer_params)
      .(TransferParameters.transfer_probability) <= u ->
  PatientFactory._generate_transfer_date self birth_date registration_date s
    = (Ok None, s1).
Proof.
  intros Hu Hge. unfold PatientFactory._generate_transfer_date.
  rewrite (bind_Ok _ _ _ _ _ (draw_eq _ _ _ _ Hu)).
  replace (Rltb u _) with false by (symmetry; apply Rltb_false; exact Hge).
  reflexivity.
Qed.

(** The registration date never falls before the birth date as long as the
    override draw is non-negative; equality is not excluded. *)
Lemma _generate_registration_date_ge_birth (self : PatientFactory.t)
    (birth_date : Z) (s s1 s2 : rng) (d1 d2 : R) :
  let reg_dates := self.(PatientFactory.practice).(Practice.registration_dates) in
  np_random_uniform
    (py_max 0 reg_dates.(RegistrationDates.earliest_registration))
    reg_dates.(RegistrationDates.latest_registration) s = (d1, s1) ->
  np_random_uniform 0 (5 * 365.25) s1 = (d2, s2) ->
  0 <= d2 ->
  exists registration_date s',
    PatientFactory._generate_registration_date self birth_date s
      = (Ok registration_date, s')
    /\ (birth_date <= registration_date)%Z.
Proof.
  intros reg_dates H1 H2 Hd2.
  unfold PatientFactory._generate_registration_date. fold reg_dates.
  rewrite (bind_Ok _ _ _ _ _ (draw_eq _ _ _ _ H1)).
  assert (Hround : forall x, IZR birth_date <= x -> (birth_date <= py_round x)%Z).
  { intros x Hx. pose proof (py_round_near x) as Hn.
    destruct (Z_lt_le_dec (py_round x) birth_date) as [Hlt | Hge]; [| exact Hge].
    assert (IZR (py_round x) <= IZR birth_date - 1).
    { rewrite <- minus_IZR. apply IZR_le. lia. }
    lra. }
  destruct (Rleb d1 (IZR birth_date)) eqn:E; rhyp.
  - rewrite (bind_Ok _ _ _ _ _
               (bind_Ok _ _ _ _ _ (draw_eq _ _ _ _ H2))).
    eexists _, _. split; [reflexivity |]. apply Hround. lra.
  - eexists _, _. split; [reflexivity |]. apply Hround. lra.
Qed.

End PatientDates.

Lemma generate_transfer_date_eligibility_witness :
  PatientFactory._generate_transfer_date (RS := recorded)
    (PatientFactory.mk sample_practice) (-7000) 5000 [0.1; 8000; 30]
  = (Ok (Some 13000%Z), []).
Proof.
  destruct (generate_transfer_date_eligibility (RS := recorded)
              (PatientFactory.mk sample_practice) (-7000) 5000
              [0.1; 8000; 30] [8000; 30] [30] [] 0.1 8000 30)
    as [Hyes _]; try reflexivity.
  - simpl. lra.
  - rewrite Hyes.
    + replace (IZR 5000 + 8000) with (IZR 13000) by lra.
      rewrite py_round_IZR. reflexivity.
    + simpl. split; [lra |].
      unfold Rmax. destruct (Rle_dec _ _); lra.
Defined.

(** C3.  With birth date 100 in the sample practice, a first uniform draw
    of 50 (not after the birth date) and an override draw of 0.25,
    [_generate_registration_date] returns 100: the override is rounded back
    onto the birth date, and the Patient constructor then rejects the pair. *)
Theorem generate_registration_date_can_equal_birth :
  0 <= 50 < 20000 /\ 0 <= 0.25 < 5 * 365.25
  /\ PatientFactory._generate_registration_date (RS := recorded)
       (PatientFactory.mk sample_practice) 100 [50; 0.25]
     = (Ok 100%Z, [])
  /\ (forall pid prid sx e td dd,
        Patient.new pid prid 100 100 sx e td dd
          = Raise (ValueError BirthNotBeforeRegistration)).
Proof.
  split; [lra |]. split; [lra |]. split.
  - unfold PatientFactory._generate_registration_date.
    cbn [PatientFactory.practice sample_practice Practice.registration_dates
         sample_registration_dates RegistrationDates.earliest_registration
         RegistrationDates.latest_registration].
    unfold bind, draw, ret. cbn [np_random_uniform recorded Replay pop].
    rcmp. cbn [pop].
    rewrite py_round_below by lra. reflexivity.
  - intros. reflexivity.
Qed.

(** ** Practice size *)

Section PracticeSize.
Context {rng : Type} {RS : RandomSource rng}.

(** C4, as the code has it.  With positive degrees of freedom and a
    positive multiplier, and chi-square draws [n1, n2 > 0], the size is
    [round(multiplier * (n1 / df1) / (n2 / df2))]: a non-negative integer,
    at least 1 exactly when the scaled ratio exceeds one half.  With a
    non-positive degree of freedom or multiplier a [ValueError] is raised
    and the generator state is left as it was: nothing has been drawn. *)
Theorem generate_practice_size_spec (self : StandardPracticeFactory.t) (s : rng) :
  let cfg := self.(StandardPracticeFactory.config) in
  let df1 := cfg.(practice_size_df1) in
  let df2 := cfg.(practice_size_df2) in
  let multiplier := cfg.(practice_size_multiplier) in
  ((0 < df1)%Z -> (0 < df2)%Z -> 0 < multiplier ->
   forall n1 n2 s1 s2,
     stats_chi2_rvs df1 s = (n1, s1) ->
     stats_chi2_rvs df2 s1 = (n2, s2) ->
     0 < n1 -> 0 < n2 ->
     let x := multiplier * (n1 / IZR df1) / (n2 / IZR df2) in
     StandardPracticeFactory._generate_practice_size self s
       = (Ok (py_round x), s2)
     /\ (0 <= py_round x)%Z
     /\ ((1 <= py_round x)%Z <-> 1/2 < x))
  /\ ((df1 <= 0)%Z \/ (df2 <= 0)%Z ->
      StandardPracticeFactory._generate_practice_size self s
        = (Raise (ValueError DegreesOfFreedomNotPositive), s))
  /\ ((0 < df1)%Z -> (0 < df2)%Z -> multiplier <= 0 ->
      StandardPracticeFactory._generate_practice_size self s
        = (Raise (ValueError SizeMultiplierNotPositive), s)).
Proof.
  intros cfg df1 df2 multiplier.
  unfold StandardPracticeFactory._generate_practice_size.
  fold cfg. fold df1. fold df2. fold multiplier.
  split; [| split].
  - intros H1 H2 Hm n1 n2 s1 s2 Hn1 Hn2 Hp1 Hp2.
    set (x := multiplier * (n1 / IZR df1) / (n2 / IZR df2)).
    destruct (Z.leb_spec df1 0); [lia |].
    destruct (Z.leb_spec df2 0); [lia |].
    cbn [orb]. replace (Rleb multiplier 0) with false
      by (symmetry; apply Rleb_false; exact Hm).
    rewrite (bind_Ok _ _ _ _ _ (draw_eq _ _ _ _ Hn1)).
    rewrite (bind_Ok _ _ _ _ _ (draw_eq _ _ _ _ Hn2)).
    assert (Hx : 0 < x).
    { unfold x.
      assert (0 < IZR df1) by (apply IZR_lt; lia).
      assert (0 < IZR df2) by (apply IZR_lt; lia).
      apply Rdiv_lt_0_compat.
      - apply Rmult_lt_0_compat; [exact Hm |].
        apply Rdiv_lt_0_compat; assumption.
      - apply Rdiv_lt_0_compat; assumption. }
    split; [reflexivity |]. split.
    + apply py_round_nonneg. lra.
    + apply py_round_pos_iff. lra.
  - intros Hdf.
    replace ((df1 <=? 0)%Z || (df2 <=? 0)%Z) with true; [reflexivity |].
    symmetry. apply orb_true_iff.
    destruct Hdf; [left | right]; apply Z.leb_le; assumption.
  - intros H1 H2 Hm.
    destruct (Z.leb_spec df1 0); [lia |].
    destruct (Z.leb_spec df2 0); [lia |].
    cbn [orb]. replace (Rleb multiplier 0) with true
      by (symmetry; apply Rleb_true; exact Hm).
    reflexivity.
Qed.

End PracticeSize.

Lemma generate_practice_size_spec_witness :
  StandardPracticeFactory._generate_practice_size (RS := recorded)
    (StandardPracticeFactory.mk get_default_config) [30; 20]
  = (Ok 1000%Z, []).
Proof.
  destruct (generate_practice_size_spec (RS := recorded)
              (StandardPracticeFactory.mk get_default_config) [30; 20])
    as [Hpos _].
  destruct (Hpos ltac:(simpl; lia) ltac:(simpl; lia) ltac:(simpl; lra)
                 30 20 [20] [] eq_refl eq_refl ltac:(lra) ltac:(lra))
    as [Hrun _].
  rewrite Hrun. simpl.
  replace (1000 * (30 / 30) / (20 / 20)) with (IZR 1000) by (field_simplify; lra).
  rewrite py_round_IZR. reflexivity.
Defined.

(** Degrees of freedom 1 and multiplier 1, chi-square draws 0.25 and 1:
    the size is [round(0.25) = 0]. *)
Lemma generate_practice_size_zero :
  (0 < unit_size_config.(practice_size_df1))%Z
  /\ (0 < unit_size_config.(practice_size_df2))%Z
  /\ 0 < unit_size_config.(practice_size_multiplier)
  /\ 0 < 0.25 /\ 0 < 1
  /\ StandardPracticeFactory._generate_practice_size (RS := recorded)
       (StandardPracticeFactory.mk unit_size_config) [0.25; 1]
     = (Ok 0%Z, [])
  /\ ~ (1 <= 0)%Z.
Proof.
  repeat (split; [simpl; first [lia | lra] |]).
  split; [| lia].
  unfold StandardPracticeFactory._generate_practice_size.
  cbn [StandardPracticeFactory.config unit_size_config practice_size_df1
       practice_size_df2 practice_size_multiplier Z.leb Z.compare orb].
  rcmp. unfold bind, draw, ret. cbn [stats_chi2_rvs recorded Replay pop].
  replace (1 * (0.25 / 1) / (1 / 1)) with (IZR 0 + 0.25) by (simpl; lra).
  rewrite py_round_below by lra. reflexivity.
Qed.

(** ** Ethnicity proportions *)

Section EthnicityProportions.
Context {rng : Type} {RS : RandomSource rng}.

Lemma dict_getitem_Ok_inv (d : Dict.t) (k : string) (s s' : rng) (v : R) :
  dict_getitem d k s = (Ok v, s') -> Dict.get d k = Some v /\ s' = s.
Proof.
  unfold dict_getitem. destruct (Dict.get d k) as [v' |].
  - intros H. apply ret_Ok_inv in H. destruct H as [-> ->].
    split; reflexivity.
  - intros H. apply raise_Ok_inv in H. destruct H.
Qed.

(** Whatever is drawn, the six proportions add up to
    [1 + unknown * (south_asian + black + mixed + other)]: only [white] is
    scaled by [1 - unknown]. *)
Lemma _generate_ethnicity_proportions_sum (self : StandardPracticeFactory.t)
    (s s' : rng) (d : Dict.t) :
  StandardPracticeFactory._generate_ethnicity_proportions self s = (Ok d, s') ->
  exists unknown south_asian black mixed other,
    Dict.items d
    = [ ("unknown", unknown); ("south_asian", south_asian); ("black", black);
        ("mixed", mixed); ("other", other);
        ("white", (1 - south_asian - black - mixed - other) * (1 - unknown)) ]%string
    /\ py_sum (Dict.values d)
       = 1 + unknown * (south_asian + black + mixed + other).
Proof.
  unfold StandardPracticeFactory._generate_ethnicity_proportions. intros H.
  minv H.
  repeat match goal with
  | G : dict_getitem _ _ _ = (Ok _, _) |- _ =>
      apply dict_getitem_Ok_inv in G; destruct G as [_ ?]
  end.
  subst d. cbn [Dict.set Dict.empty String.eqb Ascii.eqb Bool.eqb].
  do 5 eexists. split; [reflexivity |].
  unfold py_sum, Dict.values. cbn [map snd fold_left]. ring.
Qed.

Lemma _generate_ethnicity_proportions_keys (self : StandardPracticeFactory.t)
    (s s' : rng) (d : Dict.t) :
  StandardPracticeFactory._generate_ethnicity_proportions self s = (Ok d, s') ->
  set_eqb (Dict.keys d) Practice.required_ethnicities = true.
Proof.
  intros H. apply _generate_ethnicity_proportions_sum in H.
  destruct H as (u & sa & b & m & o & Hitems & _).
  unfold Dict.keys. unfold Dict.items in Hitems. rewrite Hitems. reflexivity.
Qed.

End EthnicityProportions.

Lemma logistic_minus_ln (c : R) : 0 < c -> StandardPracticeFactory.logistic (- ln c) = 1 / (1 + c).
Proof.
  intros Hc. unfold StandardPracticeFactory.logistic.
  rewrite Ropp_involutive, exp_ln by exact Hc. reflexivity.
Qed.


(** ** Many practices *)

Section RaiseSites.
Context {rng : Type}.


Lemma raises_only_ret {A} (P : exn -> Prop) (a : A) :
  raises_only P (@ret rng A a).
Proof. intros s e s' H. discriminate H. Qed.

Lemma raises_only_raise {A} (P : exn -> Prop) (e : exn) :
  P e -> raises_only P (@raise rng A e).
Proof. intros HP s e' s' H. injection H as <- _. exact HP. Qed.

Lemma raises_only_draw {A} (P : exn -> Prop) (f : rng -> A * rng) :
  raises_only P (draw f).
Proof.
  intros s e s' H. unfold draw in H. destruct (f s). discriminate H.
Qed.

Lemma raises_only_lift {A} (P : exn -> Prop) (r : result A) :
  (forall e, r = Raise e -> P e) -> raises_only P (@lift rng A r).
Proof. intros Hr s e s' H. injection H as H _. apply Hr, H. Qed.

Lemma raises_only_bind {A B} (P : exn -> Prop) (m : M rng A) (k : A -> M rng B) :
  raises_only P m -> (forall a, raises_only P (k a)) ->
  raises_only P (bind m k).
Proof.
  intros Hm Hk s e s' H. unfold bind in H.
  destruct (m s) as [[a | e0] s0] eqn:E.
  - exact (Hk a _ _ _ H).
  - injection H as <- _. exact (Hm _ _ _ E).
Qed.

Lemma raises_only_mapM {A B} (P : exn -> Prop) (f : A -> M rng B) (l : list A) :
  (forall a, raises_only P (f a)) -> raises_only P (mapM f l).
Proof.
  intros Hf. induction l as [| a l IH]; simpl.
  - apply raises_only_ret.
  - apply raises_only_bind; [apply Hf |]. intros b.
    apply raises_only_bind; [exact IH |]. intros bs. apply raises_only_ret.
Qed.

Lemma raises_only_dict_getitem (P : exn -> Prop) (d : Dict.t) (k : string) :
  P (KeyError k) -> raises_only P (@dict_getitem rng d k).
Proof.
  intros HP. unfold dict_getitem. destruct (Dict.get d k).
  - apply raises_only_ret.
  - apply raises_only_raise, HP.
Qed.

Lemma mapM_Ok_inv {A B} (f : A -> M rng B) (l : list A) (s s' : rng)
    (bs : list B) :
  mapM f l s = (Ok bs, s') ->
  Forall2 (fun a b => exists s1 s2, f a s1 = (Ok b, s2)) l bs.
Proof.
  revert s s' bs. induction l as [| a l IH]; intros s s' bs H; simpl in H.
  - apply ret_Ok_inv in H. destruct H as [-> _]. constructor.
  - minv H. subst bs. constructor; [eauto | eauto].
Qed.

End RaiseSites.


(** Splits a goal [raises_only P m] along the structure of [m]. *)
Ltac raise_sites :=
  repeat first
    [ apply raises_only_ret
    | apply raises_only_draw
    | apply raises_only_raise; discriminate
    | apply raises_only_dict_getitem; discriminate
    | apply raises_only_bind; [| intros ?]
    | match goal with
      | |- raises_only _ (if ?c then _ else _) => destruct c
      end ].

(** Settles [new ... = Raise e -> not_count_error e] for a dataclass. *)
Ltac constructor_sites :=
  intros ? Hnew; unfold construct in Hnew; cbv beta in Hnew;
  repeat match type of Hnew with
  | context [if ?c then _ else _] => destruct c
  end;
  first [ discriminate Hnew
        | injection Hnew as <-; discriminate ].

Section CreatePractices.
Context {rng : Type} {RS : RandomSource rng}.

Lemma create_practice_raise_sites (self : StandardPracticeFactory.t) (id : Z) :
  raises_only not_count_error (StandardPracticeFactory.create_practice self id).
Proof.
  unfold StandardPracticeFactory.create_practice.
  apply raises_only_bind.
  { unfold StandardPracticeFactory._generate_practice_size. raise_sites. }
  intros size. apply raises_only_bind.
  { unfold StandardPracticeFactory._generate_registration_dates. raise_sites.
    apply raises_only_lift.
    unfold RegistrationDates.new, RegistrationDates.__post_init__.
    constructor_sites. }
  intros rd. apply raises_only_bind.
  { unfold StandardPracticeFactory._generate_ethnicity_proportions.
    raise_sites. }
  intros eth. apply raises_only_bind.
  { unfold StandardPracticeFactory._generate_demographics. raise_sites. }
  intros male. apply raises_only_bind.
  { unfold StandardPracticeFactory._generate_transfer_parameters. raise_sites.
    apply raises_only_lift.
    unfold TransferParameters.new, TransferParameters.__post_init__.
    constructor_sites. }
  intros tp. apply raises_only_bind.
  { unfold StandardPracticeFactory._generate_birth_years. raise_sites.
    apply raises_only_lift.
    unfold BirthYearParameters.new, BirthYearParameters.__post_init__.
    constructor_sites. }
  intros bp. apply raises_only_lift.
  unfold Practice.new, Practice.__post_init__.
  constructor_sites.
Qed.

Lemma create_practice_id (self : StandardPracticeFactory.t) (id : Z)
    (s s' : rng) (p : Practice.t) :
  StandardPracticeFactory.create_practice self id s = (Ok p, s') ->
  p.(Practice.practice_id) = id.
Proof.
  unfold StandardPracticeFactory.create_practice. intros H. minv H.
  apply Practice_new_inv in H. destruct H as [-> _]. reflexivity.
Qed.

End CreatePractices.

Lemma range_succ_ids (n : Z) :
  map (fun i => (i + 1)%Z) (range n) = map Z.of_nat (seq 1 (Z.to_nat n)).
Proof.
  unfold range. rewrite map_map, <- seq_shift, map_map.
  apply map_ext. intros k. lia.
Qed.

Lemma NoDup_map_of_nat_seq (a len : nat) : NoDup (map Z.of_nat (seq a len)).
Proof.
  revert a. induction len as [| len IH]; intros a; simpl; constructor.
  - intros Hin. apply in_map_iff in Hin. destruct Hin as (k & Hk & Hseq).
    apply in_seq in Hseq. lia.
  - apply IH.
Qed.

Section CreatePracticesSpec.
Context {rng : Type} {RS : RandomSource rng}.

Local Notation "'each_call' self" :=
  (fun i => StandardPracticeFactory.create_practice self (i + 1)%Z)
  (at level 10, self at level 9).

Lemma calls_return_nil_inv (self : StandardPracticeFactory.t) (s s' : rng)
    (ps : list Practice.t) :
  calls_return self [] s ps s' -> ps = [] /\ s' = s.
Proof. intros H. inversion H; subst. split; reflexivity. Qed.

Lemma calls_return_cons_inv (self : StandardPracticeFactory.t) (id : Z)
    (ids : list Z) (s s' : rng) (ps : list Practice.t) :
  calls_return self (id :: ids) s ps s' ->
  exists p qs s1,
    ps = p :: qs
    /\ StandardPracticeFactory.create_practice self id s = (Ok p, s1)
    /\ calls_return self ids s1 qs s'.
Proof.
  intros H. inversion H as [| ? ? ? t1 t2 q qs' Hq Hrest]; subst.
  exists q, qs', t1. repeat split; assumption.
Qed.

(** The comprehension returns exactly when the chain of calls does. *)
Lemma mapM_calls_return (self : StandardPracticeFactory.t) (l : list Z)
    (s s' : rng) (ps : list Practice.t) :
  mapM (each_call self) l s = (Ok ps, s')
  <-> calls_return self (map (fun i => (i + 1)%Z) l) s ps s'.
Proof.
  revert s ps. induction l as [| a l IH]; intros s ps; simpl.
  - split.
    + intros H. apply ret_Ok_inv in H. destruct H as [Hps Hs]. subst.
      constructor.
    + intros H. apply calls_return_nil_inv in H. destruct H as [-> ->].
      reflexivity.
  - unfold bind at 1.
    destruct (StandardPracticeFactory.create_practice self (a + 1) s)
      as [[p | e] s0] eqn:E.
    + unfold bind at 1.
      destruct (mapM (each_call self) l s0) as [[qs | e] s1] eqn:E1.
      * unfold ret. split.
        -- intros H. injection H as <- <-.
           econstructor; [exact E | apply IH; exact E1].
        -- intros H. apply calls_return_cons_inv in H.
        destruct H as (q & qs' & t1 & -> & Hq & Hrest).
           rewrite E in Hq. injection Hq as <- <-.
           apply IH in Hrest. rewrite E1 in Hrest. injection Hrest as <- <-.
           reflexivity.
      * split; [discriminate |].
        intros H. apply calls_return_cons_inv in H.
        destruct H as (q & qs' & t1 & -> & Hq & Hrest).
        rewrite E in Hq. injection Hq as <- <-.
        apply IH in Hrest. rewrite E1 in Hrest. discriminate Hrest.
    + split; [discriminate |].
      intros H. apply calls_return_cons_inv in H.
        destruct H as (q & qs' & t1 & -> & Hq & Hrest).
      rewrite E in Hq. discriminate Hq.
Qed.

(** The comprehension raises exactly what the first call that raises
    does, after the calls before it have returned. *)
Lemma mapM_calls_raise (self : StandardPracticeFactory.t) (len start : nat)
    (s s' : rng) (e : exn) :
  mapM (each_call self) (map Z.of_nat (seq start len)) s = (Raise e, s')
  <-> exists (k : nat) ps s1,
        (k < len)%nat
        /\ calls_return self (map Z.of_nat (seq (S start) k)) s ps s1
        /\ StandardPracticeFactory.create_practice self
             (Z.of_nat (S (start + k))) s1 = (Raise e, s').
Proof.
  revert start s. induction len as [| len IH]; intros start s.
  - simpl. split; [discriminate |]. intros (k & _ & _ & Hk & _). lia.
  - cbn [seq map mapM]. unfold bind at 1.
    replace (Z.of_nat start + 1)%Z with (Z.of_nat (S start)) by lia.
    destruct (StandardPracticeFactory.create_practice self
                (Z.of_nat (S start)) s) as [[p | e0] s0] eqn:E.
    + unfold bind at 1.
      destruct (mapM (each_call self) (map Z.of_nat (seq (S start) len)) s0)
        as [[qs | e1] s1] eqn:E1.
      * split; [discriminate |].
        intros (k & ps & s2 & Hk & Hcalls & Hraise).
        destruct k as [| k].
        -- apply calls_return_nil_inv in Hcalls. destruct Hcalls as [-> ->]. rewrite Nat.add_0_r in Hraise.
           rewrite E in Hraise. discriminate Hraise.
        -- cbn [seq map] in Hcalls.
           apply calls_return_cons_inv in Hcalls.
           destruct Hcalls as (q & qs' & t1 & -> & Hq & Hrest).
           rewrite E in Hq. injection Hq as <- <-.
           assert (Hex : mapM (each_call self)
                              (map Z.of_nat (seq (S start) len)) s0
                         = (Raise e, s')).
           { apply IH. exists k, qs', s2. split; [lia |]. split; [exact Hrest |].
             replace (S (S start + k)) with (S (start + S k)) by lia.
             exact Hraise. }
           rewrite E1 in Hex. discriminate Hex.
      * split.
        -- intros H. injection H as <- <-.
           apply IH in E1. destruct E1 as (k & ps & s2 & Hk & Hcalls & Hraise).
           exists (S k), (p :: ps), s2. split; [lia |]. split.
           ++ cbn [seq map]. econstructor; [exact E | exact Hcalls].
           ++ replace (S (start + S k)) with (S (S start + k)) by lia.
              exact Hraise.
        -- intros (k & ps & s2 & Hk & Hcalls & Hraise).
           destruct k as [| k].
           ++ apply calls_return_nil_inv in Hcalls. destruct Hcalls as [-> ->]. rewrite Nat.add_0_r in Hraise.
              rewrite E in Hraise. discriminate Hraise.
           ++ cbn [seq map] in Hcalls.
              apply calls_return_cons_inv in Hcalls.
           destruct Hcalls as (q & qs' & t1 & -> & Hq & Hrest).
              rewrite E in Hq. injection Hq as <- <-.
              assert (Hex : mapM (each_call self)
                                 (map Z.of_nat (seq (S start) len)) s0
                            = (Raise e, s')).
              { apply IH. exists k, qs', s2. split; [lia |].
                split; [exact Hrest |].
                replace (S (S start + k)) with (S (start + S k)) by lia.
                exact Hraise. }
              rewrite E1 in Hex. injection Hex as <- <-. reflexivity.
    + split.
      * intros H. injection H as <- <-.
        exists 0%nat, [], s. split; [lia |]. split; [constructor |].
        rewrite Nat.add_0_r. exact E.
      * intros (k & ps & s2 & Hk & Hcalls & Hraise).
        destruct k as [| k].
        -- apply calls_return_nil_inv in Hcalls. destruct Hcalls as [-> ->]. rewrite Nat.add_0_r in Hraise.
           rewrite E in Hraise. injection Hraise as <- <-. reflexivity.
        -- cbn [seq map] in Hcalls.
           apply calls_return_cons_inv in Hcalls.
           destruct Hcalls as (q & qs' & t1 & -> & Hq & Hrest).
           rewrite E in Hq. discriminate Hq.
Qed.

(** C6, as the code has it.  [create_practices] raises "Number of practices
    must be positive" exactly when the count is at most 0, before anything
    is drawn.  For a count of at least 1 it calls [create_practice] for the
    identifiers 1..count in order, each call from the generator state the
    one before left.  It returns exactly when every one of these calls
    returns, and then the list holds their practices: exactly count of them,
    with the identifiers 1..count in order, hence distinct.  It raises
    exactly when one of these calls raises after the ones before it have
    returned, and what comes out is that exception, with the state that
    call left, instead of a list. *)
Theorem create_practices_spec (self : StandardPracticeFactory.t)
    (number_of_practices : Z) (s : rng) :
  ((number_of_practices <= 0)%Z ->
   StandardPracticeFactory.create_practices self number_of_practices s
     = (Raise (ValueError NumberOfPracticesNotPositive), s))
  /\ ((1 <= number_of_practices)%Z ->
      forall s',
        StandardPracticeFactory.create_practices self number_of_practices s
          <> (Raise (ValueError NumberOfPracticesNotPositive), s'))
  /\ (forall practices s',
        StandardPracticeFactory.create_practices self number_of_practices s
          = (Ok practices, s') ->
        (1 <= number_of_practices)%Z
        /\ Z.of_nat (List.length practices) = number_of_practices
        /\ map Practice.practice_id practices
           = map Z.of_nat (seq 1 (Z.to_nat number_of_practices))
        /\ NoDup (map Practice.practice_id practices))
  /\ ((1 <= number_of_practices)%Z ->
      forall practices s',
        StandardPracticeFactory.create_practices self number_of_practices s
          = (Ok practices, s')
        <-> calls_return self
              (map Z.of_nat (seq 1 (Z.to_nat number_of_practices)))
              s practices s')
  /\ ((1 <= number_of_practices)%Z ->
      forall e s',
        StandardPracticeFactory.create_practices self number_of_practices s
          = (Raise e, s')
        <-> exists k practices s1,
              (0 <= k < number_of_practices)%Z
              /\ calls_return self (map Z.of_nat (seq 1 (Z.to_nat k)))
                   s practices s1
              /\ StandardPracticeFactory.create_practice self (k + 1) s1
                 = (Raise e, s')).
Proof.
  unfold StandardPracticeFactory.create_practices.
  split; [| split; [| split; [| split]]].
  - intros Hn. destruct (Z.leb_spec number_of_practices 0); [reflexivity | lia].
  - intros Hn s' H.
    destruct (Z.leb_spec number_of_practices 0); [lia |].
    assert (Hsites : raises_only not_count_error
              (mapM (fun i => StandardPracticeFactory.create_practice self (i + 1)%Z)
                    (range number_of_practices))).
    { apply raises_only_mapM. intros a. apply create_practice_raise_sites. }
    apply (Hsites _ _ _ H). reflexivity.
  - intros practices s' H.
    destruct (Z.leb_spec number_of_practices 0) as [Hle | Hgt];
      [apply raise_Ok_inv in H; destruct H |].
    apply mapM_Ok_inv in H.
    assert (Hids : map Practice.practice_id practices
                   = map (fun i => (i + 1)%Z) (range number_of_practices)).
    { induction H as [| a p l ps (s1 & s2 & Hp) _ IH]; [reflexivity |].
      simpl. rewrite (create_practice_id _ _ _ _ _ Hp), IH. reflexivity. }
    rewrite range_succ_ids in Hids.
    split; [lia |]. split; [| split; [exact Hids |]].
    + apply (f_equal (@List.length Z)) in Hids.
      rewrite !length_map, length_seq in Hids. lia.
    + rewrite Hids. apply NoDup_map_of_nat_seq.
  - intros Hn practices s'.
    destruct (Z.leb_spec number_of_practices 0); [lia |].
    rewrite mapM_calls_return, range_succ_ids. reflexivity.
  - intros Hn e s'.
    destruct (Z.leb_spec number_of_practices 0); [lia |].
    unfold range. rewrite mapM_calls_raise. split.
    + intros (k & ps & s1 & Hk & Hcalls & Hraise).
      exists (Z.of_nat k), ps, s1. split; [lia |].
      rewrite Nat2Z.id. split; [exact Hcalls |].
      replace (Z.of_nat k + 1)%Z with (Z.of_nat (S (0 + k))) by lia.
      exact Hraise.
    + intros (k & ps & s1 & Hk & Hcalls & Hraise).
      exists (Z.to_nat k), ps, s1. split; [lia |]. split; [exact Hcalls |].
      replace (Z.of_nat (S (0 + Z.to_nat k))) with (k + 1)%Z by lia.
      exact Hraise.
Qed.

End CreatePracticesSpec.


(** ** One recorded run of [create_practice] *)

Ltac rclip :=
  unfold np_clip;
  repeat first
    [ rewrite Rmax_left by lra
    | rewrite Rmax_right by lra
    | rewrite Rmin_left by lra
    | rewrite Rmin_right by lra ].

Lemma round1_tenths (z : Z) : round1 (IZR z / 10) = IZR z / 10.
Proof.
  unfold round1. replace (IZR z / 10 * 10) with (IZR z) by lra.
  rewrite py_round_IZR. reflexivity.
Qed.

Lemma round1_0 : round1 0 = 0.
Proof.
  replace 0 with (IZR 0 / 10) by lra. rewrite round1_tenths. lra.
Qed.

Section RecordedRun.
Local Notation "'self'" := (StandardPracticeFactory.mk get_default_config).
Local Existing Instance recorded.

Lemma _generate_practice_size_recorded (t : list R) :
  StandardPracticeFactory._generate_practice_size self (30 :: 20 :: t)
  = (Ok 1000%Z, t).
Proof.
  unfold StandardPracticeFactory._generate_practice_size.
  cbn [StandardPracticeFactory.config get_default_config practice_size_df1
       practice_size_df2 practice_size_multiplier Z.leb Z.compare orb].
  rcmp. unfold bind, draw, ret. cbn [stats_chi2_rvs recorded Replay pop].
  replace (1000 * (30 / 30) / (20 / 20)) with (IZR 1000) by (field_simplify; lra).
  rewrite py_round_IZR. reflexivity.
Qed.

Lemma _generate_registration_dates_recorded (t : list R) :
  StandardPracticeFactory._generate_registration_dates self
    (926 :: 0 :: 10000 :: t)
  = (Ok sample_registration_dates, t).
Proof.
  unfold StandardPracticeFactory._generate_registration_dates.
  cbn [StandardPracticeFactory.config get_default_config registration
       min_registration_sd med_registration_sd existsb
       last_registration_date min_registration_offset med_registration_offset].
  rcmp. cbn [orb].
  unfold bind, draw, lift.
  cbn [np_random_exponential np_random_normal recorded Replay pop].
  rclip. rewrite RegistrationDates_new_ok by lra.
  unfold sample_registration_dates. repeat f_equal. lra.
Qed.

Lemma _generate_ethnicity_proportions_recorded (t : list R) :
  StandardPracticeFactory._generate_ethnicity_proportions self
    (- ln 9 :: - ln 9 :: - ln 9 :: - ln 9 :: - ln 9 :: t)
  = (Ok skewed_ethnicity_proportions, t).
Proof.
  unfold StandardPracticeFactory._generate_ethnicity_proportions.
  unfold bind at 1. unfold draw.
  cbn [np_random_multivariate_normal recorded Replay
       StandardPracticeFactory.config
       get_default_config ethnicity means List.length pop_n pop map].
  unfold Dict.of_items.
  cbn [combine map fold_left Dict.set Dict.empty fst snd
       String.eqb Ascii.eqb Bool.eqb].
  rewrite logistic_minus_ln by lra.
  unfold bind, dict_getitem.
  cbn [Dict.get String.eqb Ascii.eqb Bool.eqb].
  unfold ret.
  cbn [Dict.set Dict.empty String.eqb Ascii.eqb Bool.eqb].
  unfold skewed_ethnicity_proportions.
  apply (f_equal (fun l => (Ok l, t))).
  repeat (apply (f_equal2 cons);
          [apply (f_equal2 pair); [reflexivity | field] |]).
  reflexivity.
Qed.

Lemma _generate_demographics_recorded (t : list R) :
  StandardPracticeFactory._generate_demographics self (0.4 :: t) = (Ok 0.4, t).
Proof.
  unfold StandardPracticeFactory._generate_demographics.
  cbn [StandardPracticeFactory.config get_default_config demographics
       male_proportion_mean male_proportion_sd].
  rcmp. cbn [negb andb].
  unfold bind, draw, ret. cbn [np_random_normal recorded Replay pop].
  rclip. reflexivity.
Qed.

Lemma _generate_transfer_parameters_recorded (t : list R) :
  StandardPracticeFactory._generate_transfer_parameters self
    (0.2 :: 0 :: 7000 :: 22400 :: t)
  = (Ok recorded_transfer_params, t).
Proof.
  unfold StandardPracticeFactory._generate_transfer_parameters.
  cbn [StandardPracticeFactory.config get_default_config registration
       transfer_probability_mean transfer_probability_sd min_transfer_gap
       min_transfer_gap_sd med_transfer_gap_mean med_transfer_gap_sd
       max_transfer_gap_mean max_transfer_gap_sd existsb].
  rcmp. cbn [negb andb orb].
  unfold bind, draw, lift. cbn [np_random_normal recorded Replay pop].
  rewrite round1_0.
  rclip. rewrite TransferParameters_new_ok by lra.
  unfold recorded_transfer_params. repeat f_equal; lra.
Qed.

Lemma _generate_birth_years_recorded (t : list R) :
  StandardPracticeFactory._generate_birth_years self
    (1910 :: 1943 :: 1980 :: t)
  = (Ok recorded_birth_years, t).
Proof.
  unfold StandardPracticeFactory._generate_birth_years.
  cbn [StandardPracticeFactory.config get_default_config demographics
       min_yob_mean min_yob_sd med_yob_mean med_yob_sd max_yob_mean max_yob_sd
       existsb].
  rcmp. cbn [negb andb orb].
  unfold bind, draw, lift. cbn [np_random_normal recorded Replay pop].
  rclip.
  replace 1910 with (IZR 19100 / 10) by lra.
  replace 1943 with (IZR 19430 / 10) by lra.
  replace 1980 with (IZR 19800 / 10) by lra.
  rewrite !round1_tenths.
  rewrite BirthYearParameters_new_ok by lra.
  unfold recorded_birth_years. repeat f_equal; lra.
Qed.

Lemma skewed_practice_constructed (id : Z) :
  (0 < id)%Z ->
  Practice.new id 1000 0.4 sample_registration_dates recorded_transfer_params
               recorded_birth_years skewed_ethnicity_proportions
  = Ok (skewed_practice id).
Proof.
  intros Hid.
  assert (Hsum : py_sum (Dict.values skewed_ethnicity_proportions)
                 = 69049 / 65610).
  { unfold skewed_ethnicity_proportions, py_sum, Dict.values.
    cbn [map snd fold_left]. lra. }
  apply Practice_new_ok; try lia; try lra.
  - unfold skewed_ethnicity_proportions, Dict.values. cbn [map snd forallb].
    rcmp. reflexivity.
  - rewrite Hsum. apply py_int_unique; lra.
  - reflexivity.
Qed.

Lemma create_practice_recorded (id : Z) (t : list R) :
  (0 < id)%Z ->
  StandardPracticeFactory.create_practice self id (practice_recording ++ t)
  = (Ok (skewed_practice id), t).
Proof.
  intros Hid. unfold StandardPracticeFactory.create_practice, practice_recording.
  cbn [app].
  rewrite (bind_Ok _ _ _ _ _ (_generate_practice_size_recorded _)).
  rewrite (bind_Ok _ _ _ _ _ (_generate_registration_dates_recorded _)).
  rewrite (bind_Ok _ _ _ _ _ (_generate_ethnicity_proportions_recorded _)).
  rewrite (bind_Ok _ _ _ _ _ (_generate_demographics_recorded _)).
  rewrite (bind_Ok _ _ _ _ _ (_generate_transfer_parameters_recorded _)).
  rewrite (bind_Ok _ _ _ _ _ (_generate_birth_years_recorded _)).
  unfold lift. rewrite skewed_practice_constructed by exact Hid. reflexivity.
Qed.

Lemma logistic_0 : StandardPracticeFactory.logistic 0 = 1 / 2.
Proof.
  unfold StandardPracticeFactory.logistic. rewrite Ropp_0, exp_0. lra.
Qed.

Lemma _generate_ethnicity_proportions_even_odds (t : list R) :
  StandardPracticeFactory._generate_ethnicity_proportions self
    (0 :: 0 :: 0 :: 0 :: 0 :: t)
  = (Ok even_odds_ethnicity_proportions, t).
Proof.
  unfold StandardPracticeFactory._generate_ethnicity_proportions.
  unfold bind at 1. unfold draw.
  cbn [np_random_multivariate_normal recorded Replay
       StandardPracticeFactory.config
       get_default_config ethnicity means List.length pop_n pop map].
  unfold Dict.of_items.
  cbn [combine map fold_left Dict.set Dict.empty fst snd
       String.eqb Ascii.eqb Bool.eqb].
  rewrite logistic_0.
  unfold bind, dict_getitem.
  cbn [Dict.get String.eqb Ascii.eqb Bool.eqb].
  unfold ret.
  cbn [Dict.set Dict.empty String.eqb Ascii.eqb Bool.eqb].
  unfold even_odds_ethnicity_proportions.
  apply (f_equal (fun l => (Ok l, t))).
  repeat (apply (f_equal2 cons);
          [apply (f_equal2 pair); [reflexivity | field] |]).
  reflexivity.
Qed.

(** Under the default configuration too a call can raise: with every
    logistic value at 1/2 the black proportion is 2 and the Practice
    constructor refuses it. *)
Lemma create_practice_even_odds_raises (id : Z) (t : list R) :
  (0 < id)%Z ->
  StandardPracticeFactory.create_practice self id (even_odds_recording ++ t)
  = (Raise (ValueError EthnicityProportionOutOfRange), t).
Proof.
  intros Hid. unfold StandardPracticeFactory.create_practice, even_odds_recording.
  cbn [app].
  rewrite (bind_Ok _ _ _ _ _ (_generate_practice_size_recorded _)).
  rewrite (bind_Ok _ _ _ _ _ (_generate_registration_dates_recorded _)).
  rewrite (bind_Ok _ _ _ _ _ (_generate_ethnicity_proportions_even_odds _)).
  rewrite (bind_Ok _ _ _ _ _ (_generate_demographics_recorded _)).
  rewrite (bind_Ok _ _ _ _ _ (_generate_transfer_parameters_recorded _)).
  rewrite (bind_Ok _ _ _ _ _ (_generate_birth_years_recorded _)).
  unfold lift, Practice.new, construct, Practice.__post_init__.
  cbn [Practice.practice_id Practice.patient_count Practice.male_proportion
       Practice.ethnicity_proportions].
  destruct (Z.leb_spec id 0); [lia |].
  cbn [Z.leb Z.compare].
  rcmp. cbn [negb andb].
  unfold even_odds_ethnicity_proportions, Dict.values.
  cbn [map snd forallb]. rcmp. reflexivity.
Qed.

End RecordedRun.

Lemma create_practices_spec_witness :
  StandardPracticeFactory.create_practices (RS := recorded)
    (StandardPracticeFactory.mk get_default_config) 2
    (practice_recording ++ practice_recording ++ [])
  = (Ok [skewed_practice 1; skewed_practice 2], [])
  /\ (1 <= 2)%Z
  /\ Z.of_nat (List.length [skewed_practice 1; skewed_practice 2]) = 2%Z
  /\ map Practice.practice_id [skewed_practice 1; skewed_practice 2]
     = map Z.of_nat (seq 1 (Z.to_nat 2))
  /\ NoDup (map Practice.practice_id [skewed_practice 1; skewed_practice 2]).
Proof.
  pose proof (create_practices_spec (RS := recorded)
                (StandardPracticeFactory.mk get_default_config) 2
                (practice_recording ++ practice_recording ++ []))
    as (_ & _ & Hlist & Hreturns & _).
  assert (Hrun : StandardPracticeFactory.create_practices (RS := recorded)
                   (StandardPracticeFactory.mk get_default_config) 2
                   (practice_recording ++ practice_recording ++ [])
                 = (Ok [skewed_practice 1; skewed_practice 2], [])).
  { apply (Hreturns ltac:(lia)).
    change (map Z.of_nat (seq 1 (Z.to_nat 2))) with [1; 2]%Z.
    apply calls_return_cons with (s1 := practice_recording ++ []);
      [exact (create_practice_recorded 1 _ ltac:(lia)) |].
    apply calls_return_cons with (s1 := []);
      [exact (create_practice_recorded 2 _ ltac:(lia)) |].
    apply calls_return_nil. }
  split; [exact Hrun |]. exact (Hlist _ _ Hrun).
Defined.

(** C2.  With the default configuration and the five normal variates all
    equal to [- ln 9] (each logistic value is 1/10), the proportions
    returned are 1/10 for unknown, 1/9, 10/81, 100/729, 1000/6561 and
    1561/3645 for white.  The key set is the required one and
    [Practice.__post_init__] accepts them, but their sum is 69049/65610,
    about 1.052, not 1. *)
Theorem generate_ethnicity_proportions_sum_not_one :
  StandardPracticeFactory._generate_ethnicity_proportions (RS := recorded)
    (StandardPracticeFactory.mk get_default_config)
    [- ln 9; - ln 9; - ln 9; - ln 9; - ln 9]
  = (Ok skewed_ethnicity_proportions, [])
  /\ set_eqb (Dict.keys skewed_ethnicity_proportions)
             Practice.required_ethnicities = true
  /\ py_sum (Dict.values skewed_ethnicity_proportions) = 69049 / 65610
  /\ 1 + 1/20 < py_sum (Dict.values skewed_ethnicity_proportions)
  /\ Practice.new 1 1000 0.4 sample_registration_dates recorded_transfer_params
                  recorded_birth_years skewed_ethnicity_proportions
     = Ok (skewed_practice 1).
Proof.
  assert (Hsum : py_sum (Dict.values skewed_ethnicity_proportions)
                 = 69049 / 65610).
  { unfold skewed_ethnicity_proportions, py_sum, Dict.values.
    cbn [map snd fold_left]. lra. }
  split; [| split; [reflexivity | split; [exact Hsum | split]]].
  - apply _generate_ethnicity_proportions_recorded.
  - rewrite Hsum. lra.
  - apply skewed_practice_constructed. lia.
Qed.

(** A count of at least 1 and no list.  With the configuration of the
    package's own size test ([df1 = -1]), [create_practices(1)] raises the
    degrees-of-freedom error; with the default configuration and the draws
    of [even_odds_recording] it raises "Ethnicity proportions must be
    between 0 and 1". *)
Lemma create_practices_one_raises :
  (1 <= 1)%Z
  /\ StandardPracticeFactory.create_practices (RS := recorded)
       (StandardPracticeFactory.mk negative_df1_config) 1 []
     = (Raise (ValueError DegreesOfFreedomNotPositive), [])
  /\ StandardPracticeFactory.create_practices (RS := recorded)
       (StandardPracticeFactory.mk get_default_config) 1 even_odds_recording
     = (Raise (ValueError EthnicityProportionOutOfRange), []).
Proof.
  split; [lia |]. split; [reflexivity |].
  unfold StandardPracticeFactory.create_practices.
  change (range 1) with [0]%Z.
  cbn [Z.leb Z.compare mapM]. change (0 + 1)%Z with 1%Z.
  rewrite <- (app_nil_r even_odds_recording).
  rewrite (bind_Raise _ _ _ _ _
             (create_practice_even_odds_raises 1 [] ltac:(lia))).
  reflexivity.
Qed.

(** ** One recorded run of [create_patient] *)

Section RecordedPatient.
Local Notation "'self'" := (PatientFactory.mk sample_practice).
Local Existing Instance recorded.

Lemma _generate_sex_recorded (t : list R) :
  PatientFactory._generate_sex self (0.3 :: t) = (Ok MALE, t).
Proof.
  unfold PatientFactory._generate_sex.
  unfold bind, draw, ret. cbn [np_random_random recorded Replay pop].
  cbn [PatientFactory.practice sample_practice Practice.male_proportion].
  rcmp. reflexivity.
Qed.

Lemma _generate_ethnicity_recorded (t : list R) :
  PatientFactory._generate_ethnicity self (0.5 :: 0.5 :: t) = (Ok WHITE, t).
Proof.
  unfold PatientFactory._generate_ethnicity.
  cbn [PatientFactory.practice sample_practice Practice.ethnicity_proportions].
  unfold bind, draw, dict_getitem.
  cbn [np_random_random recorded Replay pop].
  unfold sample_ethnicity_proportions.
  cbn [Dict.get String.eqb Ascii.eqb Bool.eqb].
  unfold ret. rcmp.
  cbn [np_random_random recorded Replay pop Dict.items PatientFactory.ethnicity_loop
       String.eqb Ascii.eqb Bool.eqb negb].
  replace (Rltb 0.5 (0 + 0.75 / (1 - 0.01))) with true.
  2:{ symmetry. apply Rltb_true.
      assert (Hc : 0.5 < 0.75 / (1 - 0.01)).
      { apply Rmult_lt_reg_r with (1 - 0.01); [lra |].
        unfold Rdiv. rewrite Rmult_assoc, Rinv_l by lra. lra. }
      lra. }
  reflexivity.
Qed.

Lemma _generate_birth_date_recorded (t : list R) :
  PatientFactory._generate_birth_date self (0.05 :: 88.75 :: t)
  = (Ok (-20000)%Z, t).
Proof.
  unfold PatientFactory._generate_birth_date.
  cbn [PatientFactory.practice sample_practice Practice.birth_years
       sample_birth_years BirthYearParameters.earliest_birth_year
       BirthYearParameters.latest_birth_year].
  unfold bind, draw, ret.
  cbn [stats_beta_rvs np_random_uniform recorded Replay pop].
  replace ((1900 + 0.05 * (2000 - 1900) - 1960) * 365.25 + 88.75)
    with (- IZR 20000) by lra.
  unfold py_int. rcmp. rewrite Ropp_involutive.
  rewrite (floor_unique (IZR 20000) 20000) by lra. reflexivity.
Qed.

Lemma _generate_registration_date_recorded (t : list R) :
  PatientFactory._generate_registration_date self (-20000) (5000 :: t)
  = (Ok 5000%Z, t).
Proof.
  unfold PatientFactory._generate_registration_date.
  cbn [PatientFactory.practice sample_practice Practice.registration_dates
       sample_registration_dates RegistrationDates.earliest_registration
       RegistrationDates.latest_registration].
  unfold bind, draw, ret. cbn [np_random_uniform recorded Replay pop].
  rcmp. rewrite py_round_IZR. reflexivity.
Qed.

Lemma _generate_transfer_date_recorded (t : list R) :
  PatientFactory._generate_transfer_date self (-20000) 5000
    (0.1 :: 14000 :: 30 :: t)
  = (Ok (Some 19000%Z), t).
Proof.
  unfold PatientFactory._generate_transfer_date.
  cbn [PatientFactory.practice sample_practice Practice.registration_dates
       Practice.transfer_params sample_transfer_params
       sample_registration_dates TransferParameters.transfer_probability
       TransferParameters.minimum_gap TransferParameters.maximum_gap
       RegistrationDates.latest_registration].
  unfold bind, draw, ret.
  cbn [np_random_random np_random_uniform recorded Replay pop].
  rcmp. cbn [np_random_random np_random_uniform recorded Replay pop].
  rewrite py_max_Rmax, Rmax_left by lra.
  rcmp. cbn [andb].
  replace (IZR 5000 + 14000) with (IZR 19000) by lra.
  rewrite py_round_IZR. reflexivity.
Qed.

Lemma _generate_death_date_recorded :
  PatientFactory._generate_death_date self (-20000) (Some 19000%Z)
  = Some 18351%Z.
Proof.
  unfold PatientFactory._generate_death_date.
  rewrite py_int_death_offset.
  cbn [PatientFactory.practice sample_practice Practice.registration_dates
       sample_registration_dates RegistrationDates.latest_registration].
  change (-20000 + 38351)%Z with 18351%Z.
  rcmp. reflexivity.
Qed.

Lemma create_patient_recorded_raises (t : list R) :
  PatientFactory.create_patient self 0 (patient_recording ++ t)
  = (Raise (ValueError DeathMustBeBeforeTransfer), t).
Proof.
  unfold PatientFactory.create_patient, patient_recording. cbn [app].
  assert (Hid : PatientFactory._generate_patient_id self 0 = Ok 1001%Z)
    by reflexivity.
  rewrite Hid. unfold lift at 1. unfold bind at 1.
  rewrite (bind_Ok _ _ _ _ _ (_generate_sex_recorded _)).
  rewrite (bind_Ok _ _ _ _ _ (_generate_ethnicity_recorded _)).
  rewrite (bind_Ok _ _ _ _ _ (_generate_birth_date_recorded _)).
  rewrite (bind_Ok _ _ _ _ _ (_generate_registration_date_recorded _)).
  rewrite (bind_Ok _ _ _ _ _ (_generate_transfer_date_recorded _)).
  rewrite _generate_death_date_recorded.
  reflexivity.
Qed.

(** The same call once the recording is exhausted and every draw is 0. *)
Lemma create_patient_all_zero_draws :
  PatientFactory.create_patient self 0 []
  = (Ok (Patient.mk 1001 1 (-21915) 0 MALE UNKNOWN None (Some 16436%Z)), []).
Proof.
  unfold PatientFactory.create_patient.
  assert (Hid : PatientFactory._generate_patient_id self 0 = Ok 1001%Z)
    by reflexivity.
  rewrite Hid. unfold lift at 1. unfold bind at 1.
  assert (Hsex : PatientFactory._generate_sex self [] = (Ok MALE, [])).
  { unfold PatientFactory._generate_sex.
    unfold bind, draw, ret. cbn [np_random_random recorded Replay pop].
    cbn [PatientFactory.practice sample_practice Practice.male_proportion].
    rcmp. reflexivity. }
  rewrite (bind_Ok _ _ _ _ _ Hsex).
  assert (Heth : PatientFactory._generate_ethnicity self [] = (Ok UNKNOWN, [])).
  { unfold PatientFactory._generate_ethnicity.
    cbn [PatientFactory.practice sample_practice Practice.ethnicity_proportions].
    unfold bind, draw, dict_getitem.
    cbn [np_random_random recorded Replay pop].
    unfold sample_ethnicity_proportions.
    cbn [Dict.get String.eqb Ascii.eqb Bool.eqb].
    unfold ret. rcmp. reflexivity. }
  rewrite (bind_Ok _ _ _ _ _ Heth).
  assert (Hbirth : PatientFactory._generate_birth_date self []
                   = (Ok (-21915)%Z, [])).
  { unfold PatientFactory._generate_birth_date.
    cbn [PatientFactory.practice sample_practice Practice.birth_years
         sample_birth_years BirthYearParameters.earliest_birth_year
         BirthYearParameters.latest_birth_year].
    unfold bind, draw, ret.
    cbn [stats_beta_rvs np_random_uniform recorded Replay pop].
    replace ((1900 + 0 * (2000 - 1900) - 1960) * 365.25 + 0)
      with (- IZR 21915) by lra.
    unfold py_int. rcmp. rewrite Ropp_involutive.
    rewrite (floor_unique (IZR 21915) 21915) by lra. reflexivity. }
  rewrite (bind_Ok _ _ _ _ _ Hbirth).
  assert (Hreg : PatientFactory._generate_registration_date self (-21915) []
                 = (Ok 0%Z, [])).
  { unfold PatientFactory._generate_registration_date.
    cbn [PatientFactory.practice sample_practice Practice.registration_dates
         sample_registration_dates RegistrationDates.earliest_registration
         RegistrationDates.latest_registration].
    unfold bind, draw, ret. cbn [np_random_uniform recorded Replay pop].
    rcmp. rewrite py_round_IZR. reflexivity. }
  rewrite (bind_Ok _ _ _ _ _ Hreg).
  assert (Htr : PatientFactory._generate_transfer_date self (-21915) 0 []
                = (Ok None, [])).
  { unfold PatientFactory._generate_transfer_date.
    cbn [PatientFactory.practice sample_practice Practice.registration_dates
         Practice.transfer_params sample_transfer_params
         sample_registration_dates TransferParameters.transfer_probability
         TransferParameters.minimum_gap TransferParameters.maximum_gap
         RegistrationDates.latest_registration].
    unfold bind, draw, ret.
    cbn [np_random_random np_random_uniform recorded Replay pop].
    rcmp. cbn [np_random_random np_random_uniform recorded Replay pop].
    rewrite py_max_Rmax, Rmax_left by lra.
    rcmp. reflexivity. }
  rewrite (bind_Ok _ _ _ _ _ Htr).
  assert (Hdeath : PatientFactory._generate_death_date self (-21915) None
                   = Some 16436%Z).
  { unfold PatientFactory._generate_death_date.
    rewrite py_int_death_offset.
    cbn [PatientFactory.practice sample_practice Practice.registration_dates
         sample_registration_dates RegistrationDates.latest_registration].
    change (-21915 + 38351)%Z with 16436%Z.
    rcmp. reflexivity. }
  rewrite Hdeath. reflexivity.
Qed.

End RecordedPatient.

(** Calls made without seeding first depend on the state the generator
    happens to be in. *)
Lemma exec_depends_on_generator_state :
  exec (RS := recorded) (CreatePatient sample_practice 0 (fun _ => Stop))
       (StandardPracticeFactory.mk get_default_config) patient_recording
  <> exec (RS := recorded) (CreatePatient sample_practice 0 (fun _ => Stop))
          (StandardPracticeFactory.mk get_default_config) [].
Proof.
  cbn [exec]. unfold PatientFactory.__init__.
  rewrite <- (app_nil_r patient_recording).
  rewrite create_patient_recorded_raises, create_patient_all_zero_draws.
  discriminate.
Qed.

(** ** Two runs with one seed *)

Section Lockstep.
Context {rng1 rng2 : Type}.
Variable RS1 : RandomSource rng1.
Variable RS2 : RandomSource rng2.
Variable matching : rng1 -> rng2 -> Prop.
Hypothesis Hagree : sources_agree RS1 RS2 matching.

Local Notation "m1 ~~ m2" := (same_outcome matching m1 m2) (at level 70).

Lemma same_outcome_ret {A} (a : A) : ret a ~~ ret a.
Proof. intros s1 s2 Hs. split; [reflexivity | exact Hs]. Qed.

Lemma same_outcome_raise {A} (e : exn) : @raise rng1 A e ~~ @raise rng2 A e.
Proof. intros s1 s2 Hs. split; [reflexivity | exact Hs]. Qed.

Lemma same_outcome_lift {A} (r : result A) : lift r ~~ lift r.
Proof. intros s1 s2 Hs. split; [reflexivity | exact Hs]. Qed.

Lemma same_outcome_draw {A} (f1 : rng1 -> A * rng1) (f2 : rng2 -> A * rng2) :
  sampler_agrees matching f1 f2 -> draw f1 ~~ draw f2.
Proof.
  intros Hf s1 s2 Hs. destruct (Hf s1 s2 Hs) as [Hv Hnext].
  unfold draw. destruct (f1 s1) as [a1 t1], (f2 s2) as [a2 t2].
  simpl in *. subst a2. split; [reflexivity | exact Hnext].
Qed.

Lemma same_outcome_bind {A B} (m1 : M rng1 A) (m2 : M rng2 A)
    (k1 : A -> M rng1 B) (k2 : A -> M rng2 B) :
  m1 ~~ m2 -> (forall a, k1 a ~~ k2 a) -> bind m1 k1 ~~ bind m2 k2.
Proof.
  intros Hm Hk s1 s2 Hs. destruct (Hm s1 s2 Hs) as [Hv Hnext].
  unfold bind. destruct (m1 s1) as [r1 t1], (m2 s2) as [r2 t2].
  simpl in Hv, Hnext. subst r2.
  destruct r1 as [a | e]; [apply Hk; exact Hnext |].
  split; [reflexivity | exact Hnext].
Qed.

Lemma same_outcome_mapM {A B} (f1 : A -> M rng1 B) (f2 : A -> M rng2 B)
    (l : list A) :
  (forall a, f1 a ~~ f2 a) -> mapM f1 l ~~ mapM f2 l.
Proof.
  intros Hf. induction l as [| a l IH]; simpl.
  - apply same_outcome_ret.
  - apply same_outcome_bind; [apply Hf |]. intros b.
    apply same_outcome_bind; [exact IH |]. intros bs. apply same_outcome_ret.
Qed.

Lemma same_outcome_dict_getitem (d : Dict.t) (k : string) :
  dict_getitem d k ~~ dict_getitem d k.
Proof.
  unfold dict_getitem. destruct (Dict.get d k);
    [apply same_outcome_ret | apply same_outcome_raise].
Qed.

(** Walks through code that is the same in the two processes: every draw
    is answered alike, every test then goes the same way. *)
Ltac lockstep :=
  cbv zeta;
  repeat first
    [ apply same_outcome_ret
    | apply same_outcome_raise
    | apply same_outcome_lift
    | apply same_outcome_dict_getitem
    | apply same_outcome_draw;
      first [ apply (agree_random _ _ _ Hagree)
            | apply (agree_uniform _ _ _ Hagree)
            | apply (agree_normal _ _ _ Hagree)
            | apply (agree_exponential _ _ _ Hagree)
            | apply (agree_multivariate_normal _ _ _ Hagree)
            | apply (agree_chi2 _ _ _ Hagree)
            | apply (agree_beta _ _ _ Hagree) ]
    | apply same_outcome_bind; [| intros ?]
    | match goal with
      | |- same_outcome _ (if ?c then _ else _) (if ?c then _ else _) =>
          destruct c
      | |- same_outcome _ (match ?o with Some _ => _ | None => _ end)
                          (match ?o with Some _ => _ | None => _ end) =>
          destruct o
      end ].

Lemma create_practice_lockstep (self : StandardPracticeFactory.t) (id : Z) :
  StandardPracticeFactory.create_practice (RS := RS1) self id
  ~~ StandardPracticeFactory.create_practice (RS := RS2) self id.
Proof.
  unfold StandardPracticeFactory.create_practice.
  apply same_outcome_bind.
  { unfold StandardPracticeFactory._generate_practice_size. lockstep. }
  intros size. apply same_outcome_bind.
  { unfold StandardPracticeFactory._generate_registration_dates. lockstep. }
  intros rd. apply same_outcome_bind.
  { unfold StandardPracticeFactory._generate_ethnicity_proportions. lockstep. }
  intros eth. apply same_outcome_bind.
  { unfold StandardPracticeFactory._generate_demographics. lockstep. }
  intros male. apply same_outcome_bind.
  { unfold StandardPracticeFactory._generate_transfer_parameters. lockstep. }
  intros tp. apply same_outcome_bind.
  { unfold StandardPracticeFactory._generate_birth_years. lockstep. }
  intros bp. apply same_outcome_lift.
Qed.

Lemma create_practices_lockstep (self : StandardPracticeFactory.t) (n : Z) :
  StandardPracticeFactory.create_practices (RS := RS1) self n
  ~~ StandardPracticeFactory.create_practices (RS := RS2) self n.
Proof.
  unfold StandardPracticeFactory.create_practices.
  destruct (n <=? 0)%Z; [apply same_outcome_raise |].
  apply same_outcome_mapM. intros i. apply create_practice_lockstep.
Qed.

Lemma create_patient_lockstep (self : PatientFactory.t) (index : Z) :
  PatientFactory.create_patient (RS := RS1) self index
  ~~ PatientFactory.create_patient (RS := RS2) self index.
Proof.
  unfold PatientFactory.create_patient.
  apply same_outcome_bind; [apply same_outcome_lift |].
  intros patient_id. apply same_outcome_bind.
  { unfold PatientFactory._generate_sex. lockstep. }
  intros sex. apply same_outcome_bind.
  { unfold PatientFactory._generate_ethnicity. lockstep. }
  intros ethnicity. apply same_outcome_bind.
  { unfold PatientFactory._generate_birth_date. lockstep. }
  intros birth_date. apply same_outcome_bind.
  { unfold PatientFactory._generate_registration_date. lockstep. }
  intros registration_date. apply same_outcome_bind.
  { unfold PatientFactory._generate_transfer_date. lockstep. }
  intros transfer_date. lockstep.
Qed.

Lemma create_patients_lockstep (self : PatientFactory.t) :
  PatientFactory.create_patients (RS := RS1) self
  ~~ PatientFactory.create_patients (RS := RS2) self.
Proof.
  unfold PatientFactory.create_patients.
  apply same_outcome_bind.
  { apply same_outcome_mapM. intros i. apply create_patient_lockstep. }
  intros patients. lockstep.
Qed.

(** The calls of a client, made in the two processes from matching states,
    give the same outputs; the client's next call is chosen from what it got
    back, which is the same. *)
Lemma exec_lockstep (c : client) (factory : StandardPracticeFactory.t)
    (s1 : rng1) (s2 : rng2) :
  matching s1 s2 ->
  exec (RS := RS1) c factory s1 = exec (RS := RS2) c factory s2.
Proof.
  revert factory s1 s2.
  induction c as [| id k IH | n k IH | practice index k IH | practice k IH
                  | cfg k IH];
    intros factory s1 s2 Hs; cbn [exec].
  - reflexivity.
  - destruct (create_practice_lockstep factory id s1 s2 Hs) as [Hv Hnext].
    destruct (StandardPracticeFactory.create_practice factory id s1) as [r1 t1].
    destruct (StandardPracticeFactory.create_practice factory id s2) as [r2 t2].
    simpl in Hv, Hnext. subst r2. f_equal. apply IH, Hnext.
  - destruct (create_practices_lockstep factory n s1 s2 Hs) as [Hv Hnext].
    destruct (StandardPracticeFactory.create_practices factory n s1) as [r1 t1].
    destruct (StandardPracticeFactory.create_practices factory n s2) as [r2 t2].
    simpl in Hv, Hnext. subst r2. f_equal. apply IH, Hnext.
  - destruct (create_patient_lockstep (PatientFactory.__init__ practice)
                index s1 s2 Hs) as [Hv Hnext].
    destruct (PatientFactory.create_patient
                (PatientFactory.__init__ practice) index s1) as [r1 t1].
    destruct (PatientFactory.create_patient
                (PatientFactory.__init__ practice) index s2) as [r2 t2].
    simpl in Hv, Hnext. subst r2. f_equal. apply IH, Hnext.
  - destruct (create_patients_lockstep (PatientFactory.__init__ practice)
                s1 s2 Hs) as [Hv Hnext].
    destruct (PatientFactory.create_patients
                (PatientFactory.__init__ practice) s1) as [r1 t1].
    destruct (PatientFactory.create_patients
                (PatientFactory.__init__ practice) s2) as [r2 t2].
    simpl in Hv, Hnext. subst r2. f_equal. apply IH, Hnext.
  - apply IH, Hs.
Qed.

End Lockstep.

(** One generator advances like itself: the condition asks nothing of a
    sampler but that it is a function of the state. *)
Lemma sources_agree_refl {rng : Type} (RS : RandomSource rng) :
  sources_agree RS RS eq.
Proof.
  constructor; intros; try reflexivity;
    intros s1 s2 Hs; rewrite Hs; split; reflexivity.
Qed.

(** Replaying recordings with the same draws to come. *)
Lemma pop_nth (t : list R) :
  fst (pop t) = nth 0 t 0 /\ forall n, nth n (snd (pop t)) 0 = nth (S n) t 0.
Proof.
  destruct t as [| x t]; simpl; (split; [reflexivity |]); intros n;
    [destruct n |]; reflexivity.
Qed.

Lemma same_draws_pop : sampler_agrees same_draws pop pop.
Proof.
  intros t1 t2 H.
  destruct (pop_nth t1) as [Hv1 Hrest1], (pop_nth t2) as [Hv2 Hrest2].
  split.
  - rewrite Hv1, Hv2. apply H.
  - intros n. rewrite Hrest1, Hrest2. apply H.
Qed.

Lemma same_draws_pop_n (n : nat) : sampler_agrees same_draws (pop_n n) (pop_n n).
Proof.
  induction n as [| n IH]; intros t1 t2 H; simpl.
  - split; [reflexivity | exact H].
  - destruct (same_draws_pop t1 t2 H) as [Hv Hnext].
    destruct (pop t1) as [x1 u1], (pop t2) as [x2 u2]. simpl in Hv, Hnext.
    destruct (IH u1 u2 Hnext) as [Hvs Hrest].
    destruct (pop_n n u1) as [xs1 v1], (pop_n n u2) as [xs2 v2].
    simpl in *. subst. split; [reflexivity | exact Hrest].
Qed.

Lemma Replay_sources_agree (recording1 recording2 : Z -> list R) :
  (forall seed, same_draws (recording1 seed) (recording2 seed)) ->
  sources_agree (Replay recording1) (Replay recording2) same_draws.
Proof.
  intros Hseed. constructor; simpl; intros;
    first [ apply Hseed | apply same_draws_pop | apply same_draws_pop_n ].
Qed.

Lemma same_draws_zeros (t : list R) (k : nat) :
  same_draws t (t ++ repeat 0 k).
Proof.
  intros n. revert n. induction t as [| x t IH]; intros n.
  - cbn [app].
    assert (Hnil : nth n (@nil R) 0 = 0) by (destruct n; reflexivity).
    rewrite Hnil. symmetry.
    destruct (Nat.lt_ge_cases n k) as [Hlt | Hge].
    + apply nth_repeat_lt. exact Hlt.
    + apply nth_overflow. rewrite repeat_length. exact Hge.
  - destruct n; [reflexivity | apply IH].
Qed.



(** * Further properties *)

(** ** More on rounding *)

Lemma floor_le_py_round (x : R) : (floor x <= py_round x <= floor x + 1)%Z.
Proof.
  unfold py_round.
  destruct (Rltb _ _); [lia |].
  destruct (Rltb _ _); [lia |].
  destruct (Z.even _); lia.
Qed.

Lemma floor_monotone (x y : R) : x <= y -> (floor x <= floor y)%Z.
Proof.
  intros Hxy. pose proof (floor_bounds x) as Hx. pose proof (floor_bounds y) as Hy.
  destruct (Z_lt_le_dec (floor y) (floor x)) as [Hlt | Hle]; [| exact Hle].
  assert (IZR (floor y) + 1 <= IZR (floor x)).
  { rewrite <- plus_IZR. apply IZR_le. lia. }
  lra.
Qed.

Lemma py_round_monotone (x y : R) : x <= y -> (py_round x <= py_round y)%Z.
Proof.
  intros Hxy. pose proof (floor_monotone x y Hxy) as Hf.
  destruct (Z.eq_dec (floor x) (floor y)) as [Heq | Hne].
  - unfold py_round. rewrite Heq.
    destruct (Rltb (y - IZR (floor y)) (1/2)) eqn:Ey.
    + replace (Rltb (x - IZR (floor y)) (1/2)) with true; [lia |].
      symmetry. rhyp. apply Rltb_true. lra.
    + destruct (Rltb (x - IZR (floor y)) (1/2)) eqn:Ex.
      * destruct (Rltb (1/2) (y - IZR (floor y))); [lia |].
        destruct (Z.even (floor y)); lia.
      * destruct (Rltb (1/2) (y - IZR (floor y))) eqn:Ey2.
        -- destruct (Rltb (1/2) (x - IZR (floor y))); [lia |].
           destruct (Z.even (floor y)); lia.
        -- replace (Rltb (1/2) (x - IZR (floor y))) with false; [lia |].
           symmetry. rhyp. apply Rltb_false. lra.
  - pose proof (floor_le_py_round x). pose proof (floor_le_py_round y). lia.
Qed.

Lemma floor_add_IZR (x : R) (n : Z) : floor (x + IZR n) = (floor x + n)%Z.
Proof.
  apply floor_unique. rewrite plus_IZR.
  pose proof (floor_bounds x). lra.
Qed.

(** Shifting by an even integer shifts the rounded value: ties keep their
    parity. *)
Lemma py_round_add_even (x : R) (k : Z) :
  py_round (x + IZR (2 * k)) = (py_round x + 2 * k)%Z.
Proof.
  unfold py_round. rewrite floor_add_IZR.
  replace (x + IZR (2 * k) - IZR (floor x + 2 * k)) with (x - IZR (floor x))
    by (rewrite plus_IZR; lra).
  rewrite Z.even_add_mul_2.
  destruct (Rltb _ _); [reflexivity |].
  destruct (Rltb _ _); [lia |].
  destruct (Z.even _); lia.
Qed.

Lemma round1_monotone (x y : R) : x <= y -> round1 x <= round1 y.
Proof.
  intros Hxy. unfold round1.
  assert (H : (py_round (x * 10) <= py_round (y * 10))%Z)
    by (apply py_round_monotone; lra).
  apply IZR_le in H. lra.
Qed.

Lemma round1_add_5 (x : R) : round1 (x + 5) = round1 x + 5.
Proof.
  unfold round1.
  replace ((x + 5) * 10) with (x * 10 + IZR (2 * 25)) by (simpl; lra).
  rewrite py_round_add_even, plus_IZR. simpl. lra.
Qed.

Lemma py_int_near (x : R) : x - 1 < IZR (py_int x) < x + 1.
Proof.
  unfold py_int. destruct (Rleb 0 x) eqn:E; rhyp.
  - pose proof (floor_bounds x). lra.
  - pose proof (floor_bounds (- x)). rewrite opp_IZR. lra.
Qed.

(** ** The Practice validator and its derived values *)

Lemma py_int_eq_1_iff (x : R) : py_int x = 1%Z <-> 1 <= x < 2.
Proof.
  split.
  - intros H. pose proof (py_int_near x) as Hn. rewrite H in Hn.
    unfold py_int in H. destruct (Rleb 0 x) eqn:E; rhyp.
    + pose proof (floor_bounds x) as Hb. rewrite H in Hb. lra.
    + pose proof (floor_bounds (- x)) as Hb.
      assert (Hz : floor (- x) = (-1)%Z) by lia.
      rewrite Hz in Hb. lra.
  - intros H. apply py_int_unique; lra.
Qed.

Lemma forallb_unit_interval (vs : list R) :
  forallb (fun prop => Rleb 0 prop && Rleb prop 1) vs = true
  <-> Forall (fun v => 0 <= v <= 1) vs.
Proof.
  rewrite forallb_forall, Forall_forall.
  split; intros H v Hv; specialize (H v Hv).
  - rhyp. lra.
  - apply andb_true_iff. split; [apply Rleb_true | apply Rleb_true]; lra.
Qed.

Lemma Practice_new_inv_full (id cnt : Z) (male : R)
    (rd : RegistrationDates.t) (tp : TransferParameters.t)
    (bp : BirthYearParameters.t) (eth : Dict.t) (pr : Practice.t) :
  Practice.new id cnt male rd tp bp eth = Ok pr ->
  pr = Practice.mk id cnt male rd tp bp eth
  /\ (0 < id)%Z /\ (0 < cnt)%Z /\ 0 <= male <= 1
  /\ Forall (fun v => 0 <= v <= 1) (Dict.values eth)
  /\ 1 <= py_sum (Dict.values eth) < 2
  /\ set_eqb (Dict.keys eth) Practice.required_ethnicities = true.
Proof.
  intros H. unfold Practice.new in H. apply construct_Ok_inv in H.
  destruct H as [-> H]. unfold Practice.__post_init__ in H; simpl in H.
  destruct (Z.leb_spec id 0); [discriminate |].
  destruct (Z.leb_spec cnt 0); [discriminate |].
  destruct (Rleb 0 male) eqn:E1, (Rleb male 1) eqn:E2; simpl in H;
    try discriminate.
  destruct (forallb _ (Dict.values eth)) eqn:E3; simpl in H;
    [| discriminate].
  destruct (Z.eqb_spec (py_int (py_sum (Dict.values eth))) 1) as [E4 | E4];
    simpl in H; [| discriminate].
  destruct (set_eqb _ _) eqn:E5; simpl in H; [| discriminate].
  rhyp. apply forallb_unit_interval in E3. apply py_int_eq_1_iff in E4.
  repeat split; try lia; try lra; assumption.
Qed.

(** X3.  For a Practice built from constructed parts, the registration
    period and the birth-year range are never negative, and the total of the
    ethnicity proportions is at least 1 and below 2. *)
Theorem Practice_derived_values
    (l e m p g0 g1 g2 y0 y1 y2 male : R) (id cnt : Z)
    (rd : RegistrationDates.t) (tp : TransferParameters.t)
    (bp : BirthYearParameters.t) (eth : Dict.t) (pr : Practice.t) :
  RegistrationDates.new l e m = Ok rd ->
  TransferParameters.new p g0 g1 g2 = Ok tp ->
  BirthYearParameters.new y0 y1 y2 = Ok bp ->
  Practice.new id cnt male rd tp bp eth = Ok pr ->
  0 <= Practice.registration_period_days pr
  /\ Practice.registration_period_days pr = l - e
  /\ 0 <= Practice.birth_year_range pr
  /\ Practice.birth_year_range pr = y2 - y0
  /\ 1 <= Practice.total_ethnicity_proportion pr < 2.
Proof.
  intros Hrd Htp Hbp Hpr.
  apply RegistrationDates_new_inv in Hrd. destruct Hrd as [-> Hrd].
  apply BirthYearParameters_new_inv in Hbp. destruct Hbp as (-> & Hy & _).
  apply Practice_new_inv_full in Hpr.
  destruct Hpr as (-> & _ & _ & _ & _ & Hsum & _).
  unfold Practice.registration_period_days, Practice.birth_year_range,
    Practice.total_ethnicity_proportion; simpl.
  repeat split; lra.
Qed.

Lemma Practice_derived_values_witness :
  0 <= Practice.registration_period_days sample_practice
  /\ Practice.registration_period_days sample_practice = 20000 - 0
  /\ 0 <= Practice.birth_year_range sample_practice
  /\ Practice.birth_year_range sample_practice = 2000 - 1900
  /\ 1 <= Practice.total_ethnicity_proportion sample_practice < 2.
Proof.
  apply (Practice_derived_values 20000 0 10000 0.5 400 7000 22400
           1900 1950 2000 0.4 1 1000
           sample_registration_dates sample_transfer_params
           sample_birth_years sample_ethnicity_proportions sample_practice).
  - apply RegistrationDates_new_ok. lra.
  - apply TransferParameters_new_ok; lra.
  - apply BirthYearParameters_new_ok; lra.
  - exact sample_practice_constructed.
Defined.

(** ** The practice generators *)

Lemma np_clip_unit (x : R) : 0 <= np_clip x (Some 0) (Some 1) <= 1.
Proof.
  unfold np_clip, Rmin, Rmax.
  destruct (Rle_dec x 0); destruct (Rle_dec 1 _); lra.
Qed.

Lemma np_clip_floor (x a : R) : a <= np_clip x (Some a) None.
Proof. unfold np_clip. apply Rmax_r. Qed.

Section PracticeGeneratorSpecs.
Context {rng : Type} {RS : RandomSource rng}.

(** X4.  With a mean in [0, 1] and a positive standard deviation,
    [_generate_demographics] returns the normal draw clipped into [0, 1];
    with a mean outside [0, 1] or a non-positive standard deviation it
    raises and leaves the generator state as it was. *)
Theorem generate_demographics_spec (self : StandardPracticeFactory.t) (s : rng) :
  let cfg := self.(StandardPracticeFactory.config).(demographics) in
  let mean := cfg.(male_proportion_mean) in
  let sd := cfg.(male_proportion_sd) in
  (0 <= mean <= 1 -> 0 < sd ->
   forall x s1,
     np_random_normal mean sd s = (x, s1) ->
     StandardPracticeFactory._generate_demographics self s
       = (Ok (np_clip x (Some 0) (Some 1)), s1)
     /\ 0 <= np_clip x (Some 0) (Some 1) <= 1
     /\ (0 <= x <= 1 -> np_clip x (Some 0) (Some 1) = x))
  /\ (~ (0 <= mean <= 1) ->
      StandardPracticeFactory._generate_demographics self s
        = (Raise (ValueError MaleProportionMeanOutOfRange), s))
  /\ (0 <= mean <= 1 -> sd <= 0 ->
      StandardPracticeFactory._generate_demographics self s
        = (Raise (ValueError MaleProportionSdNotPositive), s)).
Proof.
  intros cfg mean sd.
  unfold StandardPracticeFactory._generate_demographics.
  fold cfg. fold mean. fold sd.
  split; [| split].
  - intros Hmean Hsd x s1 Hx. rcmp. cbn [negb andb].
    rewrite (bind_Ok _ _ _ _ _ (draw_eq _ _ _ _ Hx)).
    split; [reflexivity |]. split; [apply np_clip_unit |].
    intros Hx01. unfold np_clip. rewrite Rmax_left, Rmin_right by lra.
    reflexivity.
  - intros Hmean.
    destruct (Rleb 0 mean) eqn:E1, (Rleb mean 1) eqn:E2; try reflexivity.
    rhyp. exfalso. apply Hmean. lra.
  - intros Hmean Hsd. rcmp. reflexivity.
Qed.

(** X5.  With a valid registration configuration (probability mean in
    [0, 1], positive standard deviations, strictly increasing gap means),
    [_generate_transfer_parameters] always returns: the probability lies in
    [0, 1], the minimum gap is non-negative and the three gaps are at least
    100 apart.  Whenever it raises, the generator state is unchanged and
    the exception is one of its four configuration errors: the
    TransferParameters constructor never refuses what it is handed. *)
Theorem generate_transfer_parameters_spec (self : StandardPracticeFactory.t)
    (s : rng) :
  let cfg := self.(StandardPracticeFactory.config).(registration) in
  (0 <= cfg.(transfer_probability_mean) <= 1 ->
   0 < cfg.(transfer_probability_sd) ->
   0 < cfg.(min_transfer_gap_sd) -> 0 < cfg.(med_transfer_gap_sd) ->
   0 < cfg.(max_transfer_gap_sd) ->
   cfg.(min_transfer_gap) < cfg.(med_transfer_gap_mean)
                          < cfg.(max_transfer_gap_mean) ->
   exists tp s',
     StandardPracticeFactory._generate_transfer_parameters self s = (Ok tp, s')
     /\ 0 <= tp.(TransferParameters.transfer_probability) <= 1
     /\ 0 <= tp.(TransferParameters.minimum_gap)
     /\ tp.(TransferParameters.minimum_gap) + 100
          <= tp.(TransferParameters.median_gap)
     /\ tp.(TransferParameters.median_gap) + 100
          <= tp.(TransferParameters.maximum_gap))
  /\ (forall e s',
        StandardPracticeFactory._generate_transfer_parameters self s
          = (Raise e, s') ->
        s' = s
        /\ (e = ValueError TransferProbabilityMeanOutOfRange
            \/ e = ValueError TransferProbabilitySdNotPositive
            \/ e = ValueError TransferGapSdNotPositive
            \/ e = ValueError TransferGapMeansUnordered)).
Proof.
  intros cfg.
  assert (Hrun : forall s0,
    exists tp s',
      (p <- draw (np_random_normal cfg.(transfer_probability_mean)
                                   cfg.(transfer_probability_sd)) ;;
       let transfer_probability := np_clip p (Some 0) (Some 1) in
       g0 <- draw (np_random_normal 0 cfg.(min_transfer_gap_sd)) ;;
       let minimum_gap :=
         np_clip (cfg.(min_transfer_gap) + round1 g0) (Some 0) None in
       g1 <- draw (np_random_normal cfg.(med_transfer_gap_mean)
                                    cfg.(med_transfer_gap_sd)) ;;
       let median_gap := np_clip g1 (Some (minimum_gap + 100)) None in
       g2 <- draw (np_random_normal cfg.(max_transfer_gap_mean)
                                    cfg.(max_transfer_gap_sd)) ;;
       let maximum_gap := np_clip g2 (Some (median_gap + 100)) None in
       lift (TransferParameters.new transfer_probability minimum_gap
                                    median_gap maximum_gap))%py s0
      = (Ok tp, s')
      /\ 0 <= tp.(TransferParameters.transfer_probability) <= 1
      /\ 0 <= tp.(TransferParameters.minimum_gap)
      /\ tp.(TransferParameters.minimum_gap) + 100
           <= tp.(TransferParameters.median_gap)
      /\ tp.(TransferParameters.median_gap) + 100
           <= tp.(TransferParameters.maximum_gap)).
  { intros s0. unfold bind, draw, lift.
    destruct (np_random_normal _ _ s0) as [p s1].
    destruct (np_random_normal _ _ s1) as [g0 s2].
    destruct (np_random_normal _ _ s2) as [g1 s3].
    destruct (np_random_normal _ _ s3) as [g2 s4].
    set (pr := np_clip p (Some 0) (Some 1)).
    set (mn := np_clip (min_transfer_gap cfg + round1 g0) (Some 0) None).
    set (md := np_clip g1 (Some (mn + 100)) None).
    set (mx := np_clip g2 (Some (md + 100)) None).
    pose proof (np_clip_unit p) as Hp. fold pr in Hp.
    pose proof (np_clip_floor (min_transfer_gap cfg + round1 g0) 0) as Hmn.
    fold mn in Hmn.
    pose proof (np_clip_floor g1 (mn + 100)) as Hmd. fold md in Hmd.
    pose proof (np_clip_floor g2 (md + 100)) as Hmx. fold mx in Hmx.
    rewrite TransferParameters_new_ok by lra.
    eexists _, _. split; [reflexivity |]. simpl. repeat split; lra. }
  unfold StandardPracticeFactory._generate_transfer_parameters. fold cfg.
  split.
  - intros Hmean Hpsd H0 H1 H2 Hord. cbn [existsb]. rcmp.
    cbn [negb andb orb]. exact (Hrun s).
  - intros e s'. unfold raise.
    destruct (negb _) eqn:E1.
    { intros H. inversion H; subst. split; [reflexivity | auto 6]. }
    destruct (Rleb _ 0) eqn:E2.
    { intros H. inversion H; subst. split; [reflexivity | auto 6]. }
    destruct (existsb _ _) eqn:E3.
    { intros H. inversion H; subst. split; [reflexivity | auto 6]. }
    destruct (negb (Rltb _ _ && _)) eqn:E4.
    { intros H. inversion H; subst. split; [reflexivity | auto 6]. }
    intros H. destruct (Hrun s) as (tp & s1 & Hok & _).
    assert (Hbad : (Ok tp, s1) = (@Raise TransferParameters.t e, s'))
      by (etransitivity; [symmetry; exact Hok | exact H]).
    discriminate Hbad.
Qed.

(** X6.  With positive standard deviations, [_generate_registration_dates]
    sets [latest = last_registration_date - offset] and clips the median
    draw into [earliest + 100, latest - 100], the upper bound winning.  It
    returns exactly when the earliest draw is at most [latest - 100]; the
    median is then at most [latest - 100], and at least [earliest + 100]
    when the two bounds do not cross.  When the earliest draw is above
    [latest - 100] the RegistrationDates constructor raises. *)
Theorem generate_registration_dates_spec (self : StandardPracticeFactory.t)
    (s s1 s2 s3 : rng) (offset earliest m : R) :
  let cfg := self.(StandardPracticeFactory.config).(registration) in
  let latest := IZR cfg.(last_registration_date) - offset in
  let median := Rmin (latest - 100) (Rmax m (earliest + 100)) in
  0 < cfg.(min_registration_sd) -> 0 < cfg.(med_registration_sd) ->
  np_random_exponential 1500 s = (offset, s1) ->
  np_random_normal cfg.(min_registration_offset)
                   cfg.(min_registration_sd) s1 = (earliest, s2) ->
  np_random_normal cfg.(med_registration_offset)
                   cfg.(med_registration_sd) s2 = (m, s3) ->
  (earliest <= latest - 100 ->
   StandardPracticeFactory._generate_registration_dates self s
     = (Ok (RegistrationDates.mk latest earliest median), s3)
   /\ median <= latest - 100
   /\ (earliest + 100 <= latest - 100 -> earliest + 100 <= median))
  /\ (latest - 100 < earliest ->
      StandardPracticeFactory._generate_registration_dates self s
        = (Raise (ValueError RegistrationDatesUnordered), s3))
  /\ (0 <= offset -> latest <= IZR cfg.(last_registration_date)).
Proof.
  intros cfg latest median Hsd1 Hsd2 Hoff Hear Hmed.
  assert (Hrun :
    StandardPracticeFactory._generate_registration_dates self s
    = (RegistrationDates.new latest earliest median, s3)).
  { unfold StandardPracticeFactory._generate_registration_dates. fold cfg.
    cbn [existsb]. rcmp. cbn [orb].
    rewrite (bind_Ok _ _ _ _ _ (draw_eq _ _ _ _ Hoff)).
    rewrite (bind_Ok _ _ _ _ _ (draw_eq _ _ _ _ Hear)).
    rewrite (bind_Ok _ _ _ _ _ (draw_eq _ _ _ _ Hmed)).
    reflexivity. }
  rewrite Hrun.
  assert (Hhi : median <= latest - 100) by apply Rmin_l.
  assert (Hlo : earliest + 100 <= Rmax m (earliest + 100)) by apply Rmax_r.
  split; [| split].
  - intros Hle. split; [| split; [exact Hhi |]].
    + rewrite RegistrationDates_new_ok; [reflexivity |].
      split; [| lra]. unfold median. apply Rmin_glb; lra.
    + intros Hgap. unfold median. apply Rmin_glb; lra.
  - intros Hgt. rewrite RegistrationDates_new_raises; [reflexivity |]. lra.
  - intros Hoff0. unfold latest. lra.
Qed.

(** X7.  With a valid demographic configuration, [_generate_birth_years]
    never raises "Birth years must be ordered": it returns exactly when the
    rounded earliest draw lies in [1800, 2024], and then the rounded median
    is at least 5 years after the earliest and the rounded latest at least
    5 years after the median; otherwise it raises "Birth years must be
    realistic". *)
Theorem generate_birth_years_spec (self : StandardPracticeFactory.t)
    (s s1 s2 s3 : rng) (y0 y1 y2 : R) :
  let cfg := self.(StandardPracticeFactory.config).(demographics) in
  let earliest := round1 y0 in
  let median := round1 (Rmax y1 (y0 + 5)) in
  let latest := round1 (Rmax y2 (Rmax y1 (y0 + 5) + 5)) in
  0 < cfg.(min_yob_sd) -> 0 < cfg.(med_yob_sd) -> 0 < cfg.(max_yob_sd) ->
  cfg.(min_yob_mean) < cfg.(med_yob_mean) < cfg.(max_yob_mean) ->
  1800 <= cfg.(min_yob_mean) <= 2024 ->
  np_random_normal cfg.(min_yob_mean) cfg.(min_yob_sd) s = (y0, s1) ->
  np_random_normal cfg.(med_yob_mean) cfg.(med_yob_sd) s1 = (y1, s2) ->
  np_random_normal cfg.(max_yob_mean) cfg.(max_yob_sd) s2 = (y2, s3) ->
  earliest + 5 <= median /\ median + 5 <= latest
  /\ (1800 <= earliest <= 2024 ->
      StandardPracticeFactory._generate_birth_years self s
        = (Ok (BirthYearParameters.mk earliest median latest), s3))
  /\ (~ (1800 <= earliest <= 2024) ->
      StandardPracticeFactory._generate_birth_years self s
        = (Raise (ValueError BirthYearsUnrealistic), s3)).
Proof.
  intros cfg earliest median latest Hsd0 Hsd1 Hsd2 Hord Hreal H0 H1 H2.
  assert (Hrun :
    StandardPracticeFactory._generate_birth_years self s
    = (BirthYearParameters.new earliest median latest, s3)).
  { unfold StandardPracticeFactory._generate_birth_years. fold cfg.
    cbn [existsb]. rcmp. cbn [negb andb orb].
    rewrite (bind_Ok _ _ _ _ _ (draw_eq _ _ _ _ H0)).
    rewrite (bind_Ok _ _ _ _ _ (draw_eq _ _ _ _ H1)).
    rewrite (bind_Ok _ _ _ _ _ (draw_eq _ _ _ _ H2)).
    reflexivity. }
  rewrite Hrun.
  assert (Hm : earliest + 5 <= median).
  { unfold earliest, median. rewrite <- round1_add_5.
    apply round1_monotone, Rmax_r. }
  assert (Hl : median + 5 <= latest).
  { unfold median, latest. rewrite <- round1_add_5.
    apply round1_monotone, Rmax_r. }
  split; [exact Hm |]. split; [exact Hl |]. split.
  - intros Hrange. rewrite BirthYearParameters_new_ok; [reflexivity | lra | lra].
  - intros Hrange.
    unfold BirthYearParameters.new, construct,
      BirthYearParameters.__post_init__; simpl.
    rcmp. cbn [negb andb].
    destruct (Rleb 1800 earliest) eqn:E1, (Rleb earliest 2024) eqn:E2;
      try reflexivity.
    rhyp. exfalso. apply Hrange. lra.
Qed.

End PracticeGeneratorSpecs.

Lemma generate_demographics_spec_witness :
  StandardPracticeFactory._generate_demographics (RS := recorded)
    (StandardPracticeFactory.mk get_default_config) [0.4]
  = (Ok (np_clip 0.4 (Some 0) (Some 1)), []).
Proof.
  destruct (generate_demographics_spec (RS := recorded)
              (StandardPracticeFactory.mk get_default_config) [0.4])
    as [Hok _].
  apply (Hok ltac:(simpl; lra) ltac:(simpl; lra) 0.4 [] eq_refl).
Defined.

Lemma generate_transfer_parameters_spec_witness :
  exists tp s',
    StandardPracticeFactory._generate_transfer_parameters (RS := recorded)
      (StandardPracticeFactory.mk get_default_config) [0.2; 0; 7000; 22400]
    = (Ok tp, s')
    /\ 0 <= tp.(TransferParameters.transfer_probability) <= 1
    /\ 0 <= tp.(TransferParameters.minimum_gap)
    /\ tp.(TransferParameters.minimum_gap) + 100
         <= tp.(TransferParameters.median_gap)
    /\ tp.(TransferParameters.median_gap) + 100
         <= tp.(TransferParameters.maximum_gap).
Proof.
  apply (proj1 (generate_transfer_parameters_spec (RS := recorded)
                  (StandardPracticeFactory.mk get_default_config)
                  [0.2; 0; 7000; 22400])); simpl; lra.
Defined.

Lemma generate_registration_dates_spec_witness :
  StandardPracticeFactory._generate_registration_dates (RS := recorded)
    (StandardPracticeFactory.mk get_default_config) [926; 0; 10000]
  = (Ok (RegistrationDates.mk (IZR 20926 - 926) 0
           (Rmin (IZR 20926 - 926 - 100) (Rmax 10000 (0 + 100)))), []).
Proof.
  destruct (generate_registration_dates_spec (RS := recorded)
              (StandardPracticeFactory.mk get_default_config)
              [926; 0; 10000] [0; 10000] [10000] [] 926 0 10000
              ltac:(simpl; lra) ltac:(simpl; lra) eq_refl eq_refl eq_refl)
    as [Hok _].
  apply Hok. simpl. lra.
Defined.

Lemma generate_birth_years_spec_witness :
  round1 1910 + 5 <= round1 (Rmax 1943 (1910 + 5))
  /\ round1 (Rmax 1943 (1910 + 5)) + 5
     <= round1 (Rmax 1980 (Rmax 1943 (1910 + 5) + 5)).
Proof.
  destruct (generate_birth_years_spec (RS := recorded)
              (StandardPracticeFactory.mk get_default_config)
              [1910; 1943; 1980] [1943; 1980] [1980] [] 1910 1943 1980
              ltac:(simpl; lra) ltac:(simpl; lra) ltac:(simpl; lra)
              ltac:(simpl; lra) ltac:(simpl; lra) eq_refl eq_refl eq_refl)
    as (H1 & H2 & _).
  split; assumption.
Defined.

(** ** Ethnicity proportions of a practice *)

Section EthnicityProportionSpecs.
Context {rng : Type} {RS : RandomSource rng}.

(** X8.  [_generate_ethnicity_proportions] needs five variates: when the
    multivariate draw hands back fewer, the lookup of the [unknown]
    probability raises [KeyError]; with five or more it returns a dict
    (further variates are ignored). *)
Theorem generate_ethnicity_proportions_needs_five
    (self : StandardPracticeFactory.t) (s s1 : rng) (variates : list R) :
  let cfg := self.(StandardPracticeFactory.config).(ethnicity) in
  np_random_multivariate_normal cfg.(means)
    (StandardPracticeFactory.covariance cfg.(standard_deviations)
                                        cfg.(correlation_matrix)) s
    = (variates, s1) ->
  ((List.length variates < 5)%nat ->
   StandardPracticeFactory._generate_ethnicity_proportions self s
     = (Raise (KeyError "unknown"), s1))
  /\ ((5 <= List.length variates)%nat ->
      exists d,
        StandardPracticeFactory._generate_ethnicity_proportions self s
          = (Ok d, s1)).
Proof.
  intros cfg Hdraw.
  unfold StandardPracticeFactory._generate_ethnicity_proportions. fold cfg.
  rewrite (bind_Ok _ _ _ _ _ (draw_eq _ _ _ _ Hdraw)).
  destruct variates as [| x1 [| x2 [| x3 [| x4 [| x5 rest]]]]];
    (split; [intros Hlen | intros Hlen]); simpl in Hlen; try lia;
    try reflexivity.
  eexists. reflexivity.
Qed.

End EthnicityProportionSpecs.

Lemma generate_ethnicity_proportions_needs_five_witness :
  StandardPracticeFactory._generate_ethnicity_proportions (RS := recorded)
    (StandardPracticeFactory.mk two_category_config) [0; 0; 0]
  = (Raise (KeyError "unknown"), [0]).
Proof.
  refine (proj1 (generate_ethnicity_proportions_needs_five (RS := recorded)
                   (StandardPracticeFactory.mk two_category_config)
                   [0; 0; 0] [0] [0; 0] eq_refl) _).
  simpl. lia.
Defined.

(** ** What [create_practice] returns *)

Section CreatePracticeSpec.
Context {rng : Type} {RS : RandomSource rng}.

Lemma _generate_transfer_parameters_probability
    (self : StandardPracticeFactory.t) (s s' : rng) (tp : TransferParameters.t) :
  StandardPracticeFactory._generate_transfer_parameters self s = (Ok tp, s') ->
  0 <= tp.(TransferParameters.transfer_probability) <= 1.
Proof.
  unfold StandardPracticeFactory._generate_transfer_parameters. intros H.
  repeat match type of H with
  | (if ?c then _ else _) _ = _ =>
      destruct c; [apply raise_Ok_inv in H; destruct H |]
  end.
  minv H. apply TransferParameters_new_inv in H.
  destruct H as (-> & Hp & _). exact Hp.
Qed.

(** X10.  A practice returned by [create_practice] carries the identifier
    it was asked for, which is positive; its patient count is positive, its
    male proportion and transfer probability lie in [0, 1], every ethnicity
    proportion lies in [0, 1] and the key set is the required one.  For an
    identifier that is not positive [create_practice] returns nothing: the
    draws are made and the constructor raises. *)
Theorem create_practice_returns_valid (self : StandardPracticeFactory.t)
    (id : Z) (s : rng) :
  (forall p s',
      StandardPracticeFactory.create_practice self id s = (Ok p, s') ->
      p.(Practice.practice_id) = id /\ (0 < id)%Z
      /\ (0 < p.(Practice.patient_count))%Z
      /\ 0 <= p.(Practice.male_proportion) <= 1
      /\ 0 <= p.(Practice.transfer_params)
                .(TransferParameters.transfer_probability) <= 1
      /\ Forall (fun v => 0 <= v <= 1)
                (Dict.values p.(Practice.ethnicity_proportions))
      /\ set_eqb (Dict.keys p.(Practice.ethnicity_proportions))
                 Practice.required_ethnicities = true)
  /\ ((id <= 0)%Z ->
      exists e s',
        StandardPracticeFactory.create_practice self id s = (Raise e, s')).
Proof.
  split.
  - intros p s' H. unfold StandardPracticeFactory.create_practice in H.
    minv H. apply Practice_new_inv_full in H.
    destruct H as (-> & Hid & Hcnt & Hmale & Hall & _ & Hkeys). simpl.
    match goal with
    | G : StandardPracticeFactory._generate_transfer_parameters _ _ = _ |- _ =>
        apply _generate_transfer_parameters_probability in G
    end.
    repeat split; try assumption; lra.
  - intros Hid.
    destruct (StandardPracticeFactory.create_practice self id s)
      as [[p | e] s'] eqn:E; [| eauto].
    unfold StandardPracticeFactory.create_practice in E.
    minv E. apply Practice_new_inv_full in E. lia.
Qed.

End CreatePracticeSpec.

Lemma create_practice_returns_valid_witness :
  (skewed_practice 7).(Practice.practice_id) = 7%Z /\ (0 < 7)%Z.
Proof.
  destruct (create_practice_returns_valid (RS := recorded)
              (StandardPracticeFactory.mk get_default_config) 7
              (practice_recording ++ [])) as [Hok _].
  destruct (Hok (skewed_practice 7) []
              (create_practice_recorded 7 [] ltac:(lia)))
    as (H1 & H2 & _).
  split; assumption.
Defined.

(** ** The patient generators *)

Lemma existsb_required_inv (k : string) :
  existsb (String.eqb k) Practice.required_ethnicities = true ->
  k = "south_asian"%string \/ k = "black"%string \/ k = "other"%string
  \/ k = "mixed"%string \/ k = "unknown"%string \/ k = "white"%string.
Proof.
  unfold Practice.required_ethnicities. cbn [existsb].
  intros H.
  repeat (apply orb_true_iff in H;
          destruct H as [H | H]; [apply String.eqb_eq in H; tauto |]).
  discriminate H.
Qed.

Lemma Dict_get_of_key (d : Dict.t) (k : string) :
  existsb (String.eqb k) (Dict.keys d) = true ->
  exists v, Dict.get d k = Some v.
Proof.
  induction d as [| [k' v'] d IH]; simpl; [discriminate |].
  destruct (String.eqb k k'); simpl; [eauto | exact IH].
Qed.

(** Over items with required keys, the loop of [_generate_ethnicity] can
    only end or return one of the five known categories. *)
Lemma ethnicity_loop_known (items : list (string * R))
    (effective_total u cumsum : R) :
  forallb (fun x => existsb (String.eqb x) Practice.required_ethnicities)
          (map fst items) = true ->
  ethnicity_loop_result_known
    (PatientFactory.ethnicity_loop items effective_total u cumsum).
Proof.
  revert cumsum. induction items as [| [k v] items IH]; intros cumsum Hkeys.
  - exact I.
  - cbn [map fst forallb] in Hkeys. apply andb_true_iff in Hkeys.
    destruct Hkeys as [Hk Hrest]. cbn [PatientFactory.ethnicity_loop].
    apply existsb_required_inv in Hk.
    destruct Hk as [-> | [-> | [-> | [-> | [-> | ->]]]]];
      cbn [String.eqb Ascii.eqb Bool.eqb negb];
      try (destruct (Rltb u _);
           [cbn; repeat split; discriminate | apply IH, Hrest]).
    apply IH, Hrest.
Qed.

Section PatientGeneratorSpecs.
Context {rng : Type} {RS : RandomSource rng}.

Lemma _generate_transfer_date_Ok_inv (self : PatientFactory.t)
    (birth_date registration_date t : Z) (s s' : rng) :
  PatientFactory._generate_transfer_date self birth_date registration_date s
    = (Ok (Some t), s') ->
  (11323 <= t)%Z
  /\ IZR t <= self.(PatientFactory.practice).(Practice.registration_dates)
                  .(RegistrationDates.latest_registration) + 1/2.
Proof.
  unfold PatientFactory._generate_transfer_date. intros H.
  unfold bind, draw, ret in H.
  destruct (np_random_random s) as [u s1].
  destruct (Rltb u _); [| discriminate H].
  destruct (np_random_uniform _ _ s1) as [gap s2].
  destruct (np_random_uniform 0 60 s2) as [buffer s3].
  destruct (Rleb _ _) eqn:E1; [| discriminate H].
  destruct (Rltb _ _) eqn:E2; [| discriminate H].
  cbn [andb] in H. injection H as <- _.
  rhyp. rewrite py_max_Rmax in E2.
  pose proof (Rmax_l 11323 (IZR birth_date + 18 * 365.25 + 7 + buffer)) as Hmax.
  split.
  - rewrite <- (py_round_IZR 11323). apply py_round_monotone. lra.
  - pose proof (py_round_near (IZR registration_date + gap)). lra.
Qed.

Lemma _generate_transfer_date_no_raise (self : PatientFactory.t)
    (birth_date registration_date : Z) (s : rng) :
  exists td s',
    PatientFactory._generate_transfer_date self birth_date registration_date s
      = (Ok td, s').
Proof.
  unfold PatientFactory._generate_transfer_date, bind, draw, ret.
  destruct (np_random_random s) as [u s1].
  destruct (Rltb u _); [| eauto].
  destruct (np_random_uniform _ _ s1) as [gap s2].
  destruct (np_random_uniform 0 60 s2) as [buffer s3].
  destruct (Rleb _ _ && Rltb _ _); eauto.
Qed.

(** X11.  [_generate_transfer_date] never raises.  A transfer date it
    returns is at least 11323 (the 1991 threshold) and exceeds the
    practice's latest registration by at most the rounding, one half. *)
Theorem generate_transfer_date_bounds (self : PatientFactory.t)
    (birth_date registration_date : Z) (s : rng) :
  (forall e s',
      PatientFactory._generate_transfer_date self birth_date
        registration_date s <> (Raise e, s'))
  /\ (forall t s',
        PatientFactory._generate_transfer_date self birth_date
          registration_date s = (Ok (Some t), s') ->
        (11323 <= t)%Z
        /\ IZR t <= self.(PatientFactory.practice).(Practice.registration_dates)
                        .(RegistrationDates.latest_registration) + 1/2).
Proof.
  split.
  - intros e s' H.
    destruct (_generate_transfer_date_no_raise self birth_date
                registration_date s) as (td & s1 & Hok).
    rewrite Hok in H. discriminate H.
  - intros t s'. apply _generate_transfer_date_Ok_inv.
Qed.

(** X12.  [_generate_registration_date] never raises, and with a
    non-negative override draw its result is never before the birth date:
    it is the rounded first draw when that draw is after the birth date,
    and otherwise the rounded sum of the birth date and the override
    draw. *)
Theorem generate_registration_date_not_before_birth (self : PatientFactory.t)
    (birth_date : Z) (s s1 s2 : rng) (d1 d2 : R) :
  let reg_dates := self.(PatientFactory.practice).(Practice.registration_dates) in
  np_random_uniform
    (py_max 0 reg_dates.(RegistrationDates.earliest_registration))
    reg_dates.(RegistrationDates.latest_registration) s = (d1, s1) ->
  np_random_uniform 0 (5 * 365.25) s1 = (d2, s2) ->
  0 <= d2 ->
  (IZR birth_date < d1 ->
   PatientFactory._generate_registration_date self birth_date s
     = (Ok (py_round d1), s1)
   /\ (birth_date <= py_round d1)%Z)
  /\ (d1 <= IZR birth_date ->
      PatientFactory._generate_registration_date self birth_date s
        = (Ok (py_round (IZR birth_date + d2)), s2)
      /\ (birth_date <= py_round (IZR birth_date + d2))%Z).
Proof.
  intros reg_dates H1 H2 Hd2.
  assert (Hround : forall x, IZR birth_date <= x -> (birth_date <= py_round x)%Z).
  { intros x Hx. rewrite <- (py_round_IZR birth_date) at 1.
    apply py_round_monotone, Hx. }
  unfold PatientFactory._generate_registration_date. fold reg_dates.
  rewrite (bind_Ok _ _ _ _ _ (draw_eq _ _ _ _ H1)).
  split; intros Hcmp.
  - replace (Rleb d1 (IZR birth_date)) with false
      by (symmetry; apply Rleb_false; exact Hcmp).
    split; [reflexivity | apply Hround; lra].
  - replace (Rleb d1 (IZR birth_date)) with true
      by (symmetry; apply Rleb_true; exact Hcmp).
    rewrite (bind_Ok _ _ _ _ _
               (bind_Ok _ _ _ _ _ (draw_eq _ _ _ _ H2))).
    split; [reflexivity | apply Hround; lra].
Qed.

(** X13.  With the beta draw in [0, 1], the day draw in [0, 365.25) and
    ordered birth years, the birth date returned by [_generate_birth_date]
    lies, up to the truncation, between the first day of the practice's
    earliest birth year and the last day of its latest one, counted from
    1960. *)
Theorem generate_birth_date_bounds (self : PatientFactory.t)
    (s s1 s2 : rng) (b day : R) :
  let birth_years := self.(PatientFactory.practice).(Practice.birth_years) in
  let earliest := birth_years.(BirthYearParameters.earliest_birth_year) in
  let latest := birth_years.(BirthYearParameters.latest_birth_year) in
  stats_beta_rvs 2 0.5 s = (b, s1) ->
  np_random_uniform 0 365.25 s1 = (day, s2) ->
  0 <= b <= 1 -> 0 <= day < 365.25 -> earliest <= latest ->
  exists birth_date,
    PatientFactory._generate_birth_date self s = (Ok birth_date, s2)
    /\ (earliest - 1960) * 365.25 - 1 < IZR birth_date
    /\ IZR birth_date < (latest + 1 - 1960) * 365.25 + 1.
Proof.
  intros birth_years earliest latest Hb Hday Hb01 Hd Hord.
  unfold PatientFactory._generate_birth_date. fold birth_years.
  fold earliest. fold latest.
  rewrite (bind_Ok _ _ _ _ _ (draw_eq _ _ _ _ Hb)).
  rewrite (bind_Ok _ _ _ _ _ (draw_eq _ _ _ _ Hday)).
  eexists. split; [reflexivity |].
  pose proof (py_int_near
                ((earliest + b * (latest - earliest) - 1960) * 365.25 + day))
    as Hn.
  assert (0 <= b * (latest - earliest) <= latest - earliest) by nra.
  lra.
Qed.

End PatientGeneratorSpecs.

(** X14.  [_generate_death_date] returns a date exactly when
    [birth_date + 38351] (105 years of 365.25 days, truncated) is at most
    the practice's latest registration and, if there is a transfer date, at
    most that date; the date returned is [birth_date + 38351], always after
    the birth date. *)
Theorem generate_death_date_spec (self : PatientFactory.t) (birth_date : Z)
    (transfer_date : option Z) (d : Z) :
  let latest :=
    self.(PatientFactory.practice).(Practice.registration_dates)
        .(RegistrationDates.latest_registration) in
  (PatientFactory._generate_death_date self birth_date transfer_date = Some d
   <-> d = (birth_date + 38351)%Z
       /\ IZR d <= latest
       /\ (forall t, transfer_date = Some t -> (d <= t)%Z))
  /\ (PatientFactory._generate_death_date self birth_date transfer_date = Some d
      -> (birth_date < d)%Z)
  /\ (PatientFactory._generate_death_date self birth_date transfer_date = None
      <-> latest < IZR (birth_date + 38351)
          \/ exists t, transfer_date = Some t /\ (t < birth_date + 38351)%Z).
Proof.
  intros latest. unfold PatientFactory._generate_death_date.
  rewrite py_int_death_offset. fold latest.
  destruct (Rleb (IZR (birth_date + 38351)) latest) eqn:E1;
    destruct transfer_date as [t |];
    try destruct (Z.leb_spec (birth_date + 38351) t) as [E2 | E2];
    cbn [andb]; rhyp.
  all: split; [split | split; [| split]].
  all: try (intros H; discriminate H).
  all: try (intros H; injection H as <-).
  all: try (intros (-> & Hlat & Ht)).
  all: try reflexivity.
  all: try lia.
  all: try (split; [reflexivity |]; split; [exact E1 |];
            intros ? Heq; opt_inj; lia).
  all: try (exfalso; first [lra | specialize (Ht _ eq_refl); lia]).
  all: try (intros [Hl | (t' & Heq & Hlt)]; exfalso; opt_inj;
            first [lra | lia]).
  all: try (intros _; first [left; exact E1 | right; eexists; split;
                                              [reflexivity | lia]]).
Qed.

Lemma generate_death_date_spec_witness :
  (-20000 < 18351)%Z.
Proof.
  apply (proj1 (proj2 (generate_death_date_spec
                         (PatientFactory.mk sample_practice) (-20000)
                         (Some 19000%Z) 18351))).
  apply _generate_death_date_recorded.
Defined.

Lemma generate_transfer_date_bounds_witness :
  (11323 <= 19000)%Z /\ IZR 19000 <= 20000 + 1/2.
Proof.
  destruct (generate_transfer_date_bounds (RS := recorded)
              (PatientFactory.mk sample_practice) (-20000) 5000
              [0.1; 14000; 30]) as [_ Hb].
  apply (Hb 19000%Z []). apply _generate_transfer_date_recorded.
Defined.

Lemma generate_registration_date_not_before_birth_witness :
  PatientFactory._generate_registration_date (RS := recorded)
    (PatientFactory.mk sample_practice) 100 [50; 0.25]
  = (Ok (py_round (IZR 100 + 0.25)), [])
  /\ (100 <= py_round (IZR 100 + 0.25))%Z.
Proof.
  destruct (generate_registration_date_not_before_birth (RS := recorded)
              (PatientFactory.mk sample_practice) 100
              [50; 0.25] [0.25] [] 50 0.25 eq_refl eq_refl ltac:(lra))
    as [_ Hover].
  apply Hover. lra.
Defined.

Lemma generate_birth_date_bounds_witness :
  exists birth_date,
    PatientFactory._generate_birth_date (RS := recorded)
      (PatientFactory.mk sample_practice) [0.05; 88.75]
    = (Ok birth_date, [])
    /\ (1900 - 1960) * 365.25 - 1 < IZR birth_date
    /\ IZR birth_date < (2000 + 1 - 1960) * 365.25 + 1.
Proof.
  apply (generate_birth_date_bounds (RS := recorded)
           (PatientFactory.mk sample_practice) [0.05; 88.75] [88.75] []
           0.05 88.75 eq_refl eq_refl); simpl; lra.
Defined.

Section EthnicityOfPatient.
Context {rng : Type} {RS : RandomSource rng}.

(** X15.  For a practice whose ethnicity keys are the required six,
    [_generate_ethnicity] never raises.  When the first draw is below the
    [unknown] proportion the result is UNKNOWN and no second draw is made;
    otherwise a second draw is made and the result is one of the five other
    categories. *)
Theorem generate_ethnicity_returns (self : PatientFactory.t)
    (s s1 : rng) (u : R) :
  let props := self.(PatientFactory.practice).(Practice.ethnicity_proportions) in
  set_eqb (Dict.keys props) Practice.required_ethnicities = true ->
  np_random_random s = (u, s1) ->
  exists p_unknown,
    Dict.get props "unknown" = Some p_unknown
    /\ (u < p_unknown ->
        PatientFactory._generate_ethnicity self s = (Ok UNKNOWN, s1))
    /\ (p_unknown <= u ->
        exists e,
          PatientFactory._generate_ethnicity self s
            = (Ok e, snd (np_random_random s1))
          /\ e <> UNKNOWN).
Proof.
  intros props Hkeys Hu.
  unfold set_eqb in Hkeys. apply andb_true_iff in Hkeys.
  destruct Hkeys as [Hsub Hsup].
  assert (Hunk : existsb (String.eqb "unknown") (Dict.keys props) = true).
  { rewrite forallb_forall in Hsup. apply Hsup.
    unfold Practice.required_ethnicities. simpl. tauto. }
  destruct (Dict_get_of_key _ _ Hunk) as [p_unknown Hget].
  exists p_unknown. split; [exact Hget |].
  unfold PatientFactory._generate_ethnicity. fold props.
  rewrite (bind_Ok _ _ _ _ _ (draw_eq _ _ _ _ Hu)).
  unfold dict_getitem. rewrite Hget.
  rewrite (bind_Ok (ret p_unknown) _ s1 s1 p_unknown eq_refl).
  split.
  - intros Hlt. replace (Rltb u p_unknown) with true
      by (symmetry; apply Rltb_true; exact Hlt).
    reflexivity.
  - intros Hge. replace (Rltb u p_unknown) with false
      by (symmetry; apply Rltb_false; exact Hge).
    unfold bind, draw. destruct (np_random_random s1) as [u2 s2]. simpl snd.
    pose proof (ethnicity_loop_known (Dict.items props) (1 - p_unknown) u2 0 Hsub)
      as Hloop.
    destruct (PatientFactory.ethnicity_loop _ _ _ _) as [[e | e] |];
      simpl in Hloop.
    + exists e. split; [reflexivity | exact Hloop].
    + destruct Hloop.
    + exists WHITE. split; [reflexivity | discriminate].
Qed.

End EthnicityOfPatient.

Lemma generate_ethnicity_returns_witness :
  PatientFactory._generate_ethnicity (RS := recorded)
    (PatientFactory.mk sample_practice) [0.005] = (Ok UNKNOWN, []).
Proof.
  destruct (generate_ethnicity_returns (RS := recorded)
              (PatientFactory.mk sample_practice) [0.005] [] 0.005
              eq_refl eq_refl) as (p & Hget & Hlow & _).
  apply Hlow. simpl in Hget. injection Hget as <-. lra.
Defined.

(** ** Patient identifiers within and across practices *)

Lemma _generate_patient_id_small (self : PatientFactory.t) (index : Z) :
  let p := self.(PatientFactory.practice).(Practice.practice_id) in
  (0 <= index)%Z -> (0 <= p <= 999)%Z ->
  PatientFactory._generate_patient_id self index
  = Ok ((index + 1) * 1000 + p)%Z.
Proof.
  intros p Hi Hp.
  rewrite _generate_patient_id_value by (fold p; lia). fold p.
  rewrite length_format_03d by lia.
  assert (Hlen : (String.length (digits p) <= 3)%nat).
  { unfold digits. apply digits_fuel_length_le; [lia |].
    change (10 ^ Z.of_nat 3)%Z with 1000%Z. lia. }
  replace (Nat.max 3 (String.length (digits p))) with 3%nat by lia.
  reflexivity.
Qed.

(** X16.  Patient identifiers do not collide inside a practice, whatever
    its (non-negative) identifier: two sequence indices that give the same
    patient identifier are equal.  Across practices with identifiers up to
    999 the patient identifier determines both the practice and the
    index. *)
Theorem generate_patient_id_injective (self self' : PatientFactory.t)
    (i i' : Z) :
  let p := self.(PatientFactory.practice).(Practice.practice_id) in
  let p' := self'.(PatientFactory.practice).(Practice.practice_id) in
  (0 <= i)%Z -> (0 <= i')%Z -> (0 <= p)%Z -> (0 <= p')%Z ->
  PatientFactory._generate_patient_id self i
    = PatientFactory._generate_patient_id self' i' ->
  (p = p' -> i = i')
  /\ ((p <= 999)%Z -> (p' <= 999)%Z -> i = i' /\ p = p').
Proof.
  intros p p' Hi Hi' Hp Hp' Heq. split.
  - intros Hpp.
    rewrite !_generate_patient_id_value in Heq by (fold p; fold p'; lia).
    fold p in Heq. fold p' in Heq. rewrite <- Hpp in Heq.
    injection Heq as Heq.
    assert (Hpow : (0 < 10 ^ Z.of_nat (String.length (format_03d p)))%Z)
      by (apply Z.pow_pos_nonneg; lia).
    nia.
  - intros Hs Hs'.
    rewrite (_generate_patient_id_small self i) in Heq by (fold p; lia).
    rewrite (_generate_patient_id_small self' i') in Heq by (fold p'; lia).
    fold p in Heq. fold p' in Heq. injection Heq as Heq. lia.
Qed.

Lemma generate_patient_id_injective_witness :
  PatientFactory._generate_patient_id (PatientFactory.mk sample_practice) 0
    = PatientFactory._generate_patient_id (PatientFactory.mk sample_practice) 0
  /\ (0 = 0)%Z /\ (1 = 1)%Z.
Proof.
  split; [reflexivity |].
  refine (proj2 (generate_patient_id_injective
                   (PatientFactory.mk sample_practice)
                   (PatientFactory.mk sample_practice) 0 0
                   _ _ _ _ eq_refl) _ _);
    simpl; lia.
Defined.

(** ** What [create_patient] and [create_patients] return *)

Lemma Patient_new_Ok_inv (pid prid b r : Z) (sx : Sex) (e : Ethnicity)
    (td dd : option Z) (pt : Patient.t) :
  Patient.new pid prid b r sx e td dd = Ok pt ->
  pt = Patient.mk pid prid b r sx e td dd /\ Patient_accepts b r td dd.
Proof.
  intros H. pose proof H as H'. unfold Patient.new in H'.
  apply construct_Ok_inv in H'. destruct H' as [-> _].
  split; [reflexivity |]. apply Patient_new_ok_iff in H. exact H.
Qed.

Lemma insert_by_last {A} (key : A -> Z) (x : A) (l : list A) :
  Forall (fun y => (key y <= key x)%Z) l -> insert_by key x l = l ++ [x].
Proof.
  induction 1 as [| y l Hy Hl IH]; simpl; [reflexivity |].
  destruct (Z.leb_spec (key y) (key x)); [| lia]. rewrite IH. reflexivity.
Qed.

(** Sorting a list whose keys already ascend returns it unchanged. *)
Lemma sort_by_sorted {A} (key : A -> Z) (l : list A) :
  StronglySorted Z.le (map key l) -> sort_by key l = l.
Proof.
  unfold sort_by. intros Hs.
  assert (Hgen : forall acc,
            Forall (fun y => Forall (fun x => (key y <= key x)%Z) l) acc ->
            fold_left (fun sorted x => insert_by key x sorted) l acc = acc ++ l).
  { induction l as [| x l IH]; intros acc Hacc; simpl.
    - now rewrite app_nil_r.
    - simpl in Hs. apply StronglySorted_inv in Hs. destruct Hs as [Hs Hx].
      rewrite insert_by_last.
      + rewrite IH; [now rewrite <- app_assoc | exact Hs |].
        apply Forall_app. split.
        * eapply Forall_impl; [| exact Hacc].
          intros y Hy. now inversion Hy.
        * constructor; [| constructor].
          rewrite Forall_map in Hx. exact Hx.
      + eapply Forall_impl; [| exact Hacc].
        intros y Hy. now inversion Hy. }
  apply (Hgen []). constructor.
Qed.

Lemma StronglySorted_lt_NoDup (l : list Z) : StronglySorted Z.lt l -> NoDup l.
Proof.
  induction 1 as [| x l Hs IH Hx]; constructor; [| exact IH].
  intros Hin. rewrite Forall_forall in Hx. specialize (Hx x Hin). lia.
Qed.

Lemma StronglySorted_lt_le (l : list Z) :
  StronglySorted Z.lt l -> StronglySorted Z.le l.
Proof.
  induction 1 as [| x l Hs IH Hx]; constructor; [exact IH |].
  eapply Forall_impl; [| exact Hx]. intros; lia.
Qed.

Lemma has_duplicates_sorted (l : list Z) :
  StronglySorted Z.lt l -> has_duplicates l = false.
Proof.
  intros Hs. unfold has_duplicates.
  rewrite (nodup_fixed_point Z.eq_dec (StronglySorted_lt_NoDup l Hs)).
  rewrite Nat.eqb_refl. reflexivity.
Qed.

Lemma StronglySorted_map_seq (f : Z -> Z) (a len : nat) :
  (forall i j, (0 <= i < j)%Z -> (f i < f j)%Z) ->
  StronglySorted Z.lt (map f (map Z.of_nat (seq a len))).
Proof.
  intros Hf. revert a. induction len as [| len IH]; intros a; simpl;
    constructor; [apply IH |].
  rewrite map_map, Forall_map. apply Forall_forall.
  intros k Hk. apply in_seq in Hk. apply Hf. lia.
Qed.

Lemma ethnicity_loop_raises_KeyError (items : list (string * R))
    (effective_total u cumsum : R) (e : exn) :
  PatientFactory.ethnicity_loop items effective_total u cumsum = Some (Raise e) ->
  exists k, e = KeyError k.
Proof.
  revert cumsum. induction items as [| [k v] items IH]; intros cumsum;
    cbn [PatientFactory.ethnicity_loop]; [discriminate |].
  destruct (negb _); [| apply IH].
  destruct (Rltb _ _); [| apply IH].
  unfold Ethnicity_getitem.
  repeat (destruct (String.eqb _ _); [discriminate |]).
  intros H. injection H as <-. eauto.
Qed.

Section CreatePatientSpecs.
Context {rng : Type} {RS : RandomSource rng}.

Lemma create_patient_Ok_inv (self : PatientFactory.t) (index : Z)
    (s s' : rng) (pt : Patient.t) :
  PatientFactory.create_patient self index s = (Ok pt, s') ->
  exists pid sx e b r td sa sb,
    pt = Patient.mk pid self.(PatientFactory.practice).(Practice.practice_id)
                    b r sx e td
                    (PatientFactory._generate_death_date self b td)
    /\ PatientFactory._generate_patient_id self index = Ok pid
    /\ PatientFactory._generate_transfer_date self b r sa = (Ok td, sb)
    /\ Patient_accepts b r td (PatientFactory._generate_death_date self b td).
Proof.
  unfold PatientFactory.create_patient. intros H. minv H.
  apply Patient_new_Ok_inv in H. destruct H as [-> Hacc].
  do 8 eexists. split; [reflexivity |].
  split; [eassumption |]. split; [eassumption | exact Hacc].
Qed.

Lemma create_patient_not_duplicate_error (self : PatientFactory.t) (index : Z) :
  raises_only not_duplicate_error (PatientFactory.create_patient self index).
Proof.
  unfold PatientFactory.create_patient.
  apply raises_only_bind.
  { apply raises_only_lift. unfold PatientFactory._generate_patient_id, int_of_str.
    intros e. destruct (match _ with String _ _ => _ | _ => _ end);
      [discriminate | intros H; injection H as <-; discriminate]. }
  intros pid. apply raises_only_bind.
  { unfold PatientFactory._generate_sex. raise_sites. }
  intros sx. apply raises_only_bind.
  { unfold PatientFactory._generate_ethnicity. raise_sites.
    destruct (PatientFactory.ethnicity_loop _ _ _ _) as [r |] eqn:E;
      [| apply raises_only_ret].
    apply raises_only_lift. intros e ->.
    apply ethnicity_loop_raises_KeyError in E. destruct E as [k ->].
    discriminate. }
  intros eth. apply raises_only_bind.
  { unfold PatientFactory._generate_birth_date. raise_sites. }
  intros b. apply raises_only_bind.
  { unfold PatientFactory._generate_registration_date. raise_sites. }
  intros r. apply raises_only_bind.
  { unfold PatientFactory._generate_transfer_date. raise_sites. }
  intros td. apply raises_only_lift.
  unfold Patient.new, Patient.__post_init__.
  intros e Hnew. unfold construct in Hnew. cbv beta in Hnew.
  repeat match type of Hnew with
  | context [if ?c then _ else _] => destruct c
  | context [match ?o with Some _ => _ | None => _ end] => destruct o
  end;
  first [ discriminate Hnew | injection Hnew as <-; discriminate ].
Qed.

(** X17.  A patient returned by [create_patient] belongs to the factory's
    practice and carries the identifier of its index; its birth date is
    before its registration date; a transfer date is at least 11323 and
    after the registration date; a death date is [birth_date + 38351].  It
    has a transfer date together with a death date only when that death
    date is 0: in every other case in which the generators produce both,
    the Patient constructor raises. *)
Theorem create_patient_returns_valid (self : PatientFactory.t) (index : Z)
    (s s' : rng) (pt : Patient.t) :
  PatientFactory.create_patient self index s = (Ok pt, s') ->
  pt.(Patient.practice_id)
    = self.(PatientFactory.practice).(Practice.practice_id)
  /\ PatientFactory._generate_patient_id self index = Ok pt.(Patient.patient_id)
  /\ (pt.(Patient.birth_date) < pt.(Patient.registration_date))%Z
  /\ (forall t, pt.(Patient.transfer_date) = Some t ->
        (11323 <= t)%Z /\ (pt.(Patient.registration_date) < t)%Z)
  /\ (forall d, pt.(Patient.death_date) = Some d ->
        d = (pt.(Patient.birth_date) + 38351)%Z)
  /\ (forall t d, pt.(Patient.transfer_date) = Some t ->
        pt.(Patient.death_date) = Some d -> d = 0%Z).
Proof.
  intros H. apply create_patient_Ok_inv in H.
  destruct H as (pid & sx & e & b & r & td & sa & sb & -> & Hid & Htd & Hacc).
  cbn [Patient.practice_id Patient.patient_id Patient.birth_date
       Patient.registration_date Patient.transfer_date Patient.death_date].
  destruct Hacc as (Hbr & Ht & Hd).
  assert (Htr : forall t, td = Some t -> (11323 <= t)%Z /\ (r < t)%Z).
  { intros t ->. apply _generate_transfer_date_Ok_inv in Htd.
    destruct Htd as [Hlo _]. split; [exact Hlo |].
    apply (Ht t eq_refl). lia. }
  split; [reflexivity |]. split; [exact Hid |]. split; [exact Hbr |].
  split; [exact Htr |]. split.
  - intros d Hdd. destruct td as [t |].
    + apply _generate_death_date_le_transfer in Hdd. tauto.
    + unfold PatientFactory._generate_death_date in Hdd.
      rewrite py_int_death_offset in Hdd.
      destruct (Rleb _ _ && true); [| discriminate].
      injection Hdd as <-. reflexivity.
  - intros t d -> Hdd.
    destruct (Z.eq_dec d 0) as [Hz | Hnz]; [exact Hz | exfalso].
    pose proof (_generate_death_date_le_transfer _ _ _ _ Hdd) as [_ Hle].
    destruct (Hd d Hdd Hnz) as [_ Hlt].
    destruct (Htr t eq_refl) as [Hlo _].
    specialize (Hlt t eq_refl ltac:(lia)). lia.
Qed.

(** X18.  For a practice with a non-negative identifier, [create_patients]
    never raises "Duplicate patient IDs found".  The roster it returns has
    one patient per index 0 .. patient_count - 1 in generation order (the
    sort changes nothing), with identifiers
    [(index + 1) * 10 ^ width + practice_id], strictly ascending, [width]
    being the length of the padded practice identifier. *)
Theorem create_patients_roster (self : PatientFactory.t) (s : rng) :
  let practice := self.(PatientFactory.practice) in
  let pid := practice.(Practice.practice_id) in
  let width := Z.of_nat (String.length (format_03d pid)) in
  (0 <= pid)%Z ->
  (forall s',
      PatientFactory.create_patients self s
        <> (Raise (ValueError DuplicatePatientIds), s'))
  /\ (forall patients s',
        PatientFactory.create_patients self s = (Ok patients, s') ->
        map Patient.patient_id patients
          = map (fun i => ((i + 1) * 10 ^ width + pid)%Z)
                (range practice.(Practice.patient_count))
        /\ Z.of_nat (List.length patients)
           = Z.max 0 practice.(Practice.patient_count)
        /\ StronglySorted Z.lt (map Patient.patient_id patients)
        /\ Forall (fun pt => pt.(Patient.practice_id) = pid) patients).
Proof.
  intros practice pid width Hpid.
  set (f := fun i => ((i + 1) * 10 ^ width + pid)%Z).
  assert (Hf : forall i j, (0 <= i < j)%Z -> (f i < f j)%Z).
  { intros i j Hij. unfold f.
    assert (0 < 10 ^ width)%Z by (apply Z.pow_pos_nonneg; lia). nia. }
  assert (Hmap : forall l patients s0 s1,
            (forall i, In i l -> (0 <= i)%Z) ->
            mapM (PatientFactory.create_patient self) l s0 = (Ok patients, s1) ->
            map Patient.patient_id patients = map f l
            /\ Forall (fun pt => pt.(Patient.practice_id) = pid) patients).
  { induction l as [| i l IH]; intros patients s0 s1 Hl H; simpl in H.
    - apply ret_Ok_inv in H. destruct H as [-> _]. split; constructor.
    - minv H. subst patients.
      match goal with
      | G : PatientFactory.create_patient _ _ _ = _ |- _ =>
          apply create_patient_Ok_inv in G;
          destruct G as (p0 & sx & e & b & r & td & sa & sb & -> & Hid & _)
      end.
      rewrite (_generate_patient_id_value self i
                 (Hl i (or_introl eq_refl)) Hpid) in Hid.
      injection Hid as <-.
      match goal with
      | G : mapM _ _ _ = _ |- _ => apply IH in G; [destruct G as [G1 G2] |]
      end.
      + simpl. rewrite G1. split; [reflexivity |].
        constructor; [reflexivity | exact G2].
      + intros j Hj. apply Hl. right. exact Hj. }
  assert (Hrange : forall i, In i (range (Practice.patient_count practice)) ->
                             (0 <= i)%Z).
  { intros i Hi. unfold range in Hi. apply in_map_iff in Hi.
    destruct Hi as (k & <- & _). lia. }
  assert (Hsorted : StronglySorted Z.lt
            (map f (range (Practice.patient_count practice)))).
  { unfold range. apply StronglySorted_map_seq, Hf. }
  unfold PatientFactory.create_patients. fold practice.
  split.
  - intros s' H. unfold bind in H.
    destruct (mapM _ _ s) as [[patients | e] s1] eqn:E.
    + destruct (Hmap _ _ _ _ Hrange E) as [Hids _].
      rewrite Hids, has_duplicates_sorted in H by exact Hsorted.
      discriminate H.
    + injection H as -> _.
      assert (Hsites : raises_only not_duplicate_error
                (mapM (PatientFactory.create_patient self)
                      (range (Practice.patient_count practice)))).
      { apply raises_only_mapM. intros i.
        apply create_patient_not_duplicate_error. }
      apply (Hsites _ _ _ E). reflexivity.
  - intros patients s' H. unfold bind in H.
    destruct (mapM _ _ s) as [[ps | e] s1] eqn:E; [| discriminate H].
    destruct (Hmap _ _ _ _ Hrange E) as [Hids Hprac].
    rewrite Hids, has_duplicates_sorted in H by exact Hsorted.
    apply ret_Ok_inv in H. destruct H as [-> _].
    rewrite sort_by_sorted
      by (rewrite Hids; apply StronglySorted_lt_le, Hsorted).
    split; [exact Hids |]. split; [| split; [| exact Hprac]].
    + apply (f_equal (@List.length Z)) in Hids.
      unfold range in Hids. rewrite !length_map, length_seq in Hids. lia.
    + rewrite Hids. exact Hsorted.
Qed.

End CreatePatientSpecs.

Lemma create_patient_returns_valid_witness :
  (-21915 < 0)%Z
  /\ PatientFactory._generate_patient_id (PatientFactory.mk sample_practice) 0
     = Ok 1001%Z.
Proof.
  destruct (create_patient_returns_valid (RS := recorded)
              (PatientFactory.mk sample_practice) 0 [] []
              (Patient.mk 1001 1 (-21915) 0 MALE UNKNOWN None (Some 16436%Z))
              create_patient_all_zero_draws)
    as (_ & Hid & Hlt & _).
  split; [exact Hlt | exact Hid].
Defined.

(** [create_patient] in [pair_practice] when every draw is 0. *)
Lemma create_patient_pair_zero_draws (i : Z) :
  (0 <= i)%Z ->
  PatientFactory.create_patient (RS := recorded)
    (PatientFactory.mk pair_practice) i []
  = (Ok (Patient.mk ((i + 1) * 1000 + 1) 1 (-21915) 0 MALE UNKNOWN None
                    (Some 16436%Z)), []).
Proof.
  intros Hi. unfold PatientFactory.create_patient.
  rewrite (_generate_patient_id_small (PatientFactory.mk pair_practice) i)
    by (simpl; lia).
  cbn [PatientFactory.practice pair_practice Practice.practice_id].
  unfold lift at 1. unfold bind at 1.
  assert (Hsex : PatientFactory._generate_sex (RS := recorded)
                   (PatientFactory.mk pair_practice) [] = (Ok MALE, [])).
  { unfold PatientFactory._generate_sex.
    unfold bind, draw, ret. cbn [np_random_random recorded Replay pop].
    cbn [PatientFactory.practice pair_practice Practice.male_proportion].
    rcmp. reflexivity. }
  rewrite (bind_Ok _ _ _ _ _ Hsex).
  assert (Heth : PatientFactory._generate_ethnicity (RS := recorded)
                   (PatientFactory.mk pair_practice) [] = (Ok UNKNOWN, [])).
  { unfold PatientFactory._generate_ethnicity.
    cbn [PatientFactory.practice pair_practice Practice.ethnicity_proportions].
    unfold bind, draw, dict_getitem.
    cbn [np_random_random recorded Replay pop].
    unfold sample_ethnicity_proportions.
    cbn [Dict.get String.eqb Ascii.eqb Bool.eqb].
    unfold ret. rcmp. reflexivity. }
  rewrite (bind_Ok _ _ _ _ _ Heth).
  assert (Hbirth : PatientFactory._generate_birth_date (RS := recorded)
                     (PatientFactory.mk pair_practice) []
                   = (Ok (-21915)%Z, [])).
  { unfold PatientFactory._generate_birth_date.
    cbn [PatientFactory.practice pair_practice Practice.birth_years
         sample_birth_years BirthYearParameters.earliest_birth_year
         BirthYearParameters.latest_birth_year].
    unfold bind, draw, ret.
    cbn [stats_beta_rvs np_random_uniform recorded Replay pop].
    replace ((1900 + 0 * (2000 - 1900) - 1960) * 365.25 + 0)
      with (- IZR 21915) by lra.
    unfold py_int. rcmp. rewrite Ropp_involutive.
    rewrite (floor_unique (IZR 21915) 21915) by lra. reflexivity. }
  rewrite (bind_Ok _ _ _ _ _ Hbirth).
  assert (Hreg : PatientFactory._generate_registration_date (RS := recorded)
                   (PatientFactory.mk pair_practice) (-21915) []
                 = (Ok 0%Z, [])).
  { unfold PatientFactory._generate_registration_date.
    cbn [PatientFactory.practice pair_practice Practice.registration_dates
         sample_registration_dates RegistrationDates.earliest_registration
         RegistrationDates.latest_registration].
    unfold bind, draw, ret. cbn [np_random_uniform recorded Replay pop].
    rcmp. rewrite py_round_IZR. reflexivity. }
  rewrite (bind_Ok _ _ _ _ _ Hreg).
  assert (Htr : PatientFactory._generate_transfer_date (RS := recorded)
                  (PatientFactory.mk pair_practice) (-21915) 0 []
                = (Ok None, [])).
  { unfold PatientFactory._generate_transfer_date.
    cbn [PatientFactory.practice pair_practice Practice.registration_dates
         Practice.transfer_params sample_transfer_params
         sample_registration_dates TransferParameters.transfer_probability
         TransferParameters.minimum_gap TransferParameters.maximum_gap
         RegistrationDates.latest_registration].
    unfold bind, draw, ret.
    cbn [np_random_random np_random_uniform recorded Replay pop].
    rcmp. cbn [np_random_random np_random_uniform recorded Replay pop].
    rewrite py_max_Rmax, Rmax_left by lra.
    rcmp. reflexivity. }
  rewrite (bind_Ok _ _ _ _ _ Htr).
  assert (Hdeath : PatientFactory._generate_death_date
                     (PatientFactory.mk pair_practice) (-21915) None
                   = Some 16436%Z).
  { unfold PatientFactory._generate_death_date.
    rewrite py_int_death_offset.
    cbn [PatientFactory.practice pair_practice Practice.registration_dates
         sample_registration_dates RegistrationDates.latest_registration].
    change (-21915 + 38351)%Z with 16436%Z.
    rcmp. reflexivity. }
  rewrite Hdeath.
  reflexivity.
Qed.

Lemma create_patients_roster_witness :
  map Patient.patient_id
      [ Patient.mk 1001 1 (-21915) 0 MALE UNKNOWN None (Some 16436%Z);
        Patient.mk 2001 1 (-21915) 0 MALE UNKNOWN None (Some 16436%Z) ]
  = map (fun i => ((i + 1) * 10 ^ Z.of_nat (String.length (format_03d 1)) + 1)%Z)
        (range 2).
Proof.
  destruct (create_patients_roster (RS := recorded)
              (PatientFactory.mk pair_practice) [] ltac:(simpl; lia))
    as [_ Hroster].
  refine (proj1 (Hroster _ [] _)).
  unfold PatientFactory.create_patients.
  cbn [PatientFactory.practice pair_practice Practice.patient_count].
  change (range 2) with [0; 1]%Z. cbn [mapM].
  unfold bind.
  rewrite (create_patient_pair_zero_draws 0 ltac:(lia)). cbv beta iota.
  rewrite (create_patient_pair_zero_draws 1 ltac:(lia)). cbv beta iota.
  reflexivity.
Defined.

(** ** Growing the number of practices *)

Section CreatePracticesPrefix.
Context {rng : Type} {RS : RandomSource rng}.

Lemma mapM_app {A B} (f : A -> M rng B) (l1 l2 : list A) (s : rng) :
  mapM f (l1 ++ l2) s
  = bind (mapM f l1)
         (fun bs1 => bind (mapM f l2) (fun bs2 => ret (bs1 ++ bs2))) s.
Proof.
  revert s. induction l1 as [| a l1 IH]; intros s; simpl.
  - unfold bind, ret. destruct (mapM f l2 s) as [[bs | e] s1]; reflexivity.
  - unfold bind at 1 3 4. destruct (f a s) as [[b | e] s1]; [| reflexivity].
    unfold bind at 1 3. rewrite IH. unfold bind, ret.
    destruct (mapM f l1 s1) as [[bs1 | e] s2]; [| reflexivity].
    destruct (mapM f l2 s2) as [[bs2 | e] s3]; reflexivity.
Qed.

Lemma range_succ (n : Z) : (0 <= n)%Z -> range (n + 1) = range n ++ [n].
Proof.
  intros Hn. unfold range.
  replace (Z.to_nat (n + 1)) with (Z.to_nat n + 1)%nat by lia.
  rewrite seq_app, map_app. simpl. rewrite Z2Nat.id by lia. reflexivity.
Qed.

(** X19.  Asking for one practice more leaves the earlier ones as they
    were: when [create_practices(n)] returns a list and leaves the generator
    in some state, [create_practices(n + 1)] from the same start is that
    list followed by [create_practice(n + 1)] run from that state, or the
    exception this last call raises. *)
Theorem create_practices_prefix (self : StandardPracticeFactory.t) (n : Z)
    (s s1 : rng) (practices : list Practice.t) :
  (1 <= n)%Z ->
  StandardPracticeFactory.create_practices self n s = (Ok practices, s1) ->
  StandardPracticeFactory.create_practices self (n + 1) s
  = match StandardPracticeFactory.create_practice self (n + 1) s1 with
    | (Ok p, s2) => (Ok (practices ++ [p]), s2)
    | (Raise e, s2) => (Raise e, s2)
    end.
Proof.
  intros Hn H. unfold StandardPracticeFactory.create_practices in *.
  destruct (Z.leb_spec n 0); [lia |].
  destruct (Z.leb_spec (n + 1) 0); [lia |].
  rewrite range_succ by lia. rewrite mapM_app.
  rewrite (bind_Ok _ _ _ _ _ H). cbn [mapM].
  unfold bind, ret.
  destruct (StandardPracticeFactory.create_practice self (n + 1) s1)
    as [[p | e] s2]; reflexivity.
Qed.

End CreatePracticesPrefix.

Lemma create_practices_prefix_witness :
  StandardPracticeFactory.create_practices (RS := recorded)
    (StandardPracticeFactory.mk get_default_config) (1 + 1)
    (practice_recording ++ practice_recording ++ [])
  = (Ok ([skewed_practice 1] ++ [skewed_practice 2]), []).
Proof.
  rewrite (create_practices_prefix (RS := recorded)
             (StandardPracticeFactory.mk get_default_config) 1
             (practice_recording ++ practice_recording ++ [])
             (practice_recording ++ []) [skewed_practice 1] ltac:(lia)).
  - change (1 + 1)%Z with 2%Z.
    rewrite (create_practice_recorded 2 [] ltac:(lia)). reflexivity.
  - unfold StandardPracticeFactory.create_practices.
    change (range 1) with [0]%Z. cbn [Z.leb Z.compare mapM].
    change (0 + 1)%Z with 1%Z.
    unfold bind.
    rewrite (create_practice_recorded 1 _ ltac:(lia)). reflexivity.
Defined.

(** ** Enum names and the saved row *)

(** X20.  Upper-casing the text of an [Ethnicity] member and looking it up
    by name gives the member back, distinct members have distinct texts,
    the texts of the six members are the keys a Practice requires, and a
    name whose lookup succeeds is the upper-cased text of the member
    found. *)
Theorem Ethnicity_text_round_trip :
  (forall e, Ethnicity_getitem (upper (Ethnicity_str e)) = Ok e)
  /\ (forall e e', Ethnicity_str e = Ethnicity_str e' -> e = e')
  /\ set_eqb (map Ethnicity_str
                  [WHITE; SOUTH_ASIAN; BLACK; MIXED; OTHER; UNKNOWN])
             Practice.required_ethnicities = true
  /\ (forall name e,
        Ethnicity_getitem name = Ok e -> name = upper (Ethnicity_str e)).
Proof.
  split; [| split; [| split]].
  - intros []; reflexivity.
  - intros [] []; simpl; intros H; try reflexivity; discriminate H.
  - reflexivity.
  - intros name e. unfold Ethnicity_getitem.
    repeat match goal with
    | |- context [String.eqb name ?k] =>
        destruct (String.eqb_spec name k) as [-> | _];
        [intros H; injection H as <-; reflexivity |]
    end.
    discriminate.
Qed.

Section SavedRow.
Context {rng : Type} {RS : RandomSource rng}.

(** X21.  In the row [save_patients] builds for a patient that
    [create_patient] returned, the transfer date is the patient's own (it is
    never 0), the death date is the patient's own unless that is 0, which is
    written as missing, and the identifiers, birth date and registration
    date are copied. *)
Theorem saved_row_of_created_patient (self : PatientFactory.t) (index : Z)
    (s s' : rng) (pt : Patient.t) :
  PatientFactory.create_patient self index s = (Ok pt, s') ->
  let row := PatientFactory.save_row pt in
  row.(PatientFactory.tod) = pt.(Patient.transfer_date)
  /\ (row.(PatientFactory.deathdate) = pt.(Patient.death_date)
      \/ (pt.(Patient.death_date) = Some 0%Z
          /\ row.(PatientFactory.deathdate) = None))
  /\ row.(PatientFactory.patid) = pt.(Patient.patient_id)
  /\ row.(PatientFactory.pracid)
     = self.(PatientFactory.practice).(Practice.practice_id)
  /\ row.(PatientFactory.dob_hidden) = pt.(Patient.birth_date)
  /\ row.(PatientFactory.crd) = pt.(Patient.registration_date).
Proof.
  intros H row. apply create_patient_Ok_inv in H.
  destruct H as (pid & sx & e & b & r & td & sa & sb & -> & Hid & Htd & Hacc).
  unfold row, PatientFactory.save_row.
  cbn [Patient.practice_id Patient.patient_id Patient.birth_date
       Patient.registration_date Patient.transfer_date Patient.death_date
       PatientFactory.tod PatientFactory.deathdate PatientFactory.patid
       PatientFactory.pracid PatientFactory.dob_hidden PatientFactory.crd].
  split; [| split; [| repeat split]].
  - destruct td as [t |]; [| reflexivity].
    apply _generate_transfer_date_Ok_inv in Htd. destruct Htd as [Hlo _].
    unfold truthy. destruct (Z.eqb_spec t 0); [lia | reflexivity].
  - destruct (PatientFactory._generate_death_date self b td) as [d |];
      [| left; reflexivity].
    unfold truthy. destruct (Z.eqb_spec d 0) as [-> | Hnz];
      [right; split; reflexivity | left; reflexivity].
Qed.

End SavedRow.

Lemma saved_row_of_created_patient_witness :
  (PatientFactory.save_row
     (Patient.mk 1001 1 (-21915) 0 MALE UNKNOWN None (Some 16436%Z)))
    .(PatientFactory.tod) = None
  /\ (PatientFactory.save_row
        (Patient.mk 1001 1 (-21915) 0 MALE UNKNOWN None (Some 16436%Z)))
       .(PatientFactory.patid) = 1001%Z.
Proof.
  destruct (saved_row_of_created_patient (RS := recorded)
              (PatientFactory.mk sample_practice) 0 [] []
              (Patient.mk 1001 1 (-21915) 0 MALE UNKNOWN None (Some 16436%Z))
              create_patient_all_zero_draws)
    as (H1 & _ & H2 & _).
  split; [exact H1 | exact H2].
Defined.
